(** * notifier: schedule builder, payload sanitizers and the send guard

    A shallow embedding of [lib/utils.js] and of the [Notifier] object
    (configure / create / update / remove / _send), over a small model of
    the JavaScript values the code handles.

    - strings are sequences of UTF-16 code units, as [String.length] counts
      them;
    - objects and arrays live in a store and are handled by reference, so
      that writes through one alias are seen through every other;
    - a call either returns or throws; the store survives a throw. *)

From Stdlib Require Import ZArith NArith Ascii String List Lia Bool.
From stdpp Require Import base list.

Local Open Scope Z_scope.

(** ** Strings *)

Definition char := N.
Definition jsstring := list char.

(** An ASCII literal of the source text as a sequence of code units. *)
Definition js (s : string) : jsstring :=
  map N_of_ascii (list_ascii_of_string s).

Fixpoint str_eqb (s t : jsstring) : bool :=
  match s, t with
  | [], [] => true
  | c :: s', d :: t' => N.eqb c d && str_eqb s' t'
  | _, _ => false
  end.

Definition str_length (s : jsstring) : Z := Z.of_nat (length s).

Fixpoint join (sep : jsstring) (parts : list jsstring) : jsstring :=
  match parts with
  | [] => []
  | [p] => p
  | p :: rest => p ++ sep ++ join sep rest
  end.

Definition is_digit (c : char) : bool := (48 <=? c)%N && (c <=? 57)%N.

Fixpoint uint_chars (u : Decimal.uint) : jsstring :=
  match u with
  | Decimal.Nil => []
  | Decimal.D0 u => 48%N :: uint_chars u
  | Decimal.D1 u => 49%N :: uint_chars u
  | Decimal.D2 u => 50%N :: uint_chars u
  | Decimal.D3 u => 51%N :: uint_chars u
  | Decimal.D4 u => 52%N :: uint_chars u
  | Decimal.D5 u => 53%N :: uint_chars u
  | Decimal.D6 u => 54%N :: uint_chars u
  | Decimal.D7 u => 55%N :: uint_chars u
  | Decimal.D8 u => 56%N :: uint_chars u
  | Decimal.D9 u => 57%N :: uint_chars u
  end.

Definition N_to_string (n : N) : jsstring := uint_chars (N.to_uint n).

Definition Z_to_string (z : Z) : jsstring :=
  if z <? 0 then js "-" ++ N_to_string (Z.to_N (- z))
  else N_to_string (Z.to_N z).

(** The index a canonical array-index key denotes ("0", "1", "12", ...). *)
Definition parse_index (k : jsstring) : option nat :=
  if forallb is_digit k then
    let n := fold_left (fun acc c => (acc * 10 + (c - 48))%N) k 0%N in
    if str_eqb (N_to_string n) k then Some (N.to_nat n) else None
  else None.

(** ** Values and the store *)

(** Numbers: NaN and the integers, each integer standing for the double of
    that value.  Every number the code computes (epoch milliseconds,
    calendar fields, string lengths) is one of these; a fraction or an
    infinity in a payload is outside the model. *)
Inductive number :=
  | NaN
  | Int (z : Z).

Abbreviation loc := nat (only parsing).

Inductive value :=
  | VUndefined
  | VNull
  | VBool (b : bool)
  | VNum (n : number)
  | VStr (s : jsstring)
  | VRef (l : loc).

(** Own properties in enumeration order, which is the order of insertion
    for the keys the code uses (an engine moves integer-like keys of a plain
    object to the front; such keys are outside the model). *)
Definition props := list (jsstring * value).

Inductive object :=
  | OObj (ps : props)
  | OArr (es : list value) (ps : props).

Abbreviation heap := (list object) (only parsing).

Inductive exn :=
  | Error (msg : jsstring)
  | TypeError (msg : jsstring).

Inductive completion (A : Type) :=
  | Return (a : A)
  | Throw (e : exn).
Arguments Return {A} a.
Arguments Throw {A} e.

(** ** Property lists *)

Fixpoint get_prop (ps : props) (k : jsstring) : value :=
  match ps with
  | [] => VUndefined
  | (k', v) :: ps' => if str_eqb k' k then v else get_prop ps' k
  end.

Fixpoint has_prop (ps : props) (k : jsstring) : bool :=
  match ps with
  | [] => false
  | (k', _) :: ps' => str_eqb k' k || has_prop ps' k
  end.

(** Assignment keeps the position of an existing key and appends a new one. *)
Fixpoint set_prop (ps : props) (k : jsstring) (v : value) : props :=
  match ps with
  | [] => [(k, v)]
  | (k', v') :: ps' =>
      if str_eqb k' k then (k', v) :: ps' else (k', v') :: set_prop ps' k v
  end.

Definition assign_props (target source : props) : props :=
  fold_left (fun acc kv => set_prop acc (fst kv) (snd kv)) source target.

Definition indexed {A} (f : A -> value) (xs : list A) : props :=
  imap (fun i x => (N_to_string (N.of_nat i), f x)) xs.

(** ** The monad of calls: a store, and a result or an exception *)

Definition M (A : Type) : Type := heap -> completion A * heap.

Definition ret {A} (a : A) : M A := fun h => (Return a, h).

Definition throw {A} (e : exn) : M A := fun h => (Throw e, h).

Definition bind {A B} (m : M A) (k : A -> M B) : M B :=
  fun h =>
    match m h with
    | (Return a, h') => k a h'
    | (Throw e, h') => (Throw e, h')
    end.

Notation "'let*' x ':=' m 'in' k" := (bind m (fun x => k))
  (at level 10, x pattern, m at level 100, k at level 200).
Notation "m ';;' k" := (bind m (fun _ => k))
  (at level 100, k at level 200, right associativity).

Definition read {A} (f : heap -> A) : M A := fun h => (Return (f h), h).

Definition alloc (o : object) : M value :=
  fun h => (Return (VRef (length h)), h ++ [o]).

(** [arr.forEach(f)] over a literal array of the source. *)
Fixpoint forEach {A} (xs : list A) (f : A -> M unit) : M unit :=
  match xs with
  | [] => ret tt
  | x :: xs' => f x ;; forEach xs' f
  end.

Definition cannot_read : exn :=
  TypeError (js "Cannot read properties of undefined or null").
Definition cannot_set : exn :=
  TypeError (js "Cannot set properties of undefined or null").

Definition obj_get (o : object) (k : jsstring) : value :=
  match o with
  | OObj ps => get_prop ps k
  | OArr es ps =>
      if str_eqb k (js "length") then VNum (Int (Z.of_nat (length es)))
      else match parse_index k with
           | Some i => default VUndefined (es !! i)
           | None => get_prop ps k
           end
  end.

(** Writing an array element keeps the array dense: the code never writes
    one, and a write past the end is left out of the model. *)
Definition obj_set (o : object) (k : jsstring) (v : value) : object :=
  match o with
  | OObj ps => OObj (set_prop ps k v)
  | OArr es ps =>
      match parse_index k with
      | Some i => OArr (<[i:=v]> es) ps
      | None => OArr es (set_prop ps k v)
      end
  end.

(** [v.k] and [v[k]].  None of the keys the code reads is a property of a
    built-in prototype, so a key that is not an own property is
    [undefined]. *)
Definition getp (v : value) (k : jsstring) : M value :=
  match v with
  | VUndefined | VNull => throw cannot_read
  | VRef l => read (fun h => match h !! l with
                           | Some o => obj_get o k
                           | None => VUndefined
                           end)
  | VStr s =>
      if str_eqb k (js "length") then ret (VNum (Int (str_length s)))
      else match parse_index k with
           | Some i => ret (match s !! i with
                            | Some c => VStr [c]
                            | None => VUndefined
                            end)
           | None => ret VUndefined
           end
  | _ => ret VUndefined
  end.

(** [v.k = x].  The files are not in strict mode: a write to a property of
    a primitive is dropped silently. *)
Definition setp (v : value) (k : jsstring) (x : value) : M unit :=
  match v with
  | VUndefined | VNull => throw cannot_set
  | VRef l => fun h => (Return tt, match h !! l with
                                   | Some o => <[l := obj_set o k x]> h
                                   | None => h
                                   end)
  | _ => ret tt
  end.

(** Own enumerable properties, as [Object.keys] and [Object.assign] see
    them. *)
Definition own_props (h : heap) (v : value) : props :=
  match v with
  | VRef l => match h !! l with
              | Some (OObj ps) => ps
              | Some (OArr es ps) => indexed (fun e => e) es ++ ps
              | None => []
              end
  | VStr s => indexed (fun c => VStr [c]) s
  | _ => []
  end.

Definition Object_keys (v : value) : M (list jsstring) :=
  match v with
  | VUndefined | VNull =>
      throw (TypeError (js "Cannot convert undefined or null to object"))
  | _ => read (fun h => map fst (own_props h v))
  end.

(** [{ ...a, ...b }]: a fresh object on which the own properties of [a],
    then of [b], are defined. *)
Definition spread_fresh (a b : value) : M value :=
  let* pa := read (fun h => own_props h a) in
  let* pb := read (fun h => own_props h b) in
  alloc (OObj (assign_props (assign_props [] pa) pb)).

(** What [Object.assign] does with the properties of one source: it
    assigns them.  Assigning the key [__proto__] to a plain object reaches
    the setter of [Object.prototype] and makes no own property. *)
Definition assign_set (target source : props) : props :=
  fold_left (fun acc kv => if str_eqb (fst kv) (js "__proto__") then acc
                           else set_prop acc (fst kv) (snd kv))
    source target.

(** [Object.assign({}, a, b)]: a fresh object that is assigned the own
    properties of [a], then of [b].  An object or [null] assigned to
    [__proto__] becomes the prototype of the result.  The store has no
    prototypes: what the result would inherit that way is not in the
    model, and the properties below that read from such a copy are about
    sources without an own [__proto__] key. *)
Definition Object_assign_fresh (a b : value) : M value :=
  let* pa := read (fun h => own_props h a) in
  let* pb := read (fun h => own_props h b) in
  alloc (OObj (assign_set (assign_set [] pa) pb)).

(** ** Conversions of the language *)

Definition truthy (v : value) : bool :=
  match v with
  | VUndefined | VNull => false
  | VBool b => b
  | VNum NaN => false
  | VNum (Int z) => negb (z =? 0)
  | VStr s => match s with [] => false | _ => true end
  | VRef _ => true
  end.

(** [a || b] *)
Definition js_or (a b : value) : value := if truthy a then a else b.

Definition number_eqb (a b : number) : bool :=
  match a, b with
  | Int x, Int y => x =? y
  | _, _ => false
  end.

(** [a === b] *)
Definition strict_eq (a b : value) : bool :=
  match a, b with
  | VUndefined, VUndefined => true
  | VNull, VNull => true
  | VBool x, VBool y => Bool.eqb x y
  | VNum x, VNum y => number_eqb x y
  | VStr x, VStr y => str_eqb x y
  | VRef x, VRef y => Nat.eqb x y
  | _, _ => false
  end.

(** The double nearest to a non-negative integer, ties to the even
    significand. *)
Definition round_to_double (z : Z) : Z :=
  let e := Z.log2 z - 52 in
  if e <=? 0 then z
  else
    let q := z / 2 ^ e in
    let r := z mod 2 ^ e in
    let half := 2 ^ (e - 1) in
    if (half <? r) || ((r =? half) && Z.odd q) then (q + 1) * 2 ^ e
    else q * 2 ^ e.

(** The shortest decimal that reads back as the double [z], a number of
    [n] digits: its digits as an integer of [k] digits or more, and the
    number of digits before its decimal point.  Of two candidates with [k]
    digits the nearer to [z] is taken. *)
Fixpoint shortest (z n : Z) (tries : nat) (k : Z) : Z * Z :=
  match tries with
  | O => (z, n)
  | S tries' =>
      let p := 10 ^ (n - k) in
      let lo := z / p in
      let hi := lo + 1 in
      let ok_lo := round_to_double (lo * p) =? z in
      let ok_hi := round_to_double (hi * p) =? z in
      let below := z - lo * p in
      let above := hi * p - z in
      let up := if ok_lo && ok_hi
                then (above <? below) || ((above =? below) && Z.odd lo)
                else ok_hi in
      if ok_lo || ok_hi then
        if up then (if hi =? 10 ^ k then (1, n + 1) else (hi, n))
        else (lo, n)
      else shortest z n tries' (k + 1)
  end.

(** A non-negative integer as a string.  Below 2^53 every digit is
    printed.  From there on a double has at most 17 significant digits:
    the shortest ones that read back as the same double are printed,
    followed by zeros up to 21 digits, and in exponent form beyond. *)
Definition positive_toString (z : Z) : jsstring :=
  if z <? 2 ^ 53 then N_to_string (Z.to_N z)
  else
    let '(s, n) := shortest z (str_length (N_to_string (Z.to_N z))) 17 1 in
    let digits := N_to_string (Z.to_N s) in
    if n <=? 21 then digits ++ repeat 48%N (Z.to_nat (n - str_length digits))
    else match digits with
         | [] => []
         | [d] => [d] ++ js "e+" ++ N_to_string (Z.to_N (n - 1))
         | d :: more =>
             [d] ++ js "." ++ more ++ js "e+" ++ N_to_string (Z.to_N (n - 1))
         end.

(** Number to string. *)
Definition Number_toString (n : number) : jsstring :=
  match n with
  | NaN => js "NaN"
  | Int z => if z <? 0 then js "-" ++ positive_toString (- z)
             else positive_toString z
  end.

(** String conversion as a template literal performs it.  A plain object
    prints as [[object Object]]; an array joins its elements with commas.
    The fuel bounds the nesting of arrays by the size of the store: only a
    cyclic array exhausts it, and is cut off with the empty string. *)
Fixpoint ToString_fuel (fuel : nat) (h : heap) (v : value) : jsstring :=
  match v with
  | VUndefined => js "undefined"
  | VNull => js "null"
  | VBool true => js "true"
  | VBool false => js "false"
  | VNum n => Number_toString n
  | VStr s => s
  | VRef l =>
      match h !! l with
      | Some (OArr es _) =>
          match fuel with
          | O => []
          | S fuel' =>
              join (js ",")
                (map (fun e => match e with
                               | VUndefined | VNull => []
                               | _ => ToString_fuel fuel' h e
                               end) es)
          end
      | _ => js "[object Object]"
      end
  end.

Definition ToString (h : heap) (v : value) : jsstring :=
  ToString_fuel (length h) h v.

Definition number_add (a b : number) : number :=
  match a, b with
  | Int x, Int y => Int (x + y)
  | _, _ => NaN
  end.

Definition number_mul (a b : number) : number :=
  match a, b with
  | Int x, Int y => Int (x * y)
  | _, _ => NaN
  end.

Definition isNaN (n : number) : bool :=
  match n with NaN => true | Int _ => false end.

(** ** The calendar of [Date] (UTC) *)

Definition msPerDay : Z := 86400000.

(** A time value further than 8.64e15 ms from the epoch is no date. *)
Definition TimeClip (n : number) : number :=
  match n with
  | NaN => NaN
  | Int t => if Z.abs t <=? 8640000000000000 then Int t else NaN
  end.

Definition Day (t : Z) : Z := t / msPerDay.

(** Year, month (1..12) and day of the month of a day number counted from
    1970-01-01, in the proleptic Gregorian calendar. *)
Definition civil_from_days (d : Z) : Z * Z * Z :=
  let z := d + 719468 in
  let era := z / 146097 in
  let doe := z mod 146097 in
  let yoe := (doe - doe / 1460 + doe / 36524 - doe / 146096) / 365 in
  let doy := doe - (365 * yoe + yoe / 4 - yoe / 100) in
  let mp := (5 * doy + 2) / 153 in
  let dd := doy - (153 * mp + 2) / 5 + 1 in
  let mm := if mp <? 10 then mp + 3 else mp - 9 in
  let yy := yoe + era * 400 + (if mm <=? 2 then 1 else 0) in
  (yy, mm, dd).

(** A [Date] is its time value: an integer of milliseconds, or NaN. *)
Definition on_time (f : Z -> Z) (date : number) : number :=
  match date with
  | NaN => NaN
  | Int t => Int (f t)
  end.

Definition getUTCMinutes : number -> number :=
  on_time (fun t => (t / 60000) mod 60).
Definition getUTCHours : number -> number :=
  on_time (fun t => (t / 3600000) mod 24).
Definition getUTCDate : number -> number :=
  on_time (fun t => snd (civil_from_days (Day t))).
(** January is month 0. *)
Definition getUTCMonth : number -> number :=
  on_time (fun t => snd (fst (civil_from_days (Day t))) - 1).
Definition getUTCFullYear : number -> number :=
  on_time (fun t => fst (fst (civil_from_days (Day t)))).


(** ** The calendar of the language standard *)

(** The standard defines the year of a day as the one whose first day is
    the last not after it, and the month and the date by a table on the
    day within the year.  [civil_from_days] above is a closed form of
    these; the two are proved to agree below. *)

Definition DayFromYear (y : Z) : Z :=
  365 * (y - 1970) + (y - 1969) / 4 - (y - 1901) / 100 + (y - 1601) / 400.

Definition DaysInYear (y : Z) : Z :=
  if negb (y mod 4 =? 0) then 365
  else if negb (y mod 100 =? 0) then 366
  else if negb (y mod 400 =? 0) then 365
  else 366.

(** Month (0..11) of the day [dwy] of a year, [leap] being 1 in a leap
    year and 0 otherwise. *)
Definition MonthFromDay (dwy leap : Z) : Z :=
  if dwy <? 31 then 0
  else if dwy <? 59 + leap then 1
  else if dwy <? 90 + leap then 2
  else if dwy <? 120 + leap then 3
  else if dwy <? 151 + leap then 4
  else if dwy <? 181 + leap then 5
  else if dwy <? 212 + leap then 6
  else if dwy <? 243 + leap then 7
  else if dwy <? 273 + leap then 8
  else if dwy <? 304 + leap then 9
  else if dwy <? 334 + leap then 10
  else 11.

Definition DateFromDay (dwy leap : Z) : Z :=
  match MonthFromDay dwy leap with
  | 0 => dwy + 1
  | 1 => dwy - 30
  | 2 => dwy - 58 - leap
  | 3 => dwy - 89 - leap
  | 4 => dwy - 119 - leap
  | 5 => dwy - 150 - leap
  | 6 => dwy - 180 - leap
  | 7 => dwy - 211 - leap
  | 8 => dwy - 242 - leap
  | 9 => dwy - 272 - leap
  | 10 => dwy - 303 - leap
  | _ => dwy - 333 - leap
  end.

(** [p] on every integer from [lo], [len] of them. *)
Fixpoint all_from (lo : Z) (len : positive) (p : Z -> bool) : bool :=
  match len with
  | xH => p lo
  | xO k => all_from lo k p && all_from (lo + Zpos k) k p
  | xI k => p lo && all_from (lo + 1) k p && all_from (lo + 1 + Zpos k) k p
  end.

(** The days before March 1st of the year [y] of a 400-year era that
    starts on a March 1st. *)
Definition start (y : Z) : Z := 365 * y + y / 4 - y / 100 + y / 400.

(** What is checked of every year of one era of 400 years. *)
Definition year_facts (y : Z) : bool :=
  ((DaysInYear y =? 365) || (DaysInYear y =? 366))
  && (DayFromYear (y + 1) =? DayFromYear y + DaysInYear y)
  && (start y - 719468 =? DayFromYear y + 59 + (DaysInYear y - 365))
  && (start (y + 1) - start y =? DaysInYear (y + 1)).

(** The month and the day of the month of the day [doy] of a year that
    starts on March 1st, against the table of the standard. *)
Definition month_facts (leap doy : Z) : bool :=
  let mp := (5 * doy + 2) / 153 in
  let dd := doy - (153 * mp + 2) / 5 + 1 in
  if mp <? 10
  then (doy <=? 305)
       && (MonthFromDay (59 + leap + doy) leap =? mp + 2)
       && (DateFromDay (59 + leap + doy) leap =? dd)
  else (306 <=? doy)
       && ((365 + leap <=? doy)
           || (MonthFromDay (doy - 306) leap =? mp - 10)
              && (DateFromDay (doy - 306) leap =? dd)).

(** ** Regular expressions *)

Inductive regex :=
  | Eps
  | Chr (p : char -> bool)
  | Cat (r1 r2 : regex)
  | Alt (r1 r2 : regex).

(** [r{0,extra}], greedy *)
Fixpoint UpTo (r : regex) (extra : nat) : regex :=
  match extra with
  | S e' => Alt (Cat r (UpTo r e')) Eps
  | O => Eps
  end.

(** [r{n,n+extra}] *)
Fixpoint Rep (r : regex) (n extra : nat) : regex :=
  match n with
  | S n' => Cat r (Rep r n' extra)
  | O => UpTo r extra
  end.

(** Every way [r] can match a prefix of [s], as the list of what is left. *)
Fixpoint matches (r : regex) (s : jsstring) : list jsstring :=
  match r with
  | Eps => [s]
  | Chr p => match s with
             | c :: s' => if p c then [s'] else []
             | [] => []
             end
  | Cat r1 r2 => flat_map (matches r2) (matches r1 s)
  | Alt r1 r2 => matches r1 s ++ matches r2 s
  end.

Definition is_nil {A} (l : list A) : bool :=
  match l with [] => true | _ => false end.

(** [/^r$/.test(s)] *)
Definition regex_test (r : regex) (s : jsstring) : bool :=
  existsb is_nil (matches r s).

(** [s.replace(/\D/g, '')] *)
Definition remove_non_digits (s : jsstring) : jsstring :=
  List.filter is_digit s.

(** White space and line terminators, which [trim] removes. *)
Definition is_space (c : char) : bool :=
  ((9 <=? c) && (c <=? 13) || (c =? 32) || (c =? 160) || (c =? 5760)
   || (8192 <=? c) && (c <=? 8202) || (c =? 8232) || (c =? 8233)
   || (c =? 8239) || (c =? 8287) || (c =? 12288) || (c =? 65279))%N.

Fixpoint trim_start (s : jsstring) : jsstring :=
  match s with
  | c :: s' => if is_space c then trim_start s' else s
  | [] => []
  end.

Definition trim (s : jsstring) : jsstring :=
  rev (trim_start (rev (trim_start s))).

(** ** [encode] of html-entities, with its default options: the five
    characters special to HTML become named entities, the rest is kept. *)

Definition encode_char (c : char) : jsstring :=
  if (c =? 60)%N then js "&lt;"
  else if (c =? 62)%N then js "&gt;"
  else if (c =? 34)%N then js "&quot;"
  else if (c =? 39)%N then js "&apos;"
  else if (c =? 38)%N then js "&amp;"
  else [c].

Definition encode (s : jsstring) : jsstring := flat_map encode_char s.

(** ** [JSON.stringify] *)

Definition hex_digit (n : N) : char :=
  if (n <? 10)%N then (48 + n)%N else (87 + n)%N.

(** The escape of one code unit as backslash, u and four hex digits. *)
Definition unicode_escape (c : char) : jsstring :=
  [92%N; 117%N; hex_digit (c / 4096); hex_digit ((c / 256) mod 16);
   hex_digit ((c / 16) mod 16); hex_digit (c mod 16)]%N.

Definition is_high_surrogate (c : char) : bool :=
  (55296 <=? c)%N && (c <=? 56319)%N.
Definition is_low_surrogate (c : char) : bool :=
  (56320 <=? c)%N && (c <=? 57343)%N.

Definition escape_unit (c : char) : jsstring :=
  if (c =? 8)%N then [92; 98]%N
  else if (c =? 9)%N then [92; 116]%N
  else if (c =? 10)%N then [92; 110]%N
  else if (c =? 12)%N then [92; 102]%N
  else if (c =? 13)%N then [92; 114]%N
  else if (c =? 34)%N then [92; 34]%N
  else if (c =? 92)%N then [92; 92]%N
  else if (c <? 32)%N then unicode_escape c
  else if is_low_surrogate c then unicode_escape c
  else [c].

(** The body of a quoted string: control characters, the quote, the
    backslash and every surrogate that is not half of a pair are escaped. *)
Fixpoint quote_chars (s : jsstring) : jsstring :=
  match s with
  | [] => []
  | c :: s' =>
      if is_high_surrogate c then
        match s' with
        | d :: s'' =>
            if is_low_surrogate d then c :: d :: quote_chars s''
            else unicode_escape c ++ quote_chars s'
        | [] => unicode_escape c
        end
      else escape_unit c ++ quote_chars s'
  end.

Definition quote (s : jsstring) : jsstring :=
  [34%N] ++ quote_chars s ++ [34%N].

Inductive json :=
  | JUndefined
  | JText (s : jsstring)
  | JCircular.

(** The members of an object: a property whose value has no JSON text is
    left out. *)
Fixpoint json_members (ser : value -> json) (ps : props)
  : option (list jsstring) :=
  match ps with
  | [] => Some []
  | (k, v) :: ps' =>
      match ser v with
      | JCircular => None
      | JUndefined => json_members ser ps'
      | JText t =>
          match json_members ser ps' with
          | Some ms => Some ((quote k ++ js ":" ++ t) :: ms)
          | None => None
          end
      end
  end.

(** The elements of an array: one without a JSON text is [null]. *)
Fixpoint json_elements (ser : value -> json) (es : list value)
  : option (list jsstring) :=
  match es with
  | [] => Some []
  | v :: es' =>
      match ser v with
      | JCircular => None
      | r =>
          match json_elements ser es' with
          | Some ms =>
              Some (match r with JText t => t | _ => js "null" end :: ms)
          | None => None
          end
      end
  end.

(** The fuel bounds the nesting of references.  A chain of references
    longer than the store has objects repeats one of them, so the fuel
    runs out exactly on a circular structure. *)
Fixpoint serialize (fuel : nat) (h : heap) (v : value) : json :=
  match v with
  | VUndefined => JUndefined
  | VNull => JText (js "null")
  | VBool true => JText (js "true")
  | VBool false => JText (js "false")
  | VNum NaN => JText (js "null")
  | VNum (Int z) => JText (Number_toString (Int z))
  | VStr s => JText (quote s)
  | VRef l =>
      match fuel with
      | O => JCircular
      | S fuel' =>
          match h !! l with
          | Some (OObj ps) =>
              match json_members (serialize fuel' h) ps with
              | Some ms => JText (js "{" ++ join (js ",") ms ++ js "}")
              | None => JCircular
              end
          | Some (OArr es _) =>
              match json_elements (serialize fuel' h) es with
              | Some ms => JText (js "[" ++ join (js ",") ms ++ js "]")
              | None => JCircular
              end
          | None => JUndefined
          end
      end
  end.

Definition JSON_stringify (v : value) : M value :=
  fun h =>
    match serialize (length h) h v with
    | JText s => (Return (VStr s), h)
    | JUndefined => (Return VUndefined, h)
    | JCircular =>
        (Throw (TypeError (js "Converting circular structure to JSON")), h)
    end.

(** The number of bytes of a string once encoded as UTF-8, the encoding it
    is sent in: a surrogate pair takes four bytes, a lone surrogate is
    replaced by U+FFFD. *)
Fixpoint utf8_length (s : jsstring) : Z :=
  match s with
  | [] => 0
  | c :: s' =>
      if (c <? 128)%N then 1 + utf8_length s'
      else if (c <? 2048)%N then 2 + utf8_length s'
      else if is_high_surrogate c then
        match s' with
        | d :: s'' =>
            if is_low_surrogate d then 4 + utf8_length s''
            else 3 + utf8_length s'
        | [] => 3
        end
      else 3 + utf8_length s'
  end.

(** [n / 1000] as a template literal prints it, for a length [n]: the
    quotient, then the thousandths without their trailing zeros. *)
Definition thousandths (n : Z) : jsstring :=
  let q := n / 1000 in
  let r := n mod 1000 in
  let d1 := Z_to_string (r / 100) in
  let d2 := Z_to_string ((r / 10) mod 10) in
  let d3 := Z_to_string (r mod 10) in
  if r =? 0 then Z_to_string q
  else if negb (r mod 10 =? 0) then Z_to_string q ++ js "." ++ d1 ++ d2 ++ d3
  else if negb (r mod 100 =? 0) then Z_to_string q ++ js "." ++ d1 ++ d2
  else Z_to_string q ++ js "." ++ d1.

(** * lib/utils.js *)

(** [typeof value === 'object']: true of [null] as well. *)
Definition isObject (x : value) : bool :=
  match x with
  | VNull | VRef _ => true
  | _ => false
  end.

Definition isString (x : value) : bool :=
  match x with
  | VStr _ => true
  | _ => false
  end.

Definition isArrayOfStrings (h : heap) (x : value) : bool :=
  match x with
  | VRef l => match h !! l with
              | Some (OArr es _) => forallb isString es
              | _ => false
              end
  | _ => false
  end.

Definition encodeString (x : value) : value :=
  match x with
  | VStr s => VStr (encode s)
  | _ => x
  end.

(** [validateConfig(config, ignore)]: the first key, in enumeration order,
    whose value is falsy and that is not ignored is reported. *)
Definition validateConfig (config : props) (ignore : option (list jsstring))
  : M unit :=
  let ignore := match ignore with Some l => l | None => [] end in
  forEach (map fst config) (fun key =>
    if negb (truthy (get_prop config key))
       && negb (existsb (str_eqb key) ignore)
    then throw (Error (js "The `" ++ key
                       ++ js "` property must be set on configure function"))
    else ret tt).

(** [/^\+[1-9]\d{1,14}$/] *)
Definition phoneRegex : regex :=
  Cat (Chr (N.eqb 43))
      (Cat (Chr (fun c => (49 <=? c)%N && (c <=? 57)%N))
           (Rep (Chr is_digit) 1 13)).

Definition invalid_phone (param : jsstring) : exn :=
  Error (js "Invalid phone in `" ++ param ++ js "` param").

(** A [phone] that is no string has no [replace] method: the call throws. *)
Definition sanitizePhone (phone : value) (param : jsstring) : M value :=
  match phone with
  | VStr phone =>
      let phoneNumbers := remove_non_digits phone in
      let sanitizedPhone := js "+" ++ phoneNumbers in
      if negb (regex_test phoneRegex sanitizedPhone)
      then throw (invalid_phone param)
      else ret (VStr sanitizedPhone)
  | VUndefined | VNull => throw cannot_read
  | _ => throw (TypeError (js "phone.replace is not a function"))
  end.

Definition destination_required : exn :=
  Error (js "Email destination is required. Please, send at least one of these properties: `to`, `cc` or `bcc`").
Definition from_required : exn :=
  Error (js "Email source is required. Send a `from` value").
Definition subject_required : exn :=
  Error (js "Email `subject` is required").
Definition body_required : exn :=
  Error (js "Email `body` is required").
Definition body_not_object : exn :=
  TypeError (js "Expected email param `body` to be a Object on html email").
Definition body_not_string : exn :=
  TypeError (js "Expected email param `body` to be a string on text email").
Definition not_a_string (v : jsstring) : exn :=
  TypeError (js "Expected email param `" ++ v ++ js "` to be a string").
Definition not_strings (v : jsstring) : exn :=
  TypeError (js "Expected email param `" ++ v
             ++ js "` to be a string or an array of strings").

(** [xs.reduce(f, init)] over the keys of an object. *)
Fixpoint reduce {A B} (xs : list A) (f : B -> A -> M B) (init : B) : M B :=
  match xs with
  | [] => ret init
  | x :: xs' => let* acc := f init x in reduce xs' f acc
  end.

(** The checks shared by both versions of the email validator: required
    fields first, then the types of [body], [from], [subject] and
    [template]. *)
Definition check_email (email : value) : M unit :=
  let* to := getp email (js "to") in
  let* cc := getp email (js "cc") in
  let* bcc := getp email (js "bcc") in
  let* from := getp email (js "from") in
  let* subject := getp email (js "subject") in
  let* body := getp email (js "body") in
  let* template := getp email (js "template") in
  if negb (truthy to) && negb (truthy cc) && negb (truthy bcc)
  then throw destination_required
  else if negb (truthy from) then throw from_required
  else if negb (truthy subject) then throw subject_required
  else if negb (truthy body) then throw body_required
  else if truthy template && negb (isObject body) then throw body_not_object
  else if negb (truthy template) && negb (isString body)
  then throw body_not_string
  else
    forEach [js "from"; js "subject"; js "template"] (fun v =>
      let* x := getp email v in
      if truthy x && negb (isString x) then throw (not_a_string v)
      else ret tt).

(** The body of the loop over [to], [cc], [bcc] and [replyTo]: a bare
    string becomes a one-element array, written into [target]. *)
Definition wrap_recipient (email target : value) (v : jsstring) : M unit :=
  let* x := getp email v in
  let* strings := read (fun h => isArrayOfStrings h x) in
  if truthy x && isString x then
    let* arr := alloc (OArr [x] []) in
    setp target v arr
  else if truthy x && negb strings then throw (not_strings v)
  else ret tt.

Definition wrap_recipients (email target : value) : M unit :=
  forEach [js "to"; js "cc"; js "bcc"; js "replyTo"]
    (wrap_recipient email target).

(** The callback of the reduction over the keys of [body]: a copy of the
    accumulator with the escaped value added under [key]. *)
Definition encode_key (body acc : value) (key : jsstring) : M value :=
  let* x := getp body key in
  let* spread := read (fun h => own_props h acc) in
  alloc (OObj (set_prop (assign_props [] spread) key (encodeString x))).

Definition validateAndSanitizeEmailData (email : value) : M value :=
  check_email email ;;
  let* sanitizedValues := alloc (OObj []) in
  let* body := getp email (js "body") in
  (if isObject body then
     let* keys := Object_keys body in
     let* empty := alloc (OObj []) in
     let* encoded := reduce keys (encode_key body) empty in
     setp sanitizedValues (js "body") encoded
   else ret tt) ;;
  (if isString body
   then setp sanitizedValues (js "body") (encodeString body)
   else ret tt) ;;
  wrap_recipients email sanitizedValues ;;
  Object_assign_fresh email sanitizedValues.

Definition message_required : exn := Error (js "SMS message is required").
Definition message_not_string : exn :=
  TypeError (js "Expected sms param `message` to be a string").
Definition recipient_required : exn :=
  Error (js "SMS recipient is required. Send a `phone` or `to` value").

Definition validateAndSanitizeSMSData (sms : value) : M value :=
  let* message := getp sms (js "message") in
  if negb (truthy message) then throw message_required
  else
    match message with
    | VStr text =>
        let* phone := getp sms (js "phone") in
        let* to := getp sms (js "to") in
        if negb (truthy phone) && negb (truthy to)
        then throw recipient_required
        else
          let* sanitizedValues :=
            alloc (OObj [(js "message", VStr (trim text))]) in
          (if truthy to then
             let* p := sanitizePhone to (js "to") in
             setp sanitizedValues (js "phone") p
           else ret tt) ;;
          (if truthy phone then
             let* p := sanitizePhone phone (js "phone") in
             setp sanitizedValues (js "phone") p
           else ret tt) ;;
          Object_assign_fresh sms sanitizedValues
    | _ => throw message_not_string
    end.

Definition validateAndSanitizeData (data : value) : M value :=
  let* sanitizedData := alloc (OObj []) in
  let* email := getp data (js "email") in
  (if truthy email then
     let* e := validateAndSanitizeEmailData email in
     setp sanitizedData (js "email") e
   else ret tt) ;;
  let* sms := getp data (js "sms") in
  (if truthy sms then
     let* s := validateAndSanitizeSMSData sms in
     setp sanitizedData (js "sms") s
   else ret tt) ;;
  Object_assign_fresh data sanitizedData.

Definition validateNotificationOptions (data : value)
  (options : list jsstring) : M bool :=
  let* keys := Object_keys data in
  ret (existsb (fun option => existsb (str_eqb option) keys) options).

(** The older validator, which [Notifier] calls: the same checks and the
    same wrapping of recipients, no escaping of [body]. *)
Definition sanitizeEmailData (email : value) : M value :=
  let* parsedValues := alloc (OObj []) in
  if negb (truthy email)
  then throw (Error (js "The `email` object property is required"))
  else
    check_email email ;;
    wrap_recipients email parsedValues ;;
    spread_fresh email parsedValues.

(** ** What the code asks of its environment *)

(** The engine: the clock, and the two parsers of strings whose results
    depend on the engine and on its time zone. *)
Record runtime := {
  now : Z;                              (* Date.now() *)
  Date_parse : jsstring -> number;      (* the time value of new Date(string) *)
  StringToNumber : jsstring -> number   (* a string used as a number *)
}.

(** The collaborators: the template store with its renderer, and all of
    [_send] past the size guard (URL splitting, signing, the POST). *)
Record services := {
  buildTemplate : value -> value -> value -> M value;
  transport : value -> jsstring -> M value
}.

Section Engine.

Context (rt : runtime).

(** An object converts to a primitive through its string form. *)
Definition ToPrimitive (h : heap) (v : value) : value :=
  match v with
  | VRef _ => VStr (ToString h v)
  | _ => v
  end.

Definition ToNumber (h : heap) (v : value) : number :=
  match ToPrimitive h v with
  | VUndefined => NaN
  | VNull => Int 0
  | VBool true => Int 1
  | VBool false => Int 0
  | VNum n => n
  | VStr s => StringToNumber rt s
  | VRef _ => NaN
  end.

(** [v > k] for a number [k] *)
Definition js_gt (h : heap) (v : value) (k : Z) : bool :=
  match ToNumber h v with
  | Int z => k <? z
  | NaN => false
  end.

(** The time value of [new Date(v)]. *)
Definition new_Date (h : heap) (v : value) : number :=
  match ToPrimitive h v with
  | VStr s => Date_parse rt s
  | p => TimeClip (ToNumber h p)
  end.

Definition schedule_conflict : exn :=
  Error (js "The `day` and `weekDay` properties of the schedule can not be set together").
Definition end_invalid : exn :=
  TypeError (js "Schedule `end` date format is invalid. Please, use ISO format (YYYY-MM-DD or YYYY-MM-DD HH:MM)").

Record cron := {
  minute : value;
  hour : value;
  dayOfMonth : value;
  month : value;
  dayOfWeek : value;
  year : value
}.

Definition expression_of (h : heap) (c : cron) : jsstring :=
  js "cron(" ++ ToString h (minute c) ++ js " " ++ ToString h (hour c)
  ++ js " " ++ ToString h (dayOfMonth c) ++ js " " ++ ToString h (month c)
  ++ js " " ++ ToString h (dayOfWeek c) ++ js " " ++ ToString h (year c)
  ++ js ")".

Definition cronBuilder (schedule delay : value) : M value :=
  let* minute := getp schedule (js "minute") in
  let* hour := getp schedule (js "hour") in
  let* day := getp schedule (js "day") in
  let* month := getp schedule (js "month") in
  let* weekDay := getp schedule (js "weekDay") in
  let* year := getp schedule (js "year") in
  let* workingDays := getp schedule (js "workingDays") in
  let* end_ := getp schedule (js "end") in
  if truthy day && (truthy weekDay || truthy workingDays)
  then throw schedule_conflict
  else
    (if truthy end_ then
       let* endDate := read (fun h => new_Date h end_) in
       if isNaN endDate then throw end_invalid
       else setp schedule (js "end") (VNum endDate)
     else ret tt) ;;
    let* cron :=
      if negb (truthy minute) && negb (truthy hour) && negb (truthy day)
         && negb (truthy month) && negb (truthy weekDay)
         && negb (truthy year)
      then
        let* date := read (fun h =>
          TimeClip (number_add (Int (now rt))
                      (number_mul (ToNumber h delay) (Int 1000)))) in
        setp schedule (js "once") (VBool true) ;;
        ret {| minute := VNum (getUTCMinutes date);
               hour := VNum (getUTCHours date);
               dayOfMonth := VNum (getUTCDate date);
               month := VNum (number_add (getUTCMonth date) (Int 1));
               dayOfWeek := VStr (js "?");
               year := VNum (getUTCFullYear date) |}
      else
        let dayOfMonth :=
          js_or day (if truthy weekDay || truthy workingDays
                     then VStr (js "?") else VStr (js "*")) in
        ret {| minute := js_or minute (VStr (js "0"));
               hour := js_or hour (VStr (js "11"));
               dayOfMonth := dayOfMonth;
               month := js_or month (VStr (js "*"));
               dayOfWeek :=
                 js_or weekDay
                   (if truthy workingDays then VStr (js "MON-FRI")
                    else if negb (strict_eq dayOfMonth (VStr (js "?")))
                         then VStr (js "?") else VStr (js "*"));
               year := js_or year (VStr (js "*")) |}
    in
    let* expression := read (fun h => expression_of h cron) in
    setp schedule (js "expression") (VStr expression) ;;
    ret schedule.

End Engine.

(** * The Notifier object *)

Record notifier := {
  delay : value;
  config : props
}.

(** [new Notifier()], given the three values read from the environment. *)
Definition Notifier (api app templateBucket : value) : notifier :=
  {| delay := VNum (Int 120);
     config := [(js "api", api); (js "app", app);
                (js "templateBucket", templateBucket)] |}.

Section Methods.

Context (rt : runtime) (sv : services).

Definition configure (this : notifier) (config' : value) : M notifier :=
  let* api := getp config' (js "api") in
  let* app := getp config' (js "app") in
  let* templateBucket := getp config' (js "templateBucket") in
  let* delay' := getp config' (js "delay") in
  let* above := read (fun h => js_gt rt h delay' 120) in
  let c1 := set_prop (config this) (js "api")
              (js_or api (get_prop (config this) (js "api"))) in
  let c2 := set_prop c1 (js "app") (js_or app (get_prop c1 (js "app"))) in
  let c3 := set_prop c2 (js "templateBucket")
              (js_or templateBucket (get_prop c2 (js "templateBucket"))) in
  ret {| config := c3;
         delay := if negb (truthy delay') then delay this
                  else if above then delay' else VNum (Int 120) |}.

Definition size_error (length : Z) : exn :=
  Error (js "The size of your data object is more than 256kb (is "
         ++ thousandths length
         ++ js "kb), unfortunately we can not create notifications of this size").

Definition _send (data : value) (config : props) : M value :=
  let* stringData := JSON_stringify data in
  match stringData with
  | VStr stringData =>
      if str_length stringData >? 256000
      then throw (size_error (str_length stringData))
      else transport sv (get_prop config (js "api")) stringData
  | _ => throw cannot_read
  end.

Definition _putNotification (this : notifier) (data : value) : M value :=
  validateConfig (config this) None ;;
  let* email := getp data (js "email") in
  let* sanitized := sanitizeEmailData email in
  let* _validatedEmail := alloc (OObj [(js "email", sanitized)]) in
  let* validatedData := Object_assign_fresh data _validatedEmail in
  let* operation := getp validatedData (js "operation") in
  let* id := getp validatedData (js "id") in
  if strict_eq operation (VStr (js "UPDATE")) && negb (truthy id)
  then throw (Error (js "Update method parameters must have an id"))
  else
    let* email := getp validatedData (js "email") in
    let* template := getp email (js "template") in
    (if truthy template then
       let* body := getp email (js "body") in
       buildTemplate sv (get_prop (config this) (js "templateBucket"))
         template body ;;
       ret tt
     else ret tt) ;;
    setp validatedData (js "app") (get_prop (config this) (js "app")) ;;
    setp validatedData (js "templateBucket")
      (get_prop (config this) (js "templateBucket")) ;;
    let* schedule := getp validatedData (js "schedule") in
    (if negb (truthy schedule) then
       let* fresh := alloc (OObj []) in
       setp validatedData (js "schedule") fresh
     else ret tt) ;;
    let* schedule := getp validatedData (js "schedule") in
    let* built := cronBuilder rt schedule (delay this) in
    setp validatedData (js "schedule") built ;;
    _send validatedData (config this).

Definition create (this : notifier) (data : value) : M value :=
  setp data (js "operation") (VStr (js "CREATE")) ;;
  _putNotification this data.

Definition update (this : notifier) (data : value) : M value :=
  setp data (js "operation") (VStr (js "UPDATE")) ;;
  _putNotification this data.

Definition _removeNotification (this : notifier) (data : value) : M value :=
  let* operation := getp data (js "operation") in
  let* id := getp data (js "id") in
  if strict_eq operation (VStr (js "REMOVE")) && negb (truthy id)
  then throw (Error (js "Remove method parameters must have an id."))
  else _send data (config this).

Definition remove (this : notifier) (data : value) : M value :=
  validateConfig (config this)
    (Some [js "templateBucket"; js "app"]) ;;
  let* newData := alloc (OObj []) in
  let* newData :=
    if isString data
    then setp newData (js "id") data ;; ret newData
    else ret data in
  setp newData (js "operation") (VStr (js "REMOVE")) ;;
  _removeNotification this newData.

End Methods.

(** ** The target of the request *)

(** [s.startsWith(p)] *)
Fixpoint is_prefix (p s : jsstring) : bool :=
  match p, s with
  | [], _ => true
  | c :: p', d :: s' => N.eqb c d && is_prefix p' s'
  | _ :: _, [] => false
  end.

(** [s.split(sep)] for a separator that is not empty: the pieces of [s]
    between the occurrences of [sep], looked for from the left.  [skip]
    counts the code units of an occurrence still to pass over, and [cur]
    holds the piece being read, last code unit first. *)
Fixpoint split_from (sep : jsstring) (skip : nat) (cur s : jsstring)
  : list jsstring :=
  match s with
  | [] => [rev cur]
  | c :: s' =>
      match skip with
      | S k => split_from sep k cur s'
      | O => if is_prefix sep s
             then rev cur :: split_from sep (length sep - 1) [] s'
             else split_from sep 0 (c :: cur) s'
      end
  end.

Definition split (sep s : jsstring) : list jsstring := split_from sep 0 [] s.

(** What _send makes of the address of the service, a string, before it
    signs the request: [api.split('//').pop()], of that the piece before
    the first slash, and a slash followed by the rest. *)
Definition _urlWithoutProtocol (api : jsstring) : option jsstring :=
  last (split (js "//") api).

Definition hostname (api : jsstring) : option jsstring :=
  match _urlWithoutProtocol api with
  | Some u => split (js "/") u !! 0%nat
  | None => None
  end.

Definition path (api : jsstring) : option jsstring :=
  match _urlWithoutProtocol api with
  | Some u => Some (js "/" ++ join (js "/") (drop 1 (split (js "/") u)))
  | None => None
  end.

(** * A sample environment, for the examples *)

Module Sample.

Definition days_from_civil (y m d : Z) : Z :=
  let y' := if m <=? 2 then y - 1 else y in
  let era := y' / 400 in
  let yoe := y' mod 400 in
  let mp := if m <=? 2 then m + 9 else m - 3 in
  let doy := (153 * mp + 2) / 5 + d - 1 in
  let doe := yoe * 365 + yoe / 4 - yoe / 100 + doy in
  era * 146097 + doe - 719468.

Definition digits_value (s : jsstring) : Z :=
  fold_left (fun acc c => acc * 10 + (Z.of_N c - 48)) s 0.

(** The date-only form [YYYY-MM-DD], which the language standard reads as
    midnight UTC.  This sample engine reads nothing else. *)
Definition parse_date_only (s : jsstring) : number :=
  match s with
  | [y1; y2; y3; y4; 45%N; m1; m2; 45%N; d1; d2] =>
      if forallb is_digit [y1; y2; y3; y4; m1; m2; d1; d2] then
        let y := digits_value [y1; y2; y3; y4] in
        let m := digits_value [m1; m2] in
        let d := digits_value [d1; d2] in
        let '(y', m', d') := civil_from_days (days_from_civil y m d) in
        if (1 <=? m) && (m <=? 12) && (1 <=? d)
           && (y' =? y) && (m' =? m) && (d' =? d)
        then Int (days_from_civil y m d * msPerDay)
        else NaN
      else NaN
  | _ => NaN
  end.

(** Decimal digits only; the empty string is 0. *)
Definition parse_decimal (s : jsstring) : number :=
  if forallb is_digit s then Int (digits_value s) else NaN.

(** 2019-11-15T00:00:00Z *)
Definition engine : runtime :=
  {| now := 1573776000000;
     Date_parse := parse_date_only;
     StringToNumber := parse_decimal |}.

(** The template renders, and the transport answers with the body it was
    given. *)
Definition echo : services :=
  {| buildTemplate := fun _ _ _ => ret VUndefined;
     transport := fun _ body => ret (VStr body) |}.

End Sample.

(** * Vocabulary of the properties *)

(** A key that is neither an index nor [length] is a named property of an
    array just as of a plain object. *)
Definition named (k : jsstring) : Prop :=
  parse_index k = None /\ str_eqb k (js "length") = false.

(** The six temporal fields of a schedule. *)
Definition temporal_fields : list jsstring :=
  [js "minute"; js "hour"; js "day"; js "month"; js "weekDay"; js "year"].

(** A field is set when its value is truthy, which is how the code tests
    it. *)
Definition is_set (o : object) (k : jsstring) : bool := truthy (obj_get o k).

Definition none_set (o : object) : bool :=
  forallb (fun k => negb (is_set o k)) temporal_fields.

(** A field is supplied when the object has a value for it. *)
Definition supplied (o : object) (k : jsstring) : bool :=
  match obj_get o k with
  | VUndefined => false
  | _ => true
  end.

Definition none_supplied (o : object) : bool :=
  forallb (fun k => negb (supplied o k)) temporal_fields.

(** Every temporal field that is supplied is set: none holds the number
    0, the empty string or another falsy value. *)
Definition supplied_fields_set (o : object) : bool :=
  forallb (fun k => negb (supplied o k) || is_set o k) temporal_fields.

(** [cron(minute hour dayOfMonth month dayOfWeek year)] *)
Definition cron_text (minute hour dayOfMonth month dayOfWeek year : jsstring)
  : jsstring :=
  js "cron(" ++ minute ++ js " " ++ hour ++ js " " ++ dayOfMonth ++ js " "
  ++ month ++ js " " ++ dayOfWeek ++ js " " ++ year ++ js ")".

(** What the phone pattern asks for, in words: a plus sign, a digit from 1
    to 9, then between one and fourteen more digits, and nothing else. *)
Definition e164 (s : jsstring) : bool :=
  match s with
  | plus :: first :: more =>
      (plus =? 43)%N && (49 <=? first)%N && (first <=? 57)%N
      && (1 <=? length more)%nat && (length more <=? 14)%nat
      && forallb is_digit more
  | _ => false
  end.

(** No key occurs twice: every object of the language is such. *)
Fixpoint distinct_keys (ps : props) : bool :=
  match ps with
  | [] => true
  | (k, _) :: ps' => negb (has_prop ps' k) && distinct_keys ps'
  end.

(** The store [h'] still holds everything [h] held. *)
Definition extends (h h' : heap) : Prop :=
  forall i o, h !! i = Some o -> h' !! i = Some o.

(** Equal payload values: the same primitive or reference, or references
    to two objects with the same content. *)
Definition same_value (h : heap) (a b : value) : Prop :=
  a = b
  \/ exists la lb o,
       a = VRef la /\ b = VRef lb /\ h !! la = Some o /\ h !! lb = Some o.

(** Equal payloads: the same keys in the same order, with equal values. *)
Definition same_props (h : heap) (ps qs : props) : Prop :=
  Forall2 (fun p q => fst p = fst q /\ same_value h (snd p) (snd q)) ps qs.

(** A recipient field in its sanitized form: not set, or an array of
    strings. *)
Definition recipient_done (h : heap) (ps : props) (v : jsstring) : Prop :=
  truthy (get_prop ps v) = false
  \/ isArrayOfStrings h (get_prop ps v) = true.

(** A value on which escaping changes nothing. *)
Definition escape_free (x : value) : Prop := encodeString x = x.

(** An entry of a body map with its value escaped. *)
Definition encode_entry (kv : jsstring * value) : jsstring * value :=
  (fst kv, encodeString (snd kv)).

(** The text of the record that [remove] sends for an id. *)
Definition remove_text (id : jsstring) : jsstring :=
  js "{" ++ quote (js "id") ++ js ":" ++ [34%N] ++ id ++ [34%N] ++ js ","
  ++ quote (js "operation") ++ js ":" ++ quote (js "REMOVE") ++ js "}".

(** ** Footprints *)

(** The fields that cronBuilder writes. *)
Definition schedule_outputs : list jsstring :=
  [js "end"; js "once"; js "expression"].

Definition among (keys : list jsstring) (k : jsstring) : bool :=
  existsb (str_eqb k) keys.

(** The fields [keys] of the object that [v] refers to, if it refers to
    one. *)
Definition fields_of (v : value) (keys : list jsstring) (i : nat)
  (k : jsstring) : bool :=
  strict_eq v (VRef i) && among keys k.

(** [h'] is [h] with more objects, and with old objects changed at most in
    the fields that [W] allows. *)
Definition changes_only (W : nat -> jsstring -> bool) (h h' : heap) : Prop :=
  (length h <= length h')%nat
  /\ forall i o, h !! i = Some o ->
       exists o', h' !! i = Some o'
                  /\ forall k, W i k = false -> obj_get o' k = obj_get o k.

(** Writes are allowed on the objects allocated from [n] on, and where [W]
    allows them. *)
Definition allowed (n : nat) (W : nat -> jsstring -> bool) (i : nat)
  (k : jsstring) : bool :=
  (n <=? i)%nat || W i k.

(** A call started with at least [n] objects in the store stays within
    that footprint, and what it returns satisfies [Q]. *)
Definition within {A} (n : nat) (W : nat -> jsstring -> bool) (m : M A)
  (Q : A -> Prop) : Prop :=
  forall h, (n <= length h)%nat ->
    changes_only (allowed n W) h (snd (m h))
    /\ match fst (m h) with
       | Return a => Q a
       | Throw _ => True
       end.

(** [h'] is [h] with more objects, the first [n] being as they were. *)
Definition untouched (n : nat) (h h' : heap) : Prop :=
  (length h <= length h')%nat
  /\ forall i, (i < n)%nat -> h' !! i = h !! i.

(** A call started with at least [n] objects in the store that leaves
    those as they are: all it does to the store is to make new objects and
    to write to them. *)
Definition allocates {A} (n : nat) (m : M A) (Q : A -> Prop) : Prop :=
  forall h, (n <= length h)%nat ->
    untouched n h (snd (m h))
    /\ match fst (m h) with
       | Return a => Q a
       | Throw _ => True
       end.

Definition fresh (n : nat) (v : value) : Prop :=
  exists l, v = VRef l /\ (n <= l)%nat.

Definition anything {A} (a : A) : Prop := True.

(** Collaborators that leave every object of the store as it was. *)
Definition quiet (sv : services) : Prop :=
  (forall bucket template params h,
      changes_only (fun _ _ => false) h
        (snd (buildTemplate sv bucket template params h)))
  /\ (forall api body h,
        changes_only (fun _ _ => false) h (snd (transport sv api body h))).

(** What create and update leave behind, from the store [h] with the data
    object of the caller at [l] to the store [h']: the operation is stamped
    on that object, and no field of an object of [h] has changed but that
    one and, on the object that [schedule] refers to, the fields
    cronBuilder writes. *)
Definition stamped (op : jsstring) (h : heap) (l : loc) (schedule : value)
  (h' : heap) : Prop :=
  (exists o', h' !! l = Some o' /\ obj_get o' (js "operation") = VStr op)
  /\ changes_only
       (fun i k => fields_of (VRef l) [js "operation"] i k
                   || fields_of schedule schedule_outputs i k) h h'.

(** ** Addresses, configurations and payloads *)

(** [sep] occurs in [s]. *)
Fixpoint occurs (sep s : jsstring) : bool :=
  is_prefix sep s || match s with
                     | [] => false
                     | _ :: s' => occurs sep s'
                     end.

Definition no_slash (s : jsstring) : bool :=
  forallb (fun c => negb (c =? 47)%N) s.

(** A key of the configuration that validateConfig objects to. *)
Definition unset (config : props) (ignore : list jsstring) (key : jsstring)
  : bool :=
  negb (truthy (get_prop config key)) && negb (among ignore key).

Definition must_be_set (key : jsstring) : exn :=
  Error (js "The `" ++ key
         ++ js "` property must be set on configure function").

(** The keys with which a Notifier is built. *)
Definition config_keys : list jsstring :=
  [js "api"; js "app"; js "templateBucket"].

(** The objects that [o] holds directly, as JSON.stringify visits them. *)
Definition holds (o : object) (l : loc) : Prop :=
  match o with
  | OObj ps => In (VRef l) (map snd ps)
  | OArr es _ => In (VRef l) es
  end.

(** A set of objects from which a walk along [holds] never comes to an
    end nor leaves the set: each of them holds another. *)
Definition endless (h : heap) (S : loc -> Prop) : Prop :=
  forall l, S l -> exists o l', h !! l = Some o /\ holds o l' /\ S l'.

Definition circular : exn :=
  TypeError (js "Converting circular structure to JSON").

Definition id_required : exn :=
  Error (js "Remove method parameters must have an id.").

Definition email_required : exn :=
  Error (js "The `email` object property is required").

Definition update_id_required : exn :=
  Error (js "Update method parameters must have an id").

(** The characters of markup that the escaping takes away: the angle
    brackets and the two quotes. *)
Definition is_markup (c : char) : bool :=
  ((c =? 60) || (c =? 62) || (c =? 34) || (c =? 39))%N.

Definition no_markup (s : jsstring) : bool :=
  forallb (fun c => negb (is_markup c)) s.



(** * Properties *)

(** ** Strings and property lists *)

Lemma str_eqb_eq (s t : jsstring) : str_eqb s t = true <-> s = t.
Proof.
  revert t. induction s as [|c s IH]; intros [|d t]; simpl; try easy.
  rewrite andb_true_iff, N.eqb_eq, IH. split.
  - intros [-> ->]. reflexivity.
  - intros [= -> ->]. auto.
Qed.

Lemma str_eqb_refl (s : jsstring) : str_eqb s s = true.
Proof. apply str_eqb_eq. reflexivity. Qed.

Lemma str_eqb_neq (s t : jsstring) : str_eqb s t = false <-> s <> t.
Proof.
  rewrite <- str_eqb_eq. destruct (str_eqb s t); split; congruence.
Qed.

Lemma str_eqb_sym (s t : jsstring) : str_eqb s t = str_eqb t s.
Proof.
  destruct (str_eqb s t) eqn:E.
  - apply str_eqb_eq in E. subst. symmetry. apply str_eqb_refl.
  - destruct (str_eqb t s) eqn:E'; [|reflexivity].
    apply str_eqb_eq in E'. subst. rewrite str_eqb_refl in E. discriminate.
Qed.

Lemma get_prop_set_eq (ps : props) (k : jsstring) (v : value) :
  get_prop (set_prop ps k v) k = v.
Proof.
  induction ps as [|[k' v'] ps IH]; simpl.
  - rewrite str_eqb_refl. reflexivity.
  - destruct (str_eqb k' k) eqn:E; simpl; rewrite E; auto.
Qed.

Lemma get_prop_set_ne (ps : props) (k k' : jsstring) (v : value) :
  str_eqb k k' = false ->
  get_prop (set_prop ps k v) k' = get_prop ps k'.
Proof.
  intros Hne. induction ps as [|[k0 v0] ps IH]; simpl.
  - rewrite Hne. reflexivity.
  - destruct (str_eqb k0 k) eqn:E; simpl.
    + apply str_eqb_eq in E. subst k0. rewrite Hne. reflexivity.
    + rewrite IH. reflexivity.
Qed.

Lemma obj_get_set_eq (o : object) (k : jsstring) (v : value) :
  named k -> obj_get (obj_set o k v) k = v.
Proof.
  intros [Hi Hl]. destruct o as [ps|es ps]; simpl.
  - apply get_prop_set_eq.
  - rewrite Hi. simpl. rewrite Hl, Hi. apply get_prop_set_eq.
Qed.

Lemma obj_get_set_ne (o : object) (k k' : jsstring) (v : value) :
  named k -> str_eqb k k' = false ->
  obj_get (obj_set o k v) k' = obj_get o k'.
Proof.
  intros [Hi Hl] Hne. destruct o as [ps|es ps]; simpl.
  - apply get_prop_set_ne, Hne.
  - rewrite Hi. simpl. destruct (str_eqb k' (js "length")); [reflexivity|].
    destruct (parse_index k'); [reflexivity|]. apply get_prop_set_ne, Hne.
Qed.

(** ** The store *)

Lemma setp_ref (h : heap) (l : loc) (o : object) (k : jsstring) (x : value) :
  h !! l = Some o ->
  setp (VRef l) k x h = (Return tt, <[l := obj_set o k x]> h).
Proof. intros H. unfold setp. rewrite H. reflexivity. Qed.

Lemma getp_ref (h : heap) (l : loc) (o : object) (k : jsstring) :
  h !! l = Some o -> getp (VRef l) k h = (Return (obj_get o k), h).
Proof. intros H. unfold getp, read. rewrite H. reflexivity. Qed.

Lemma lookup_written (h : heap) (l : loc) (o o' : object) :
  h !! l = Some o -> <[l := o']> h !! l = Some o'.
Proof. intros H. apply list_lookup_insert_eq. eapply lookup_lt_Some, H. Qed.

(** ** Stepping through a call *)

Lemma bind_ret {A B} (a : A) (k : A -> M B) (h : heap) :
  bind (ret a) k h = k a h.
Proof. reflexivity. Qed.

Lemma bind_throw {A B} (e : exn) (k : A -> M B) (h : heap) :
  bind (throw e) k h = (Throw e, h).
Proof. reflexivity. Qed.

Lemma bind_read {A B} (f : heap -> A) (k : A -> M B) (h : heap) :
  bind (read f) k h = k (f h) h.
Proof. reflexivity. Qed.

Lemma bind_getp {B} (l : loc) (o : object) (key : jsstring)
  (k : value -> M B) (h : heap) :
  h !! l = Some o -> bind (getp (VRef l) key) k h = k (obj_get o key) h.
Proof. intros H. unfold bind. rewrite (getp_ref _ _ _ _ H). reflexivity. Qed.

Lemma bind_setp {B} (l : loc) (o : object) (key : jsstring) (x : value)
  (k : unit -> M B) (h : heap) :
  h !! l = Some o ->
  bind (setp (VRef l) key x) k h = k tt (<[l := obj_set o key x]> h).
Proof. intros H. unfold bind. rewrite (setp_ref _ _ _ _ _ H). reflexivity. Qed.

Lemma bind_assoc {A B C} (m : M A) (f : A -> M B) (g : B -> M C) (h : heap) :
  bind (bind m f) g h = bind m (fun a => bind (f a) g) h.
Proof. unfold bind. destruct (m h) as [[a|e] h']; reflexivity. Qed.

Lemma bind_throws {A B} (m : M A) (k : A -> M B) (h h' : heap) (e : exn) :
  m h = (Throw e, h') -> bind m k h = (Throw e, h').
Proof. intros H. unfold bind. rewrite H. reflexivity. Qed.

Lemma key_end : named (js "end"). Proof. split; reflexivity. Qed.
Lemma key_once : named (js "once"). Proof. split; reflexivity. Qed.
Lemma key_expression : named (js "expression"). Proof. split; reflexivity. Qed.

Ltac step :=
  match goal with
  | |- context [bind (bind _ _) _ _] => rewrite bind_assoc
  | |- context [bind (ret _) _ _] => rewrite bind_ret
  | |- context [bind (read _) _ _] => rewrite bind_read
  | |- context [bind (throw _) _ _] => rewrite bind_throw
  | H : ?h !! ?l = Some ?o |- context [bind (getp (VRef ?l) _) _ ?h] =>
      rewrite (bind_getp _ _ _ _ _ H)
  | H : ?h !! ?l = Some ?o
    |- context [bind (setp (VRef ?l) ?k ?x) _ ?h] =>
      rewrite (bind_setp _ _ _ _ _ _ H);
      let H' := fresh "Hl" in
      pose proof (lookup_written _ _ _ (obj_set o k x) H) as H'
  | |- context [bind (if ?c then _ else _) _ _] => destruct c eqn:?
  | |- (if ?c then _ else _) _ = _ -> _ => destruct c eqn:?
  | |- (if ?c then _ else _) _ = _ => destruct c eqn:?
  end.

(** cronBuilder works on the object it is given. *)
Lemma cronBuilder_in_place (rt : runtime) (h h' : heap) (l : loc)
  (o : object) (delay v : value) :
  h !! l = Some o ->
  cronBuilder rt (VRef l) delay h = (Return v, h') ->
  v = VRef l /\ length h' = length h /\
  (forall l', l' <> l -> h' !! l' = h !! l') /\
  exists o', h' !! l = Some o' /\
    (forall k, str_eqb (js "end") k = false ->
               str_eqb (js "once") k = false ->
               str_eqb (js "expression") k = false ->
               obj_get o' k = obj_get o k) /\
    exists e, obj_get o' (js "expression") = VStr e.
Proof.
  intros H. unfold cronBuilder.
  repeat step; try discriminate; unfold ret; intros [= <- <-];
    (split; [reflexivity|]); (split; [rewrite !length_insert; reflexivity|]);
    (split; [intros l' Hl'; rewrite !list_lookup_insert_ne by congruence;
             reflexivity|]);
    (eexists; split; [eapply lookup_written; eassumption|]);
    (split; [|eexists; apply (obj_get_set_eq _ _ _ key_expression)]);
    intros k K1 K2 K3;
    rewrite (obj_get_set_ne _ _ _ _ key_expression K3);
    rewrite ?(obj_get_set_ne _ _ _ _ key_once K2);
    rewrite ?(obj_get_set_ne _ _ _ _ key_end K1); reflexivity.
Qed.

(** ** The calendar *)

Lemma all_from_spec (p : Z -> bool) (len : positive) :
  forall lo, all_from lo len p = true ->
  forall z, lo <= z < lo + Zpos len -> p z = true.
Proof.
  induction len as [k IH|k IH|]; intros lo H z Hz; cbn [all_from] in H.
  - apply andb_true_iff in H as [H H2]. apply andb_true_iff in H as [H0 H1].
    destruct (Z.eq_dec z lo) as [->|]; [exact H0|].
    destruct (Z_lt_dec z (lo + 1 + Zpos k)).
    + apply (IH _ H1). lia.
    + apply (IH _ H2). lia.
  - apply andb_true_iff in H as [H1 H2].
    destruct (Z_lt_dec z (lo + Zpos k)).
    + apply (IH _ H1). lia.
    + apply (IH _ H2). lia.
  - assert (z = lo) as -> by lia. exact H.
Qed.

Lemma DayFromYear_period (y e : Z) :
  DayFromYear (y + 400 * e) = DayFromYear y + 146097 * e.
Proof. unfold DayFromYear. Z.div_mod_to_equations. lia. Qed.

Lemma DaysInYear_period (y e : Z) : DaysInYear (y + 400 * e) = DaysInYear y.
Proof.
  unfold DaysInYear.
  replace ((y + 400 * e) mod 4) with (y mod 4)
    by (Z.div_mod_to_equations; lia).
  replace ((y + 400 * e) mod 100) with (y mod 100)
    by (Z.div_mod_to_equations; lia).
  replace ((y + 400 * e) mod 400) with (y mod 400)
    by (Z.div_mod_to_equations; lia).
  reflexivity.
Qed.

Lemma year_facts_era : all_from 0 400 year_facts = true.
Proof. vm_compute. reflexivity. Qed.

Lemma start_period (y e : Z) : start (y + 400 * e) = start y + 146097 * e.
Proof. unfold start. Z.div_mod_to_equations. lia. Qed.

Lemma year_facts_all (y : Z) : year_facts y = true.
Proof.
  pose proof (all_from_spec _ _ _ year_facts_era (y mod 400)) as H.
  assert (Hy : y = y mod 400 + 400 * (y / 400))
    by (Z.div_mod_to_equations; lia).
  assert (Hr : 0 <= y mod 400 < 0 + 400) by (Z.div_mod_to_equations; lia).
  specialize (H Hr). rewrite Hy. revert H.
  generalize (y mod 400), (y / 400). clear. intros r e. unfold year_facts.
  replace (r + 400 * e + 1) with (r + 1 + 400 * e) by lia.
  rewrite !DaysInYear_period, !DayFromYear_period, !start_period.
  intros H. rewrite <- H. f_equal; [f_equal; [f_equal|]|].
  - destruct (Z.eqb_spec (DayFromYear (r + 1)) (DayFromYear r + DaysInYear r));
      [apply Z.eqb_eq|apply Z.eqb_neq]; lia.
  - destruct (Z.eqb_spec (start r - 719468)
                (DayFromYear r + 59 + (DaysInYear r - 365)));
      [apply Z.eqb_eq|apply Z.eqb_neq]; lia.
  - f_equal. lia.
Qed.

Lemma year_ok (y : Z) :
  (DaysInYear y = 365 \/ DaysInYear y = 366)
  /\ DayFromYear (y + 1) = DayFromYear y + DaysInYear y
  /\ start y - 719468 = DayFromYear y + 59 + (DaysInYear y - 365)
  /\ start (y + 1) - start y = DaysInYear (y + 1).
Proof.
  pose proof (year_facts_all y) as H. unfold year_facts in H.
  apply andb_true_iff in H as [H H4]. apply andb_true_iff in H as [H H3].
  apply andb_true_iff in H as [H1 H2]. apply orb_true_iff in H1.
  rewrite !Z.eqb_eq in *. auto.
Qed.

Lemma yoe_ok (doe : Z) :
  0 <= doe <= 146096 ->
  let yoe := (doe - doe / 1460 + doe / 36524 - doe / 146096) / 365 in
  0 <= yoe <= 399 /\ start yoe <= doe < start (yoe + 1)
  /\ start yoe = 365 * yoe + yoe / 4 - yoe / 100.
Proof.
  intros H yoe. subst yoe. unfold start.
  Z.div_mod_to_equations; lia.
Qed.

Lemma month_facts_year :
  all_from 0 366 (month_facts 0) && all_from 0 366 (month_facts 1) = true.
Proof. vm_compute. reflexivity. Qed.

(** The closed form gives, for every day, the year, the month and the date
    of the standard. *)
Lemma civil_from_days_standard (d : Z) :
  let '(y, m, dd) := civil_from_days d in
  let leap := DaysInYear y - 365 in
  DayFromYear y <= d < DayFromYear (y + 1)
  /\ m - 1 = MonthFromDay (d - DayFromYear y) leap
  /\ dd = DateFromDay (d - DayFromYear y) leap.
Proof.
  unfold civil_from_days. cbv zeta.
  set (era := (d + 719468) / 146097).
  set (doe := (d + 719468) mod 146097).
  assert (Hz : d + 719468 = 146097 * era + doe /\ 0 <= doe <= 146096).
  { unfold era, doe. Z.div_mod_to_equations. lia. }
  destruct Hz as [Hz Hdoe].
  destruct (yoe_ok doe Hdoe) as (Hyoe & Hstart & Hst). cbv zeta in *.
  set (yoe := (doe - doe / 1460 + doe / 36524 - doe / 146096) / 365) in *.
  rewrite <- Hst. set (doy := doe - start yoe).
  destruct (year_ok (yoe + 400 * era)) as (Hlen & Hnext & Hmarch & Hspan).
  rewrite start_period in Hmarch.
  assert (E1 : yoe + 400 * era + 1 = yoe + 1 + 400 * era) by lia.
  rewrite E1 in Hnext, Hspan. rewrite !start_period in Hspan.
  destruct (year_ok (yoe + 1 + 400 * era)) as (Hlen' & Hnext' & _ & _).
  set (mp := (5 * doy + 2) / 153).
  assert (Hdoy : 0 <= doy < 366) by (unfold doy; lia).
  pose proof month_facts_year as Hm. apply andb_true_iff in Hm as [Hm0 Hm1].
  pose proof (all_from_spec _ _ _ Hm0 doy) as T0.
  pose proof (all_from_spec _ _ _ Hm1 doy) as T1.
  unfold month_facts in T0, T1. fold mp in T0, T1.
  destruct (Z.ltb_spec mp 10) as [Hmp|Hmp].
  - replace (mp + 3 <=? 2) with false
      by (symmetry; apply Z.leb_gt; unfold mp; Z.div_mod_to_equations; lia).
    replace (yoe + era * 400 + 0) with (yoe + 400 * era) by lia.
    rewrite <- E1 in Hnext.
    set (y := yoe + 400 * era) in *.
    assert (Hd : d - DayFromYear y = 59 + (DaysInYear y - 365) + doy)
      by (unfold doy; lia).
    rewrite Hd.
    destruct Hlen as [Hl|Hl]; rewrite Hl in *;
      [specialize (T0 ltac:(lia)); rename T0 into T
      |specialize (T1 ltac:(lia)); rename T1 into T];
      change (365 - 365) with 0 in *; change (366 - 365) with 1 in *;
      apply andb_true_iff in T as [T T3]; apply andb_true_iff in T as [T1' T2];
      apply Z.leb_le in T1'; apply Z.eqb_eq in T2, T3;
      rewrite T2, T3; repeat split; lia.
  - replace (mp - 9 <=? 2) with true by (symmetry; apply Z.leb_le; unfold mp; Z.div_mod_to_equations; lia).
    replace (yoe + era * 400 + 1) with (yoe + 1 + 400 * era) by lia.
    set (y := yoe + 1 + 400 * era) in *.
    assert (Hd : d - DayFromYear y = doy - 306) by (unfold doy; lia).
    rewrite Hd.
    destruct Hlen' as [Hl|Hl]; rewrite Hl in *;
      [specialize (T0 ltac:(lia)); rename T0 into T
      |specialize (T1 ltac:(lia)); rename T1 into T];
      change (365 - 365) with 0 in *; change (366 - 365) with 1 in *;
      apply andb_true_iff in T as [T1' T]; apply Z.leb_le in T1';
      apply orb_true_iff in T as [T|T];
      try (apply Z.leb_le in T; unfold doy in T; lia);
      apply andb_true_iff in T as [T2 T3]; apply Z.eqb_eq in T2, T3;
      rewrite T2, T3; repeat split; lia.
Qed.

(** The getters of [Date] return the calendar fields of the standard. *)
Lemma getUTC_standard (t : Z) :
  exists y,
    getUTCFullYear (Int t) = Int y
    /\ DayFromYear y <= Day t < DayFromYear (y + 1)
    /\ getUTCMonth (Int t)
       = Int (MonthFromDay (Day t - DayFromYear y) (DaysInYear y - 365))
    /\ getUTCDate (Int t)
       = Int (DateFromDay (Day t - DayFromYear y) (DaysInYear y - 365))
    /\ getUTCHours (Int t) = Int ((t / 3600000) mod 24)
    /\ getUTCMinutes (Int t) = Int ((t / 60000) mod 60).
Proof.
  pose proof (civil_from_days_standard (Day t)) as H.
  unfold getUTCFullYear, getUTCMonth, getUTCDate, getUTCHours, getUTCMinutes,
    on_time.
  destruct (civil_from_days (Day t)) as [[y m] dd]. cbn [fst snd].
  destruct H as (Hy & Hm & Hd). exists y.
  rewrite <- Hm, <- Hd. repeat split; try lia; reflexivity.
Qed.

(** ** cronBuilder *)

Lemma ToString_VStr (h : heap) (s : jsstring) : ToString h (VStr s) = s.
Proof. unfold ToString. destruct (length h); reflexivity. Qed.

Lemma ToString_VNum (h : heap) (n : number) :
  ToString h (VNum n) = Number_toString n.
Proof. unfold ToString. destruct (length h); reflexivity. Qed.

Lemma none_set_true (o : object) :
  none_set o = true ->
  negb (truthy (obj_get o (js "minute")))
  && negb (truthy (obj_get o (js "hour")))
  && negb (truthy (obj_get o (js "day")))
  && negb (truthy (obj_get o (js "month")))
  && negb (truthy (obj_get o (js "weekDay")))
  && negb (truthy (obj_get o (js "year"))) = true
  /\ truthy (obj_get o (js "day")) = false.
Proof.
  unfold none_set, temporal_fields, is_set. cbn [forallb].
  rewrite !andb_true_iff, !negb_true_iff.
  intros (-> & -> & -> & -> & -> & -> & _). repeat split.
Qed.

Lemma none_set_false (o : object) :
  none_set o = false ->
  negb (truthy (obj_get o (js "minute")))
  && negb (truthy (obj_get o (js "hour")))
  && negb (truthy (obj_get o (js "day")))
  && negb (truthy (obj_get o (js "month")))
  && negb (truthy (obj_get o (js "weekDay")))
  && negb (truthy (obj_get o (js "year"))) = false.
Proof.
  unfold none_set, temporal_fields, is_set. cbn [forallb].
  rewrite andb_true_r, <- !andb_assoc. auto.
Qed.

(** C1.  A schedule whose [day] is set together with [weekDay] or
    [workingDays] is refused with the conflict error, whatever else it
    holds (an unparseable [end] included), and the schedule object is left
    as it was: the check comes before any other processing. *)
Theorem cronBuilder_conflict (rt : runtime) (h : heap) (l : loc)
  (o : object) (delay : value) :
  h !! l = Some o ->
  is_set o (js "day") = true ->
  is_set o (js "weekDay") || is_set o (js "workingDays") = true ->
  cronBuilder rt (VRef l) delay h = (Throw schedule_conflict, h).
Proof.
  unfold is_set. intros H Hd Hw. unfold cronBuilder.
  rewrite !(bind_getp _ _ _ _ _ H), Hd, Hw. reflexivity.
Qed.

Lemma cronBuilder_conflict_witness :
  cronBuilder Sample.engine (VRef 0%nat) (VNum (Int 120))
    [OObj [(js "day", VStr (js "16")); (js "weekDay", VStr (js "MON"));
           (js "end", VStr (js "someday"))]]
  = (Throw schedule_conflict,
     [OObj [(js "day", VStr (js "16")); (js "weekDay", VStr (js "MON"));
            (js "end", VStr (js "someday"))]]).
Proof.
  apply (cronBuilder_conflict Sample.engine _ 0%nat
           (OObj [(js "day", VStr (js "16")); (js "weekDay", VStr (js "MON"));
                  (js "end", VStr (js "someday"))]));
    reflexivity.
Defined.

(** C2, as the code has it: with none of the six temporal fields set, the
    end date is looked at first.  An [end] that is set and is no date makes
    cronBuilder throw the end-format error, whatever the delay, and nothing
    is written.  With an [end] that is absent or is a date, cronBuilder
    returns the schedule with [once] true and an expression made of the UTC
    minute, hour, day of the month, month and year of the instant [delay]
    seconds from now, the day of the week being [?]. *)
Theorem cronBuilder_default (rt : runtime) (h : heap) (l : loc)
  (o : object) (d : Z) :
  h !! l = Some o ->
  none_set o = true ->
  let date := TimeClip (Int (now rt + d * 1000)) in
  (is_set o (js "end") = true ->
   isNaN (new_Date rt h (obj_get o (js "end"))) = true ->
   forall delay,
     cronBuilder rt (VRef l) delay h = (Throw end_invalid, h))
  /\ (is_set o (js "end") = false
      \/ isNaN (new_Date rt h (obj_get o (js "end"))) = false ->
      exists h' o',
        cronBuilder rt (VRef l) (VNum (Int d)) h = (Return (VRef l), h')
        /\ h' !! l = Some o'
        /\ obj_get o' (js "once") = VBool true
        /\ obj_get o' (js "expression") =
             VStr (cron_text (Number_toString (getUTCMinutes date))
                     (Number_toString (getUTCHours date))
                     (Number_toString (getUTCDate date))
                     (Number_toString (number_add (getUTCMonth date) (Int 1)))
                     (js "?")
                     (Number_toString (getUTCFullYear date)))).
Proof.
  intros H Hnone date. unfold is_set.
  destruct (none_set_true _ Hnone) as [Hdef Hday]. split.
  { intros He Hnan delay. unfold cronBuilder.
    rewrite !(bind_getp _ _ _ _ _ H), Hdef, Hday, He. cbn [andb].
    rewrite bind_assoc, bind_read, Hnan. reflexivity. }
  intros Hend.
  unfold cronBuilder. rewrite !(bind_getp _ _ _ _ _ H), Hdef, Hday.
  cbn [andb].
  assert (Hexpr : forall h0, expression_of h0
    {| minute := VNum (getUTCMinutes date); hour := VNum (getUTCHours date);
       dayOfMonth := VNum (getUTCDate date);
       month := VNum (number_add (getUTCMonth date) (Int 1));
       dayOfWeek := VStr (js "?"); year := VNum (getUTCFullYear date) |}
    = cron_text (Number_toString (getUTCMinutes date))
                 (Number_toString (getUTCHours date))
                 (Number_toString (getUTCDate date))
                 (Number_toString (number_add (getUTCMonth date) (Int 1)))
                 (js "?")
                 (Number_toString (getUTCFullYear date))).
  { intros h0. unfold expression_of, cron_text. cbn [minute hour dayOfMonth month dayOfWeek year].
    rewrite !ToString_VNum, ToString_VStr. reflexivity. }
  destruct (truthy (obj_get o (js "end"))) eqn:He.
  - destruct Hend as [Hend|Hend]; [discriminate|].
    rewrite bind_assoc, bind_read, Hend. repeat step.
    unfold ret. do 2 eexists. split; [reflexivity|].
    split; [eapply lookup_written; eassumption|].
    rewrite (obj_get_set_ne _ _ _ _ key_expression) by reflexivity.
    rewrite (obj_get_set_eq _ _ _ key_once).
    rewrite (obj_get_set_eq _ _ _ key_expression).
    split; [reflexivity|]. f_equal. apply Hexpr.
  - repeat step.
    unfold ret. do 2 eexists. split; [reflexivity|].
    split; [eapply lookup_written; eassumption|].
    rewrite (obj_get_set_ne _ _ _ _ key_expression) by reflexivity.
    rewrite (obj_get_set_eq _ _ _ key_once).
    rewrite (obj_get_set_eq _ _ _ key_expression).
    split; [reflexivity|]. f_equal. apply Hexpr.
Qed.

Lemma cronBuilder_default_witness :
  (exists h' o',
     cronBuilder Sample.engine (VRef 0%nat) (VNum (Int 120)) [OObj []]
       = (Return (VRef 0%nat), h')
     /\ h' !! 0%nat = Some o'
     /\ obj_get o' (js "once") = VBool true
     /\ obj_get o' (js "expression") = VStr (js "cron(2 0 15 11 ? 2019)"))
  /\ cronBuilder Sample.engine (VRef 0%nat) (VStr (js "soon"))
       [OObj [(js "end", VNum (Int 8640000000000001))]]
     = (Throw end_invalid, [OObj [(js "end", VNum (Int 8640000000000001))]]).
Proof.
  split.
  - apply (cronBuilder_default Sample.engine [OObj []] 0%nat (OObj []) 120);
      [reflexivity | reflexivity | left; reflexivity].
  - apply (cronBuilder_default Sample.engine
             [OObj [(js "end", VNum (Int 8640000000000001))]] 0%nat
             (OObj [(js "end", VNum (Int 8640000000000001))]) 120);
      reflexivity.
Defined.

(** C2 fails as stated: a schedule with none of the six fields set but an
    [end] that is no date is refused. *)
Lemma cronBuilder_default_refuses_bad_end :
  none_set (OObj [(js "end", VStr (js "tomorrow"))]) = true
  /\ cronBuilder Sample.engine (VRef 0%nat) (VNum (Int 120))
       [OObj [(js "end", VStr (js "tomorrow"))]]
     = (Throw end_invalid, [OObj [(js "end", VStr (js "tomorrow"))]]).
Proof. split; reflexivity. Qed.

(** C3.  The schedule with day 16 and hour 22, built with delay 120, gets
    the expression whose six fields are 0, 22, 16, star, question mark and
    star: minute 0 by default, every month and every year, and no
    constraint on the day of the week since the day of the month is
    given. *)
Theorem cronBuilder_day_16_hour_22 (rt : runtime) (h : heap) (l : loc) :
  h !! l = Some (OObj [(js "day", VStr (js "16"));
                       (js "hour", VStr (js "22"))]) ->
  cronBuilder rt (VRef l) (VNum (Int 120)) h
  = (Return (VRef l),
     <[l := OObj [(js "day", VStr (js "16")); (js "hour", VStr (js "22"));
                  (js "expression", VStr (js "cron(0 22 16 * ? *)"))]]> h).
Proof.
  intros H. unfold cronBuilder. rewrite !(bind_getp _ _ _ _ _ H).
  repeat step; try discriminate.
  unfold ret. do 2 f_equal. cbv -[ToString]. rewrite !ToString_VStr.
  reflexivity.
Qed.

Lemma cronBuilder_day_16_hour_22_witness :
  cronBuilder Sample.engine (VRef 0%nat) (VNum (Int 120))
    [OObj [(js "day", VStr (js "16")); (js "hour", VStr (js "22"))]]
  = (Return (VRef 0%nat),
     [OObj [(js "day", VStr (js "16")); (js "hour", VStr (js "22"));
            (js "expression", VStr (js "cron(0 22 16 * ? *)"))]]).
Proof.
  apply (cronBuilder_day_16_hour_22 Sample.engine
           [OObj [(js "day", VStr (js "16")); (js "hour", VStr (js "22"))]]
           0%nat).
  reflexivity.
Defined.

(** C4 fails as stated: the schedule of the README, December 25th with
    [once: true], has temporal fields and still comes back with [once]
    true. *)
Lemma once_true_with_fields_supplied :
  let o := OObj [(js "hour", VStr (js "0")); (js "day", VStr (js "25"));
                 (js "month", VStr (js "DEC")); (js "once", VBool true)] in
  none_set o = false
  /\ cronBuilder Sample.engine (VRef 0%nat) (VNum (Int 120)) [o]
     = (Return (VRef 0%nat),
        [OObj [(js "hour", VStr (js "0")); (js "day", VStr (js "25"));
               (js "month", VStr (js "DEC")); (js "once", VBool true);
               (js "expression", VStr (js "cron(0 0 25 DEC ? *)"))]]).
Proof. split; reflexivity. Qed.

(** Where every supplied field is set, a schedule has no field set exactly
    when none is supplied. *)
Lemma none_set_supplied (o : object) :
  supplied_fields_set o = true -> none_set o = none_supplied o.
Proof.
  unfold supplied_fields_set, none_set, none_supplied.
  induction temporal_fields as [|k ks IH]; [reflexivity|].
  cbn [forallb]. intros [Hk Hks]%andb_true_iff. rewrite (IH Hks). f_equal.
  unfold supplied, is_set in *.
  destruct (obj_get o k) as [| |[]|[|z]|[|c s]|]; cbn [truthy negb orb] in *;
    try reflexivity; try discriminate.
  rewrite Hk. reflexivity.
Qed.

(** C4, as the code has it, for the schedules whose temporal fields are
    each absent or set (no field holds the number 0, the empty string or
    another falsy value): cronBuilder sets [once] to true when none of the
    six temporal fields is supplied, and leaves it as the caller gave it
    otherwise; so the output has [once] true exactly when no temporal field
    is supplied or the input carried [once: true] itself. *)
Theorem cronBuilder_once (rt : runtime) (h h' : heap) (l : loc)
  (o : object) (delay v : value) :
  h !! l = Some o ->
  supplied_fields_set o = true ->
  cronBuilder rt (VRef l) delay h = (Return v, h') ->
  exists o',
    h' !! l = Some o'
    /\ obj_get o' (js "once")
       = (if none_supplied o then VBool true else obj_get o (js "once"))
    /\ (obj_get o' (js "once") = VBool true
        <-> none_supplied o = true \/ obj_get o (js "once") = VBool true).
Proof.
  intros H Hs. rewrite <- (none_set_supplied _ Hs).
  unfold cronBuilder. rewrite !(bind_getp _ _ _ _ _ H).
  destruct (none_set o) eqn:Hn.
  - destruct (none_set_true _ Hn) as [-> _].
    repeat step; try discriminate.
    all: unfold ret; intros [= <- <-].
    all: eexists; split; [eapply lookup_written; eassumption|].
    all: rewrite (obj_get_set_ne _ _ _ _ key_expression) by reflexivity.
    all: rewrite (obj_get_set_eq _ _ _ key_once).
    all: split; [reflexivity|]; split; auto.
  - rewrite (none_set_false _ Hn).
    repeat step; try discriminate.
    all: unfold ret; intros [= <- <-].
    all: eexists; split; [eapply lookup_written; eassumption|].
    all: rewrite (obj_get_set_ne _ _ _ _ key_expression) by reflexivity.
    all: rewrite ?(obj_get_set_ne _ _ _ _ key_end) by reflexivity.
    all: split; [reflexivity|]; split; auto.
    all: intros [?|?]; [discriminate|assumption].
Qed.

Lemma cronBuilder_once_witness :
  exists o',
    [OObj [(js "hour", VStr (js "18"));
           (js "expression", VStr (js "cron(0 18 * * ? *)"))]] !! 0%nat
      = Some o'
    /\ obj_get o' (js "once") = VUndefined
    /\ (obj_get o' (js "once") = VBool true
        <-> false = true \/ VUndefined = VBool true).
Proof.
  apply (cronBuilder_once Sample.engine
           [OObj [(js "hour", VStr (js "18"))]] _ 0%nat
           (OObj [(js "hour", VStr (js "18"))]) (VNum (Int 120))
           (VRef 0%nat));
    reflexivity.
Defined.

(** ** sanitizePhone *)

Lemma existsb_nil_UpTo (p : char -> bool) (e : nat) (s : jsstring) :
  existsb is_nil (matches (UpTo (Chr p) e) s)
  = (length s <=? e)%nat && forallb p s.
Proof.
  revert s. induction e as [|e IH]; intros s.
  - destruct s; reflexivity.
  - cbn [UpTo matches]. rewrite existsb_app. destruct s as [|c s].
    + reflexivity.
    + cbn [matches flat_map existsb is_nil forallb length].
      destruct (p c); cbn [flat_map app existsb].
      * rewrite app_nil_r, IH, orb_false_r. reflexivity.
      * cbn [andb]. rewrite andb_false_r. reflexivity.
Qed.

Lemma existsb_nil_Rep (p : char -> bool) (n e : nat) (s : jsstring) :
  existsb is_nil (matches (Rep (Chr p) n e) s)
  = (n <=? length s)%nat && (length s <=? n + e)%nat && forallb p s.
Proof.
  revert s. induction n as [|n IH]; intros s.
  - apply existsb_nil_UpTo.
  - cbn [Rep matches]. destruct s as [|c s].
    + reflexivity.
    + cbn [matches flat_map forallb length]. destruct (p c).
      * cbn [flat_map]. rewrite app_nil_r, IH. reflexivity.
      * cbn [flat_map existsb]. rewrite andb_false_r. reflexivity.
Qed.

(** The pattern of the code matches exactly the numbers in E.164 form. *)
Lemma phoneRegex_e164 (s : jsstring) : regex_test phoneRegex s = e164 s.
Proof.
  unfold regex_test, phoneRegex. destruct s as [|plus [|first more]].
  - reflexivity.
  - cbn [matches flat_map]. destruct (43 =? plus)%N; reflexivity.
  - cbn [matches flat_map e164]. rewrite (N.eqb_sym plus 43).
    destruct (43 =? plus)%N; [|reflexivity].
    cbn [flat_map matches]. rewrite !app_nil_r.
    destruct ((49 <=? first)%N && (first <=? 57)%N) eqn:E.
    + cbn [flat_map]. rewrite app_nil_r, existsb_nil_Rep.
      apply andb_true_iff in E as [-> ->]. reflexivity.
    + cbn [flat_map existsb]. cbn [andb].
      destruct (49 <=? first)%N; [|reflexivity]. cbn [andb] in *.
      rewrite E. reflexivity.
Qed.

(** C5 fails as stated: the digits of the sample number are thirteen, and
    the result keeps all of them; the string the claim gives has lost
    one. *)
Lemma sanitizePhone_sample_keeps_13_digits :
  sanitizePhone (VStr (js "55 (48) 99875-4321")) (js "to") []
  <> (Return (VStr (js "+554899875321")), []).
Proof. vm_compute. discriminate. Qed.

(** C5, as the code has it: the result is a plus sign followed by the
    digits of the input in their order; the call succeeds exactly when
    that string is in E.164 form, which is what the pattern of the code
    matches, and otherwise throws the error that names the parameter.  The
    sample number becomes +5548998754321. *)
Theorem sanitizePhone_spec :
  (forall s, regex_test phoneRegex s = e164 s)
  /\ (forall (phone param : jsstring) (h : heap),
        sanitizePhone (VStr phone) param h
        = (if e164 (js "+" ++ List.filter is_digit phone)
           then Return (VStr (js "+" ++ List.filter is_digit phone))
           else Throw (Error (js "Invalid phone in `" ++ param
                              ++ js "` param")),
           h))
  /\ (forall h, sanitizePhone (VStr (js "55 (48) 99875-4321")) (js "to") h
                = (Return (VStr (js "+5548998754321")), h)).
Proof.
  assert (Hgen : forall (phone param : jsstring) (h : heap),
    sanitizePhone (VStr phone) param h
    = (if e164 (js "+" ++ List.filter is_digit phone)
       then Return (VStr (js "+" ++ List.filter is_digit phone))
       else Throw (Error (js "Invalid phone in `" ++ param ++ js "` param")),
       h)).
  { intros phone param h. unfold sanitizePhone, remove_non_digits.
    rewrite phoneRegex_e164.
    destruct (e164 _); reflexivity. }
  split; [exact phoneRegex_e164|]. split; [exact Hgen|].
  intros h. rewrite Hgen. reflexivity.
Qed.

(** ** Required fields *)

(** C10 fails as stated: with no destination, an empty [from] is answered
    by the error about the destination, not by the one about [from]. *)
Lemma empty_from_without_destination :
  validateAndSanitizeEmailData (VRef 0%nat)
    [OObj [(js "from", VStr []); (js "subject", VStr (js "Hello"));
           (js "body", VStr (js "Hi"))]]
  = (Throw destination_required,
     [OObj [(js "from", VStr []); (js "subject", VStr (js "Hello"));
            (js "body", VStr (js "Hi"))]])
  /\ destination_required <> from_required.
Proof. split; [reflexivity | discriminate]. Qed.

(** C10, as the code has it: presence is truthiness, and the checks run in
    the order destination, [from], [subject], [body].  An email with no
    destination gets the destination error.  With a destination, an empty
    [from] gets the [from] error; an empty [subject] gets the [subject]
    error once [from] is present; an empty [body] gets the [body] error
    once [from] and [subject] are present.  These are plain errors, never
    type errors.  An SMS with an empty [message] gets the message error. *)
Theorem empty_string_is_absent (h : heap) (l : loc) (o : object) :
  h !! l = Some o ->
  let email := validateAndSanitizeEmailData (VRef l) h in
  let destination :=
    is_set o (js "to") || is_set o (js "cc") || is_set o (js "bcc") in
  (destination = false -> email = (Throw destination_required, h))
  /\ (destination = true -> obj_get o (js "from") = VStr [] ->
      email = (Throw from_required, h))
  /\ (destination = true -> is_set o (js "from") = true ->
      obj_get o (js "subject") = VStr [] ->
      email = (Throw subject_required, h))
  /\ (destination = true -> is_set o (js "from") = true ->
      is_set o (js "subject") = true ->
      obj_get o (js "body") = VStr [] ->
      email = (Throw body_required, h))
  /\ (obj_get o (js "message") = VStr [] ->
      validateAndSanitizeSMSData (VRef l) h = (Throw message_required, h)).
Proof.
  intros H email destination. subst email destination. unfold is_set.
  unfold validateAndSanitizeEmailData, validateAndSanitizeSMSData.
  repeat split.
  - intros Hd. apply bind_throws. unfold check_email.
    rewrite !(bind_getp _ _ _ _ _ H).
    apply orb_false_iff in Hd as [Hd ->]. apply orb_false_iff in Hd as [-> ->].
    reflexivity.
  - intros Hd Hf. apply bind_throws. unfold check_email.
    rewrite !(bind_getp _ _ _ _ _ H).
    rewrite <- !negb_orb, Hd, Hf. reflexivity.
  - intros Hd Hf Hs. apply bind_throws. unfold check_email.
    rewrite !(bind_getp _ _ _ _ _ H).
    rewrite <- !negb_orb, Hd, Hf, Hs. reflexivity.
  - intros Hd Hf Hs Hb. apply bind_throws. unfold check_email.
    rewrite !(bind_getp _ _ _ _ _ H).
    rewrite <- !negb_orb, Hd, Hf, Hs, Hb. reflexivity.
  - intros Hm. rewrite !(bind_getp _ _ _ _ _ H), Hm. reflexivity.
Qed.

(** ** configure *)

(** C8 fails as stated: after a delay of 300 was configured, a call that
    supplies the delay 0 leaves 300 in force; it is not set to 120. *)
Lemma configure_zero_keeps_current_delay :
  let h := [OObj [(js "delay", VNum (Int 300))];
            OObj [(js "delay", VNum (Int 0))]] in
  let start := Notifier (VStr (js "https://api")) (VStr (js "app"))
                 (VStr (js "bucket")) in
  (let* first := configure Sample.engine start (VRef 0%nat) in
   let* second := configure Sample.engine first (VRef 1%nat) in
   ret (delay first, delay second)) h
  = (Return (VNum (Int 300), VNum (Int 300)), h).
Proof. reflexivity. Qed.

(** C8, as the code has it: a delay of at least 120 stays at least 120
    through every call of configure whose [delay] is a number or absent.  A
    number above 120 is kept; any other number except 0 gives 120; an
    absent delay, 0 and NaN leave the delay of before, which is the
    default 120 on a new Notifier. *)
Theorem configure_delay (rt : runtime) (this : notifier) (h : heap)
  (l : loc) (o : object) (before : Z) :
  h !! l = Some o ->
  delay this = VNum (Int before) ->
  120 <= before ->
  obj_get o (js "delay") = VUndefined
    \/ (exists n, obj_get o (js "delay") = VNum n) ->
  exists this' after,
    configure rt this (VRef l) h = (Return this', h)
    /\ delay this' = VNum (Int after)
    /\ 120 <= after
    /\ after = match obj_get o (js "delay") with
               | VNum (Int n) =>
                   if n =? 0 then before
                   else if 120 <? n then n else 120
               | _ => before
               end.
Proof.
  intros H Hd Hb Hshape. unfold configure.
  rewrite !(bind_getp _ _ _ _ _ H), bind_read. unfold ret.
  destruct Hshape as [->|[[|n] ->]].
  - eexists _, before. cbn [truthy negb]. repeat split; auto.
  - eexists _, before. cbn [truthy negb]. repeat split; auto.
  - unfold js_gt, ToNumber, ToPrimitive. cbn [truthy].
    destruct (n =? 0) eqn:E0; cbn [negb].
    + eexists _, before. repeat split; auto.
    + destruct (120 <? n) eqn:E1.
      * eexists _, n. cbn [delay]. repeat split. lia.
      * eexists _, 120. cbn [delay]. repeat split. lia.
Qed.

Lemma configure_delay_witness :
  exists this' after,
    configure Sample.engine
      (Notifier (VStr (js "https://api")) VUndefined VUndefined)
      (VRef 0%nat) [OObj [(js "delay", VNum (Int 45))]]
    = (Return this', [OObj [(js "delay", VNum (Int 45))]])
    /\ delay this' = VNum (Int after)
    /\ 120 <= after
    /\ after = 120.
Proof.
  apply (configure_delay Sample.engine
           (Notifier (VStr (js "https://api")) VUndefined VUndefined)
           [OObj [(js "delay", VNum (Int 45))]] 0%nat
           (OObj [(js "delay", VNum (Int 45))]) 120);
    [reflexivity | reflexivity | lia | right; eexists; reflexivity].
Defined.

(** ** The size guard of _send *)

Lemma bind_returns {A B} (m : M A) (k : A -> M B) (h h' : heap) (a : A) :
  m h = (Return a, h') -> bind m k h = k a h'.
Proof. intros H. unfold bind. rewrite H. reflexivity. Qed.

Lemma bind_alloc {B} (o : object) (k : value -> M B) (h : heap) :
  bind (alloc o) k h = k (VRef (length h)) (h ++ [o]).
Proof. reflexivity. Qed.

(** What the guard compares is the length of the text in code units. *)
Lemma _send_guard (sv : services) (data : value) (config : props)
  (h : heap) (s : jsstring) :
  serialize (length h) h data = JText s ->
  _send sv data config h
  = if str_length s >? 256000
    then (Throw (size_error (str_length s)), h)
    else transport sv (get_prop config (js "api")) s h.
Proof.
  intros H. unfold _send, bind, JSON_stringify. rewrite H.
  destruct (str_length s >? 256000); reflexivity.
Qed.

Lemma str_length_app (s t : jsstring) :
  str_length (s ++ t) = str_length s + str_length t.
Proof. unfold str_length. rewrite length_app. lia. Qed.

Lemma str_length_cons (c : char) (s : jsstring) :
  str_length (c :: s) = 1 + str_length s.
Proof. unfold str_length. cbn [length]. lia. Qed.

(** A text of ASCII characters has as many bytes as code units. *)
Lemma utf8_length_ascii (s : jsstring) :
  forallb (fun c => (c <? 128)%N) s = true -> utf8_length s = str_length s.
Proof.
  induction s as [|c s IH]; [reflexivity|]. cbn [forallb utf8_length].
  intros [-> Hs]%andb_true_iff. rewrite str_length_cons, IH by assumption.
  reflexivity.
Qed.

(** For a text of ASCII characters the guard is about bytes. *)
Lemma _send_guard_ascii (sv : services) (data : value) (config : props)
  (h : heap) (s : jsstring) :
  serialize (length h) h data = JText s ->
  forallb (fun c => (c <? 128)%N) s = true ->
  _send sv data config h
  = if utf8_length s >? 256000
    then (Throw (size_error (utf8_length s)), h)
    else transport sv (get_prop config (js "api")) s h.
Proof.
  intros H Hs. rewrite (utf8_length_ascii _ Hs). apply _send_guard, H.
Qed.

Example size_error_reports_the_length :
  size_error 256001
  = Error (js "The size of your data object is more than 256kb (is 256.001kb), unfortunately we can not create notifications of this size").
Proof. reflexivity. Qed.

Lemma utf8_length_ascii_app (s t : jsstring) :
  forallb (fun c => (c <? 128)%N) s = true ->
  utf8_length (s ++ t) = str_length s + utf8_length t.
Proof.
  induction s as [|c s IH]; [reflexivity|]. cbn [forallb utf8_length app].
  intros [-> Hs]%andb_true_iff. rewrite str_length_cons, IH by assumption.
  lia.
Qed.

(** The letter e with an acute accent, U+00E9: one code unit, two bytes. *)
Lemma quote_chars_e_acute (n : nat) (t : jsstring) :
  quote_chars (repeat 233%N n ++ t) = repeat 233%N n ++ quote_chars t.
Proof. induction n as [|n IH]; [reflexivity|]. cbn. rewrite IH. reflexivity. Qed.

Lemma utf8_length_e_acute (n : nat) (t : jsstring) :
  utf8_length (repeat 233%N n ++ t) = 2 * Z.of_nat n + utf8_length t.
Proof.
  induction n as [|n IH]; [reflexivity|].
  cbn [repeat app]. change (utf8_length (233%N :: ?x)) with (2 + utf8_length x).
  rewrite IH. lia.
Qed.

Lemma str_length_repeat (c : char) (n : nat) :
  str_length (repeat c n) = Z.of_nat n.
Proof. unfold str_length. rewrite repeat_length. reflexivity. Qed.

Lemma remove_long_id (sv : services) (api : jsstring) (m : nat) :
  let id := repeat 233%N (S m) in
  let this := Notifier (VStr (104%N :: api)) VUndefined VUndefined in
  Z.of_nat (S m) + 30 <= 256000 ->
  remove sv this (VStr id) []
  = transport sv (VStr (104%N :: api)) (remove_text id)
      [OObj [(js "id", VStr id); (js "operation", VStr (js "REMOVE"))]]
  /\ str_length (remove_text id) = Z.of_nat (S m) + 30
  /\ utf8_length (remove_text id) = 2 * Z.of_nat (S m) + 30.
Proof.
  intros id this Hm.
  assert (Hlen : str_length (remove_text id) = Z.of_nat (S m) + 30).
  { unfold remove_text. rewrite !str_length_app. unfold id.
    rewrite str_length_repeat. 
    change (str_length (js "{")) with 1.
    change (str_length (quote (js "id"))) with 4.
    change (str_length (js ":")) with 1.
    change (str_length [34%N]) with 1.
    change (str_length (js ",")) with 1.
    change (str_length (quote (js "operation"))) with 11.
    change (str_length (quote (js "REMOVE"))) with 8.
    change (str_length (js "}")) with 1. lia. }
  split; [|split; [exact Hlen|]].
  - unfold remove.
    rewrite (bind_returns _ _ [] [] tt) by reflexivity.
    rewrite bind_alloc. cbn [isString length app].
    rewrite bind_assoc.
    erewrite bind_setp by reflexivity.
    rewrite bind_ret.
    erewrite bind_setp by reflexivity.
    unfold _removeNotification.
    erewrite !bind_getp by reflexivity.
    change (strict_eq _ _ && negb _) with false. cbv iota.
    rewrite (_send_guard sv _ _ _ (remove_text id)).
    + rewrite Hlen. destruct (Z.gtb_spec (Z.of_nat (S m) + 30) 256000); [lia|].
      reflexivity.
    + transitivity
        (JText (js "{"
                ++ ((quote (js "id") ++ js ":" ++ quote id) ++ js ","
                    ++ quote (js "operation") ++ js ":"
                    ++ quote (js "REMOVE"))
                ++ js "}")).
      * clearbody id. reflexivity.
      * unfold id, quote, remove_text.
        rewrite <- (app_nil_r (repeat 233%N (S m))) at 1.
        rewrite quote_chars_e_acute, app_nil_r, <- !app_assoc. reflexivity.
  - unfold remove_text, id.
    change (js "{" ++ quote (js "id") ++ js ":" ++ [34%N] ++ ?x)
      with ([123; 34; 105; 100; 34; 58; 34]%N ++ x).
    rewrite utf8_length_ascii_app, utf8_length_e_acute by reflexivity.
    rewrite utf8_length_ascii by reflexivity.
    change (str_length _) with 7 at 1. change (str_length _) with 23. lia.
Qed.

(** C6, on the code: the guard counts UTF-16 code units.  [remove] called
    with an id of 128,000 letters e-acute sends a record of 128,030 code
    units, which takes 256,030 bytes on the wire, and no size error is
    raised. *)
Theorem remove_sends_more_than_256000_bytes (sv : services) :
  let id := repeat 233%N (Z.to_nat 128000) in
  let api := VStr (js "https://api.example/notify") in
  exists h',
    remove sv (Notifier api VUndefined VUndefined) (VStr id) []
    = transport sv api (remove_text id) h'
    /\ str_length (remove_text id) = 128030
    /\ utf8_length (remove_text id) = 256030.
Proof.
  intros id api. subst id api.
  replace (Z.to_nat 128000) with (S (Z.to_nat 127999)) by lia.
  destruct (remove_long_id sv (js "ttps://api.example/notify")
              (Z.to_nat 127999)) as (Hrun & Hlen & Hbytes); [lia|].
  eexists. split; [exact Hrun|]. split.
  - rewrite Hlen. lia.
  - rewrite Hbytes. lia.
Qed.

(** ** Sanitizing an email twice *)

Lemma has_prop_app (a b : props) (k : jsstring) :
  has_prop (a ++ b) k = has_prop a k || has_prop b k.
Proof.
  induction a as [|[k' v'] a IH]; [reflexivity|]. cbn [app has_prop].
  rewrite IH, orb_assoc. reflexivity.
Qed.

Lemma set_prop_fresh (ps : props) (k : jsstring) (v : value) :
  has_prop ps k = false -> set_prop ps k v = ps ++ [(k, v)].
Proof.
  induction ps as [|[k' v'] ps IH]; [reflexivity|]. cbn [has_prop set_prop app].
  intros [-> Hps]%orb_false_iff. rewrite IH by assumption. reflexivity.
Qed.

Lemma set_prop_same (ps : props) (k : jsstring) :
  has_prop ps k = true -> set_prop ps k (get_prop ps k) = ps.
Proof.
  induction ps as [|[k' v'] ps IH]; [discriminate|].
  cbn [has_prop set_prop get_prop]. destruct (str_eqb k' k); [reflexivity|].
  cbn [orb]. intros H. rewrite IH by assumption. reflexivity.
Qed.

Lemma get_prop_absent (ps : props) (k : jsstring) :
  has_prop ps k = false -> get_prop ps k = VUndefined.
Proof.
  induction ps as [|[k' v'] ps IH]; [reflexivity|]. cbn [has_prop get_prop].
  intros [-> Hps]%orb_false_iff. auto.
Qed.

Lemma truthy_has_prop (ps : props) (k : jsstring) :
  truthy (get_prop ps k) = true -> has_prop ps k = true.
Proof.
  destruct (has_prop ps k) eqn:E; [reflexivity|].
  rewrite (get_prop_absent _ _ E). discriminate.
Qed.

Lemma distinct_keys_middle (a b : props) (k : jsstring) (v : value) :
  distinct_keys (a ++ (k, v) :: b) = true -> has_prop a k = false.
Proof.
  induction a as [|[k' v'] a IH]; [reflexivity|].
  cbn [app distinct_keys has_prop].
  intros [Hk Ha]%andb_true_iff. rewrite (IH Ha), orb_false_r.
  apply negb_true_iff in Hk. rewrite has_prop_app in Hk.
  apply orb_false_iff in Hk as [_ Hk]. cbn [has_prop] in Hk.
  apply orb_false_iff in Hk as [Hk _]. rewrite str_eqb_sym. exact Hk.
Qed.

Lemma assign_props_distinct (acc ps : props) :
  distinct_keys (acc ++ ps) = true -> assign_props acc ps = acc ++ ps.
Proof.
  revert acc. induction ps as [|[k v] ps IH]; intros acc H.
  - cbn. rewrite app_nil_r. reflexivity.
  - unfold assign_props in *. cbn [fold_left fst snd].
    rewrite (set_prop_fresh _ _ _ (distinct_keys_middle _ _ _ _ H)).
    rewrite IH; rewrite <- app_assoc; [reflexivity | exact H].
Qed.

Lemma get_prop_middle (a b : props) (k : jsstring) (v : value) :
  has_prop a k = false -> get_prop (a ++ (k, v) :: b) k = v.
Proof.
  induction a as [|[k' v'] a IH]; cbn [app has_prop get_prop].
  - rewrite str_eqb_refl. reflexivity.
  - intros [-> Ha]%orb_false_iff. auto.
Qed.

Lemma has_prop_encode (ps : props) (k : jsstring) :
  has_prop (map encode_entry ps) k = has_prop ps k.
Proof.
  induction ps as [|[k' v'] ps IH]; [reflexivity|].
  cbn [map has_prop encode_entry fst]. rewrite IH. reflexivity.
Qed.

Lemma distinct_keys_encode (ps : props) :
  distinct_keys (map encode_entry ps) = distinct_keys ps.
Proof.
  induction ps as [|[k' v'] ps IH]; [reflexivity|].
  cbn [map distinct_keys encode_entry fst]. rewrite IH, has_prop_encode.
  reflexivity.
Qed.

Lemma distinct_keys_app_l (a b : props) :
  distinct_keys (a ++ b) = true -> distinct_keys a = true.
Proof.
  induction a as [|[k v] a IH]; [reflexivity|]. cbn [app distinct_keys].
  intros [Hk Ha]%andb_true_iff. rewrite (IH Ha), andb_true_r.
  apply negb_true_iff in Hk. rewrite has_prop_app in Hk.
  apply orb_false_iff in Hk as [-> _]. reflexivity.
Qed.

(** The copy that the reduction over the keys of [body] builds, one key
    at a time, is [body] with every value escaped. *)
Lemma fold_keys_encode (bps done rest : props) :
  bps = done ++ rest ->
  distinct_keys bps = true ->
  fold_left
    (fun ps k => set_prop (assign_props [] ps) k
                   (encodeString (get_prop bps k)))
    (map fst rest) (map encode_entry done)
  = map encode_entry bps.
Proof.
  revert done. induction rest as [|[k v] rest IH]; intros done -> Hd.
  - rewrite app_nil_r. reflexivity.
  - cbn [map fold_left fst].
    pose proof (distinct_keys_middle _ _ _ _ Hd) as Hk.
    rewrite (assign_props_distinct []); cbn [app].
    2:{ rewrite distinct_keys_encode. exact (distinct_keys_app_l _ _ Hd). }
    rewrite set_prop_fresh by (rewrite has_prop_encode; exact Hk).
    rewrite (get_prop_middle _ _ _ _ Hk).
    change [(k, encodeString v)] with (map encode_entry [(k, v)]).
    rewrite <- map_app.
    rewrite (IH (done ++ [(k, v)]));
      [reflexivity | rewrite <- app_assoc; reflexivity | exact Hd].
Qed.

Lemma map_encode_escape_free (ps : props) :
  Forall (fun kv => escape_free (snd kv)) ps -> map encode_entry ps = ps.
Proof.
  induction 1 as [|[k v] ps Hv _ IH]; [reflexivity|].
  unfold escape_free in Hv. cbn [map snd] in *. unfold encode_entry at 1.
  cbn [fst snd]. rewrite Hv, IH. reflexivity.
Qed.

Lemma extends_refl (h : heap) : extends h h.
Proof. intros i o H. exact H. Qed.

Lemma extends_trans (h1 h2 h3 : heap) :
  extends h1 h2 -> extends h2 h3 -> extends h1 h3.
Proof. intros H12 H23 i o H. auto. Qed.

Lemma extends_app (h ext : heap) : extends h (h ++ ext).
Proof. intros i o H. apply lookup_app_l_Some, H. Qed.

Lemma extends_insert (h h' : heap) (i : nat) (o : object) :
  extends h h' -> (length h <= i)%nat -> extends h (<[i := o]> h').
Proof.
  intros He Hi j o' H. rewrite list_lookup_insert_ne; [auto|].
  apply lookup_lt_Some in H. lia.
Qed.

Lemma isArrayOfStrings_extends (h h' : heap) (x : value) :
  extends h h' -> isArrayOfStrings h x = true ->
  isArrayOfStrings h' x = true.
Proof.
  intros He. destruct x as [| | | | |l]; try discriminate. cbn.
  destruct (h !! l) as [o|] eqn:E; [|discriminate].
  rewrite (He _ _ E). auto.
Qed.

Lemma recipient_done_extends (h h' : heap) (ps : props) (v : jsstring) :
  extends h h' -> recipient_done h ps v -> recipient_done h' ps v.
Proof.
  intros He [H|H]; [left; exact H|right].
  eapply isArrayOfStrings_extends; eassumption.
Qed.

Lemma wrap_recipient_done (h : heap) (l : loc) (ps : props)
  (target : value) (v : jsstring) :
  h !! l = Some (OObj ps) -> recipient_done h ps v ->
  wrap_recipient (VRef l) target v h = (Return tt, h).
Proof.
  intros H Hd. unfold wrap_recipient.
  rewrite (bind_getp _ _ _ _ _ H), bind_read. cbn [obj_get].
  destruct Hd as [Hd|Hd].
  - rewrite Hd. reflexivity.
  - rewrite Hd. destruct (get_prop ps v); try discriminate. reflexivity.
Qed.

Lemma wrap_recipients_done (h : heap) (l : loc) (ps : props)
  (target : value) :
  h !! l = Some (OObj ps) ->
  Forall (recipient_done h ps) [js "to"; js "cc"; js "bcc"; js "replyTo"] ->
  wrap_recipients (VRef l) target h = (Return tt, h).
Proof.
  intros H Hall. unfold wrap_recipients.
  induction Hall as [|v vs Hv _ IH]; [reflexivity|].
  cbn [forEach]. rewrite (bind_returns _ _ h h tt); [exact IH|].
  eapply wrap_recipient_done; eassumption.
Qed.

(** The reduction over the keys of [body] allocates one object per key
    and leaves the rest of the store alone. *)
Lemma reduce_encode_key (lb : loc) (bps : props) (keys : list jsstring) :
  forall (h : heap) (a : loc) (aps : props),
    h !! lb = Some (OObj bps) ->
    h !! a = Some (OObj aps) ->
    exists a' ext,
      reduce keys (encode_key (VRef lb)) (VRef a) h
        = (Return (VRef a'), h ++ ext)
      /\ (a <= a')%nat
      /\ (h ++ ext) !! a'
         = Some (OObj (fold_left
                         (fun ps k => set_prop (assign_props [] ps) k
                                        (encodeString (get_prop bps k)))
                         keys aps)).
Proof.
  induction keys as [|k keys IH]; intros h a aps Hb Ha.
  - exists a, []. rewrite app_nil_r. split; [reflexivity|]. split; [lia|exact Ha].
  - cbn [reduce fold_left].
    set (ps1 := set_prop (assign_props [] aps) k
                  (encodeString (get_prop bps k))).
    assert (Hstep : encode_key (VRef lb) (VRef a) k h
                    = (Return (VRef (length h)), h ++ [OObj ps1])).
    { unfold encode_key. rewrite (bind_getp _ _ _ _ _ Hb), bind_read.
      unfold own_props. rewrite Ha. reflexivity. }
    rewrite (bind_returns _ _ _ _ _ Hstep).
    destruct (IH (h ++ [OObj ps1]) (length h) ps1)
      as (a' & ext & Hr & Hle & Hl).
    + apply lookup_app_l_Some, Hb.
    + apply list_lookup_middle. reflexivity.
    + exists a', ([OObj ps1] ++ ext). rewrite app_assoc.
      apply lookup_lt_Some in Ha. split; [exact Hr|]. split; [lia|exact Hl].
Qed.

Lemma same_props_refl (h : heap) (ps : props) : same_props h ps ps.
Proof.
  induction ps; constructor; [split; [reflexivity|left; reflexivity]|auto].
Qed.

Lemma same_props_set (h : heap) (ps : props) (k : jsstring) (v : value) :
  has_prop ps k = true ->
  same_value h (get_prop ps k) v -> same_props h ps (set_prop ps k v).
Proof.
  induction ps as [|[k' v'] ps IH]; [discriminate|].
  cbn [has_prop get_prop set_prop]. destruct (str_eqb k' k); intros Hk Hv.
  - constructor; [split; [reflexivity|exact Hv]|apply same_props_refl].
  - constructor; [split; [reflexivity|left; reflexivity]|].
    apply IH; assumption.
Qed.

Lemma has_prop_defined (ps : props) (k : jsstring) :
  get_prop ps k <> VUndefined -> has_prop ps k = true.
Proof.
  intros H. destruct (has_prop ps k) eqn:E; [reflexivity|].
  destruct H. apply get_prop_absent, E.
Qed.

(** Without a [__proto__] key in the source, assigning its properties
    makes each of them an own property of the target. *)
Lemma assign_set_plain (acc ps : props) :
  has_prop ps (js "__proto__") = false ->
  assign_set acc ps = assign_props acc ps.
Proof.
  revert acc. induction ps as [|[k v] ps IH]; intros acc; [reflexivity|].
  cbn [has_prop]. intros [Hk Hps]%orb_false_iff.
  unfold assign_set, assign_props in *. cbn [fold_left fst snd].
  rewrite Hk. apply IH, Hps.
Qed.

Lemma assign_fresh_body (h : heap) (l s : loc) (ps : props) (nb : value) :
  h !! l = Some (OObj ps) ->
  h !! s = Some (OObj [(js "body", nb)]) ->
  distinct_keys ps = true ->
  has_prop ps (js "__proto__") = false ->
  Object_assign_fresh (VRef l) (VRef s) h
  = (Return (VRef (length h)), h ++ [OObj (set_prop ps (js "body") nb)]).
Proof.
  intros H Hs Hd Hp. unfold Object_assign_fresh. rewrite !bind_read.
  unfold own_props. rewrite H, Hs.
  rewrite (assign_set_plain [] ps Hp), (assign_props_distinct [] ps Hd).
  reflexivity.
Qed.

(** C7 fails as stated: a body that is already escaped still holds an
    ampersand, and is escaped once more. *)
Lemma escaped_body_is_escaped_again :
  let h := [OObj [(js "from", VStr (js "me@example.com"));
                  (js "to", VRef 1%nat);
                  (js "subject", VStr (js "Hello"));
                  (js "body", VStr (js "1 &lt; 2"))];
            OArr [VStr (js "you@example.com")] []] in
  js "1 &lt; 2" = encode (js "1 < 2")
  /\ fst ((let* email := validateAndSanitizeEmailData (VRef 0%nat) in
           getp email (js "body")) h)
     = Return (VStr (js "1 &amp;lt; 2")).
Proof. split; reflexivity. Qed.

(** C7, as the code has it: sanitizing is without effect on a valid email
    that has no own [__proto__] key, whose recipient fields are arrays of
    strings or not set and whose body, a string or the values of a map,
    holds nothing left to escape (none of the five characters the escaping
    rewrites, the ampersand of an entity among them).  The result is a new
    object with the keys of the input in their order and equal values; a
    body map is a new object with the same content; the input is not
    touched. *)
Theorem resanitize_escape_free_email (h : heap) (l : loc) (ps : props) :
  h !! l = Some (OObj ps) ->
  distinct_keys ps = true ->
  has_prop ps (js "__proto__") = false ->
  check_email (VRef l) h = (Return tt, h) ->
  Forall (recipient_done h ps) [js "to"; js "cc"; js "bcc"; js "replyTo"] ->
  (exists b, get_prop ps (js "body") = VStr b /\ encode b = b)
  \/ (exists lb bps,
        get_prop ps (js "body") = VRef lb
        /\ h !! lb = Some (OObj bps)
        /\ distinct_keys bps = true
        /\ Forall (fun kv => escape_free (snd kv)) bps) ->
  exists h' l' ps',
    validateAndSanitizeEmailData (VRef l) h = (Return (VRef l'), h')
    /\ (length h <= l')%nat
    /\ extends h h'
    /\ h' !! l' = Some (OObj ps')
    /\ same_props h' ps ps'.
Proof.
  intros H Hd Hproto Hcheck Hrec Hbody.
  pose proof (lookup_lt_Some _ _ _ H) as Hlt.
  unfold validateAndSanitizeEmailData.
  rewrite (bind_returns _ _ _ _ _ Hcheck), bind_alloc.
  assert (H1 : (h ++ [OObj []]) !! l = Some (OObj ps))
    by apply lookup_app_l_Some, H.
  assert (Hs1 : (h ++ [OObj []]) !! length h = Some (OObj []))
    by (apply list_lookup_middle; reflexivity).
  rewrite (bind_getp _ _ _ _ _ H1). cbn [obj_get].
  destruct Hbody as [(b & Hb & Hfree)|(lb & bps & Hb & Hlb & Hbd & Hfree)];
    rewrite Hb; cbn [isObject isString].
  - rewrite bind_ret, (bind_setp _ _ _ _ _ _ Hs1).
    cbn [obj_set set_prop encodeString]. rewrite Hfree.
    set (h2 := <[length h := OObj [(js "body", VStr b)]]> (h ++ [OObj []])).
    assert (He2 : extends h h2)
      by (apply extends_insert; [apply extends_app|lia]).
    rewrite (bind_returns _ _ h2 h2 tt).
    2:{ apply (wrap_recipients_done _ _ ps); [apply He2, H|].
        eapply Forall_impl; [exact Hrec|].
        intros v. apply recipient_done_extends, He2. }
    rewrite (assign_fresh_body h2 l (length h) ps (VStr b));
      [|apply He2, H | eapply lookup_written, Hs1 | exact Hd | exact Hproto].
    rewrite <- Hb, set_prop_same
      by (apply has_prop_defined; rewrite Hb; discriminate).
    exists (h2 ++ [OObj ps]), (length h2), ps.
    split; [reflexivity|]. split.
    { unfold h2. rewrite length_insert, length_app. lia. }
    split; [eapply extends_trans; [exact He2|apply extends_app]|].
    split; [apply list_lookup_middle; reflexivity|apply same_props_refl].
  - unfold Object_keys. rewrite bind_assoc, bind_read.
    unfold own_props at 1. rewrite (lookup_app_l_Some _ _ _ _ Hlb).
    rewrite bind_assoc, bind_alloc, bind_assoc.
    set (h2 := (h ++ [OObj []]) ++ [OObj []]).
    assert (He2 : extends h h2).
    { eapply extends_trans; apply extends_app. }
    destruct (reduce_encode_key lb bps (map fst bps) h2 (length (h ++ [OObj []])) [])
      as (a' & ext & Hr & Hle & Ha').
    { apply He2, Hlb. }
    { apply list_lookup_middle. reflexivity. }
    rewrite (bind_returns _ _ _ _ _ Hr).
    pose proof (fold_keys_encode bps [] bps eq_refl Hbd) as Hfold.
    cbn [map] in Hfold. rewrite Hfold, (map_encode_escape_free _ Hfree) in Ha'.
    rewrite length_app in Hle. cbn [length] in Hle.
    assert (Hs3 : (h2 ++ ext) !! length h = Some (OObj [])).
    { unfold h2. rewrite <- !app_assoc. apply list_lookup_middle. reflexivity. }
    rewrite (bind_setp _ _ _ _ _ _ Hs3). rewrite bind_ret.
    cbn [obj_set set_prop].
    set (h4 := <[length h := OObj [(js "body", VRef a')]]> (h2 ++ ext)).
    assert (He4 : extends h h4).
    { apply extends_insert; [|lia].
      eapply extends_trans; [exact He2|apply extends_app]. }
    rewrite (bind_returns _ _ h4 h4 tt).
    2:{ apply (wrap_recipients_done _ _ ps); [apply He4, H|].
        eapply Forall_impl; [exact Hrec|].
        intros v. apply recipient_done_extends, He4. }
    rewrite (assign_fresh_body h4 l (length h) ps (VRef a'));
      [|apply He4, H | eapply lookup_written, Hs3 | exact Hd | exact Hproto].
    exists (h4 ++ [OObj (set_prop ps (js "body") (VRef a'))]), (length h4),
      (set_prop ps (js "body") (VRef a')).
    split; [reflexivity|]. split.
    { unfold h4, h2. rewrite length_insert, !length_app. lia. }
    split; [eapply extends_trans; [exact He4|apply extends_app]|].
    split; [apply list_lookup_middle; reflexivity|].
    apply same_props_set.
    + apply has_prop_defined. rewrite Hb. discriminate.
    + right. exists lb, a', (OObj bps). rewrite Hb.
      split; [reflexivity|]. split; [reflexivity|]. split.
      * apply lookup_app_l_Some, He4, Hlb.
      * apply lookup_app_l_Some. unfold h4.
        rewrite list_lookup_insert_ne by lia. exact Ha'.
Qed.

(** ** Footprints of the calls *)

Lemma changes_only_refl (W : nat -> jsstring -> bool) (h : heap) :
  changes_only W h h.
Proof. split; [lia|]. intros i o H. exists o. auto. Qed.

Lemma changes_only_trans (W : nat -> jsstring -> bool) (h1 h2 h3 : heap) :
  changes_only W h1 h2 -> changes_only W h2 h3 -> changes_only W h1 h3.
Proof.
  intros [L12 H12] [L23 H23]. split; [lia|]. intros i o H.
  destruct (H12 _ _ H) as (o2 & H2 & E2).
  destruct (H23 _ _ H2) as (o3 & H3 & E3).
  exists o3. split; [exact H3|]. intros k Hk. rewrite E3, E2; auto.
Qed.

(** Only what a footprint says of the objects of [h] matters. *)
Lemma changes_only_weaken (W W' : nat -> jsstring -> bool) (h h' : heap) :
  (forall i k, (i < length h)%nat -> W' i k = false -> W i k = false) ->
  changes_only W h h' -> changes_only W' h h'.
Proof.
  intros HW [L H]. split; [exact L|]. intros i o Hi.
  destruct (H _ _ Hi) as (o' & Ho' & E). exists o'.
  split; [exact Ho'|]. intros k Hk. apply E, HW; [|exact Hk].
  eapply lookup_lt_Some, Hi.
Qed.

Lemma changes_only_insert (W : nat -> jsstring -> bool) (h : heap) (l : nat)
  (o : object) (k : jsstring) (x : value) :
  h !! l = Some o ->
  (forall k', W l k' = false -> obj_get (obj_set o k x) k' = obj_get o k') ->
  changes_only W h (<[l := obj_set o k x]> h).
Proof.
  intros H Hw. split; [rewrite length_insert; lia|]. intros i oi Hi.
  destruct (decide (i = l)) as [->|Hne].
  - rewrite H in Hi. injection Hi as <-.
    exists (obj_set o k x). split; [eapply lookup_written, H|exact Hw].
  - exists oi. rewrite list_lookup_insert_ne by congruence. auto.
Qed.

Lemma untouched_refl (n : nat) (h : heap) : untouched n h h.
Proof. split; auto. Qed.

Lemma untouched_trans (n : nat) (h1 h2 h3 : heap) :
  untouched n h1 h2 -> untouched n h2 h3 -> untouched n h1 h3.
Proof.
  intros [L12 H12] [L23 H23]. split; [lia|]. intros i Hi.
  rewrite H23, H12; auto.
Qed.

Lemma untouched_app (n : nat) (h ext : heap) :
  (n <= length h)%nat -> untouched n h (h ++ ext).
Proof.
  intros Hn. split; [rewrite length_app; lia|]. intros i Hi.
  apply lookup_app_l. lia.
Qed.

Lemma untouched_insert (n : nat) (h : heap) (l : nat) (o : object) :
  (n <= l)%nat -> untouched n h (<[l := o]> h).
Proof.
  intros Hn. split; [rewrite length_insert; lia|]. intros i Hi.
  apply list_lookup_insert_ne. lia.
Qed.

(** A store whose old objects are untouched has changed within every
    footprint. *)
Lemma untouched_changes_only (W : nat -> jsstring -> bool) (h h' : heap) :
  untouched (length h) h h' -> changes_only W h h'.
Proof.
  intros [L U]. split; [exact L|]. intros i o Hi. exists o.
  rewrite U by (eapply lookup_lt_Some, Hi). auto.
Qed.

Lemma untouched_extends (h h' : heap) :
  untouched (length h) h h' -> extends h h'.
Proof.
  intros [L U] i o Hi. rewrite U by (eapply lookup_lt_Some, Hi). exact Hi.
Qed.

Section Within.

Context {n : nat} {W : nat -> jsstring -> bool}.

Lemma within_ret {A} (a : A) (Q : A -> Prop) : Q a -> within n W (ret a) Q.
Proof. intros Hq h _. split; [apply changes_only_refl|exact Hq]. Qed.

Lemma within_throw {A} (e : exn) (Q : A -> Prop) : within n W (throw e) Q.
Proof. intros h _. split; [apply changes_only_refl|exact I]. Qed.

Lemma within_read {A} (f : heap -> A) (Q : A -> Prop) :
  (forall h, Q (f h)) -> within n W (read f) Q.
Proof. intros Hq h _. split; [apply changes_only_refl|apply Hq]. Qed.

Lemma within_bind {A B} (m : M A) (f : A -> M B) (Q : A -> Prop)
  (R : B -> Prop) :
  within n W m Q -> (forall a, Q a -> within n W (f a) R) ->
  within n W (bind m f) R.
Proof.
  intros Hm Hf h Hn. destruct (Hm h Hn) as [Hc Hr]. unfold bind.
  destruct (m h) as [[a|e] h1]; cbn [fst snd] in *.
  - destruct (Hf a Hr h1) as [Hc' Hr']; [destruct Hc; lia|].
    split; [eapply changes_only_trans; eassumption|exact Hr'].
  - split; [exact Hc|exact I].
Qed.

Lemma within_getp (v : value) (k : jsstring) :
  within n W (getp v k) anything.
Proof.
  destruct v; cbn [getp]; try apply within_throw;
    try (apply within_ret; exact I);
    try (apply (within_read _ anything); intros; exact I).
  destruct (str_eqb k (js "length")); [apply within_ret; exact I|].
  destruct (parse_index k); apply within_ret; exact I.
Qed.

Lemma within_alloc (o : object) : within n W (alloc o) (fresh n).
Proof.
  intros h Hn. cbn. split.
  - split; [rewrite length_app; lia|]. intros i o' H. exists o'.
    split; [apply lookup_app_l_Some, H|auto].
  - exists (length h). auto.
Qed.

Lemma within_setp_fresh (v : value) (k : jsstring) (x : value) :
  fresh n v -> within n W (setp v k x) anything.
Proof.
  intros (l & -> & Hl) h Hn. cbn. split; [|exact I].
  destruct (h !! l) as [o|] eqn:E; [|apply changes_only_refl].
  apply changes_only_insert; [exact E|]. intros k' Hk'. unfold allowed in Hk'.
  apply orb_false_iff in Hk' as [Hk' _]. apply Nat.leb_gt in Hk'. lia.
Qed.

Lemma within_setp_key (v : value) (k : jsstring) (x : value) :
  (forall l k', v = VRef l -> W l k' = false -> str_eqb k k' = false) ->
  named k -> within n W (setp v k x) anything.
Proof.
  intros Hin Hnamed. destruct v; cbn [setp]; try apply within_throw;
    try (apply within_ret; exact I).
  intros h Hn. cbn. split; [|exact I].
  destruct (h !! l) as [o|] eqn:E; [|apply changes_only_refl].
  apply changes_only_insert; [exact E|]. intros k' Hk'. unfold allowed in Hk'.
  apply orb_false_iff in Hk' as [_ Hk'].
  apply obj_get_set_ne; [exact Hnamed|]. eapply Hin; [reflexivity|exact Hk'].
Qed.

Lemma within_external {A} (m : M A) :
  (forall h, changes_only (fun _ _ => false) h (snd (m h))) ->
  within n W m anything.
Proof.
  intros Hm h _. split.
  - eapply changes_only_weaken; [|apply Hm]. reflexivity.
  - destruct (fst (m h)); exact I.
Qed.

Lemma within_JSON_stringify (v : value) :
  within n W (JSON_stringify v) anything.
Proof.
  intros h _. unfold JSON_stringify.
  destruct (serialize _ _ _); (split; [apply changes_only_refl|exact I]).
Qed.

Lemma within__send (sv : services) (data : value) (config : props) :
  quiet sv -> within n W (_send sv data config) anything.
Proof.
  intros [_ Ht]. unfold _send.
  eapply within_bind; [apply within_JSON_stringify|]. intros s _.
  destruct s; try apply within_throw.
  destruct (_ >? _); [apply within_throw|]. apply within_external, Ht.
Qed.

(** A call that only allocates stays within every footprint. *)
Lemma allocates_within {A} (m : M A) (Q : A -> Prop) :
  allocates n m Q -> within n W m Q.
Proof.
  intros Hm h Hn. destruct (Hm h Hn) as [[L U] Hr]. split; [|exact Hr].
  split; [exact L|]. intros i o Hi.
  destruct (decide (i < n)%nat) as [Hi'|Hi'].
  - exists o. rewrite U by exact Hi'. auto.
  - destruct (lookup_lt_is_Some_2 (snd (m h)) i) as [o' Ho'].
    { apply lookup_lt_Some in Hi. lia. }
    exists o'. split; [exact Ho'|]. intros k Hk. unfold allowed in Hk.
    apply orb_false_iff in Hk as [Hk _]. apply Nat.leb_gt in Hk. lia.
Qed.

End Within.

Lemma among_outputs (k : jsstring) :
  In k schedule_outputs -> named k.
Proof.
  intros [<-|[<-|[<-|[]]]]; split; reflexivity.
Qed.

Lemma among_In (keys : list jsstring) (k : jsstring) :
  In k keys -> among keys k = true.
Proof.
  intros Hin. unfold among. apply existsb_exists. exists k.
  split; [exact Hin|apply str_eqb_refl].
Qed.

(** cronBuilder writes to the schedule it is given, and there to
    [expression], [once] and [end]. *)
Lemma within_cronBuilder (rt : runtime) (n : nat)
  (W : nat -> jsstring -> bool) (schedule delay : value) :
  fresh n schedule
  \/ (forall l k, schedule = VRef l -> In k schedule_outputs ->
                   W l k = true) ->
  within n W (cronBuilder rt schedule delay) anything.
Proof.
  intros Hs. unfold cronBuilder.
  assert (Hset : forall k x, In k schedule_outputs ->
                   within n W (setp schedule k x) anything).
  { intros k x Hin. destruct Hs as [Hs|Hs].
    - apply within_setp_fresh, Hs.
    - apply within_setp_key; [|apply among_outputs, Hin].
      intros l k' -> Hk'. destruct (str_eqb k k') eqn:E; [|reflexivity].
      apply str_eqb_eq in E. subst k'. rewrite (Hs l k eq_refl Hin) in Hk'.
      discriminate. }
  repeat (eapply within_bind; [apply within_getp|]; intros ? _).
  destruct (_ && _); [apply within_throw|].
  eapply within_bind.
  { instantiate (1 := anything).
    destruct (truthy _); [|apply within_ret; exact I].
    eapply within_bind; [apply (within_read _ anything); intros; exact I|].
    intros e _.
    destruct (isNaN e); [apply within_throw|].
    apply Hset. cbn. auto. }
  intros _ _. eapply within_bind.
  { instantiate (1 := anything). destruct (_ && _).
    - eapply within_bind; [apply (within_read _ anything); intros; exact I|].
      intros d _.
      eapply within_bind; [apply Hset; cbn; auto|]. intros _ _.
      apply within_ret. exact I.
    - apply within_ret. exact I. }
  intros c _.
  eapply within_bind; [apply (within_read _ anything); intros; exact I|].
  intros e _.
  eapply within_bind; [apply Hset; cbn; auto|]. intros _ _.
  apply within_ret. exact I.
Qed.

Section Allocates.

Context {n : nat}.

Lemma allocates_ret {A} (a : A) (Q : A -> Prop) : Q a -> allocates n (ret a) Q.
Proof. intros Hq h _. split; [apply untouched_refl|exact Hq]. Qed.

Lemma allocates_throw {A} (e : exn) (Q : A -> Prop) : allocates n (throw e) Q.
Proof. intros h _. split; [apply untouched_refl|exact I]. Qed.

Lemma allocates_read {A} (f : heap -> A) : allocates n (read f) anything.
Proof. intros h _. split; [apply untouched_refl|exact I]. Qed.

Lemma allocates_weaken {A} (m : M A) (Q Q' : A -> Prop) :
  (forall a, Q a -> Q' a) -> allocates n m Q -> allocates n m Q'.
Proof.
  intros Hq Hm h Hn. destruct (Hm h Hn) as [Hc Hr]. split; [exact Hc|].
  destruct (fst (m h)); auto.
Qed.

Lemma allocates_bind {A B} (m : M A) (f : A -> M B) (Q : A -> Prop)
  (R : B -> Prop) :
  allocates n m Q -> (forall a, Q a -> allocates n (f a) R) ->
  allocates n (bind m f) R.
Proof.
  intros Hm Hf h Hn. destruct (Hm h Hn) as [Hc Hr]. unfold bind.
  destruct (m h) as [[a|e] h1]; cbn [fst snd] in *.
  - destruct (Hf a Hr h1) as [Hc' Hr']; [destruct Hc; lia|].
    split; [eapply untouched_trans; eassumption|exact Hr'].
  - split; [exact Hc|exact I].
Qed.

Lemma allocates_getp (v : value) (k : jsstring) :
  allocates n (getp v k) anything.
Proof.
  destruct v; cbn [getp]; try apply allocates_throw;
    try (apply allocates_ret; exact I); try apply allocates_read.
  destruct (str_eqb k (js "length")); [apply allocates_ret; exact I|].
  destruct (parse_index k); apply allocates_ret; exact I.
Qed.

Lemma allocates_alloc (o : object) : allocates n (alloc o) (fresh n).
Proof.
  intros h Hn. cbn. split; [apply untouched_app, Hn|].
  exists (length h). auto.
Qed.

Lemma allocates_setp (v : value) (k : jsstring) (x : value) :
  fresh n v -> allocates n (setp v k x) anything.
Proof.
  intros (l & -> & Hl) h Hn. cbn. split; [|exact I].
  destruct (h !! l) as [o|]; [apply untouched_insert, Hl|apply untouched_refl].
Qed.

Lemma allocates_forEach {A} (xs : list A) (f : A -> M unit) :
  (forall x, allocates n (f x) anything) ->
  allocates n (forEach xs f) anything.
Proof.
  intros Hf. induction xs as [|x xs IH]; cbn [forEach].
  - apply allocates_ret. exact I.
  - eapply allocates_bind; [apply Hf|]. intros _ _. exact IH.
Qed.

Lemma allocates_validateConfig (config : props)
  (ignore : option (list jsstring)) :
  allocates n (validateConfig config ignore) anything.
Proof.
  unfold validateConfig. apply allocates_forEach. intros key.
  destruct (_ && _); [apply allocates_throw|apply allocates_ret; exact I].
Qed.

Lemma allocates_check_email (email : value) :
  allocates n (check_email email) anything.
Proof.
  unfold check_email.
  repeat (eapply allocates_bind; [apply allocates_getp|]; intros ? _).
  repeat (match goal with
          | |- allocates _ (if ?c then _ else _) _ => destruct c
          end; try apply allocates_throw).
  apply allocates_forEach. intros v.
  eapply allocates_bind; [apply allocates_getp|]. intros x _.
  destruct (_ && _); [apply allocates_throw|apply allocates_ret; exact I].
Qed.

Lemma allocates_wrap_recipients (email target : value) :
  fresh n target -> allocates n (wrap_recipients email target) anything.
Proof.
  intros Ht. apply allocates_forEach. intros v. unfold wrap_recipient.
  eapply allocates_bind; [apply allocates_getp|]. intros x _.
  eapply allocates_bind; [apply allocates_read|]. intros s _.
  destruct (_ && _).
  - eapply allocates_bind; [apply allocates_alloc|]. intros arr _.
    apply allocates_setp, Ht.
  - destruct (_ && _); [apply allocates_throw|apply allocates_ret; exact I].
Qed.

Lemma allocates_spread_fresh (a b : value) :
  allocates n (spread_fresh a b) (fresh n).
Proof.
  unfold spread_fresh.
  eapply allocates_bind; [apply allocates_read|]. intros pa _.
  eapply allocates_bind; [apply allocates_read|]. intros pb _.
  apply allocates_alloc.
Qed.

Lemma allocates_assign_fresh (a b : value) :
  allocates n (Object_assign_fresh a b) (fresh n).
Proof.
  unfold Object_assign_fresh.
  eapply allocates_bind; [apply allocates_read|]. intros pa _.
  eapply allocates_bind; [apply allocates_read|]. intros pb _.
  apply allocates_alloc.
Qed.

Lemma allocates_sanitizeEmailData (email : value) :
  allocates n (sanitizeEmailData email) (fresh n).
Proof.
  unfold sanitizeEmailData.
  eapply allocates_bind; [apply allocates_alloc|]. intros parsed Hp.
  destruct (negb _); [apply allocates_throw|].
  eapply allocates_bind; [apply allocates_check_email|]. intros _ _.
  eapply allocates_bind; [apply allocates_wrap_recipients, Hp|]. intros _ _.
  apply allocates_spread_fresh.
Qed.

Lemma allocates_reduce_encode_key (body : value) (keys : list jsstring) :
  forall acc, fresh n acc ->
    allocates n (reduce keys (encode_key body) acc) (fresh n).
Proof.
  induction keys as [|k keys IH]; intros acc Hacc; cbn [reduce].
  - apply allocates_ret, Hacc.
  - eapply allocates_bind; [|intros acc' Hacc'; apply IH, Hacc'].
    unfold encode_key.
    eapply allocates_bind; [apply allocates_getp|]. intros x _.
    eapply allocates_bind; [apply allocates_read|]. intros sp _.
    apply allocates_alloc.
Qed.

Lemma allocates_validateAndSanitizeEmailData (email : value) :
  allocates n (validateAndSanitizeEmailData email) (fresh n).
Proof.
  unfold validateAndSanitizeEmailData.
  eapply allocates_bind; [apply allocates_check_email|]. intros _ _.
  eapply allocates_bind; [apply allocates_alloc|]. intros sv Hsv.
  eapply allocates_bind; [apply allocates_getp|]. intros body _.
  eapply allocates_bind.
  { instantiate (1 := anything).
    destruct (isObject body); [|apply allocates_ret; exact I].
    eapply allocates_bind.
    { instantiate (1 := anything). unfold Object_keys.
      destruct body; try apply allocates_throw; apply allocates_read. }
    intros keys _.
    eapply allocates_bind; [apply allocates_alloc|]. intros empty Hempty.
    eapply allocates_bind; [apply allocates_reduce_encode_key, Hempty|].
    intros encoded _. apply allocates_setp, Hsv. }
  intros _ _. eapply allocates_bind.
  { instantiate (1 := anything).
    destruct (isString body); [apply allocates_setp, Hsv|].
    apply allocates_ret. exact I. }
  intros _ _.
  eapply allocates_bind; [apply allocates_wrap_recipients, Hsv|]. intros _ _.
  apply allocates_assign_fresh.
Qed.

Lemma allocates_sanitizePhone (phone : value) (param : jsstring) :
  allocates n (sanitizePhone phone param) anything.
Proof.
  unfold sanitizePhone. destruct phone; try apply allocates_throw.
  destruct (negb _); [apply allocates_throw|apply allocates_ret; exact I].
Qed.

Lemma allocates_validateAndSanitizeSMSData (sms : value) :
  allocates n (validateAndSanitizeSMSData sms) (fresh n).
Proof.
  unfold validateAndSanitizeSMSData.
  eapply allocates_bind; [apply allocates_getp|]. intros message _.
  destruct (negb _); [apply allocates_throw|].
  destruct message; try apply allocates_throw.
  eapply allocates_bind; [apply allocates_getp|]. intros phone _.
  eapply allocates_bind; [apply allocates_getp|]. intros to _.
  destruct (_ && _); [apply allocates_throw|].
  eapply allocates_bind; [apply allocates_alloc|]. intros sv Hsv.
  eapply allocates_bind.
  { instantiate (1 := anything).
    destruct (truthy to); [|apply allocates_ret; exact I].
    eapply allocates_bind; [apply allocates_sanitizePhone|]. intros p _.
    apply allocates_setp, Hsv. }
  intros _ _. eapply allocates_bind.
  { instantiate (1 := anything).
    destruct (truthy phone); [|apply allocates_ret; exact I].
    eapply allocates_bind; [apply allocates_sanitizePhone|]. intros p _.
    apply allocates_setp, Hsv. }
  intros _ _. apply allocates_assign_fresh.
Qed.

Lemma allocates_validateAndSanitizeData (data : value) :
  allocates n (validateAndSanitizeData data) (fresh n).
Proof.
  unfold validateAndSanitizeData.
  eapply allocates_bind; [apply allocates_alloc|]. intros sd Hsd.
  eapply allocates_bind; [apply allocates_getp|]. intros email _.
  eapply allocates_bind.
  { instantiate (1 := anything).
    destruct (truthy email); [|apply allocates_ret; exact I].
    eapply allocates_bind; [apply allocates_validateAndSanitizeEmailData|].
    intros e _. apply allocates_setp, Hsd. }
  intros _ _.
  eapply allocates_bind; [apply allocates_getp|]. intros sms _.
  eapply allocates_bind.
  { instantiate (1 := anything).
    destruct (truthy sms); [|apply allocates_ret; exact I].
    eapply allocates_bind; [apply allocates_validateAndSanitizeSMSData|].
    intros e _. apply allocates_setp, Hsd. }
  intros _ _. apply allocates_assign_fresh.
Qed.

End Allocates.

(** A call that only allocates leaves the store it starts from in place. *)
Lemma allocates_extends {A} (m : M A) (Q : A -> Prop) (h : heap) :
  allocates (length h) m Q -> extends h (snd (m h)).
Proof.
  intros Hm. destruct (Hm h (le_n _)) as [Hu _].
  apply untouched_extends, Hu.
Qed.

Lemma key_operation : named (js "operation").
Proof. split; reflexivity. Qed.

Lemma key_app : named (js "app").
Proof. split; reflexivity. Qed.

Lemma key_templateBucket : named (js "templateBucket").
Proof. split; reflexivity. Qed.

Lemma key_schedule : named (js "schedule").
Proof. split; reflexivity. Qed.

(** remove writes [operation], to the object it is given or to one of its
    own. *)
Lemma within_remove (sv : services) (n : nat) (this : notifier)
  (data : value) :
  quiet sv ->
  within n (fields_of data [js "operation"]) (remove sv this data) anything.
Proof.
  intros Hq. unfold remove.
  eapply within_bind; [apply allocates_within, allocates_validateConfig|].
  intros _ _.
  eapply within_bind; [apply within_alloc|]. intros new Hnew.
  eapply within_bind.
  { instantiate (1 := fun v => fresh n v \/ v = data).
    destruct (isString data).
    - eapply within_bind; [apply within_setp_fresh, Hnew|]. intros _ _.
      apply within_ret. left. exact Hnew.
    - apply within_ret. right. reflexivity. }
  intros newData Hdata.
  eapply within_bind.
  { instantiate (1 := anything). destruct Hdata as [Hf| ->].
    - apply within_setp_fresh, Hf.
    - apply within_setp_key; [|apply key_operation].
      intros l k' -> Hk'. unfold fields_of, among in Hk'.
      cbn [strict_eq existsb] in Hk'.
      rewrite Nat.eqb_refl, orb_false_r in Hk'. cbn [andb] in Hk'.
      rewrite str_eqb_sym. exact Hk'. }
  intros _ _. unfold _removeNotification.
  eapply within_bind; [apply within_getp|]. intros op _.
  eapply within_bind; [apply within_getp|]. intros id _.
  destruct (_ && _); [apply within_throw|]. apply within__send, Hq.
Qed.

Lemma getp_pure (v : value) (k : jsstring) (h : heap) :
  exists r, getp v k h = (r, h).
Proof.
  destruct v; cbn [getp]; try (eexists; reflexivity).
  destruct (str_eqb k (js "length")); [eexists; reflexivity|].
  destruct (parse_index k); eexists; reflexivity.
Qed.

Lemma validateConfig_pure (config : props) (ignore : option (list jsstring))
  (h : heap) :
  exists r, validateConfig config ignore h = (r, h).
Proof.
  unfold validateConfig. induction (map fst config) as [|k ks IH].
  - eexists. reflexivity.
  - cbn [forEach]. destruct (_ && _); [eexists; reflexivity|].
    rewrite bind_ret. exact IH.
Qed.

Lemma has_prop_set_prop (ps : props) (k k' : jsstring) (v : value) :
  has_prop (set_prop ps k v) k' = has_prop ps k' || str_eqb k k'.
Proof.
  induction ps as [|[k0 v0] ps IH]; cbn [set_prop has_prop].
  - rewrite orb_false_r. reflexivity.
  - destruct (str_eqb k0 k) eqn:E; cbn [has_prop].
    + apply str_eqb_eq in E. subst k0.
      destruct (str_eqb k k'); [reflexivity|]. cbn [orb].
      rewrite orb_false_r. reflexivity.
    + rewrite IH, orb_assoc. reflexivity.
Qed.

Lemma distinct_keys_set_prop (ps : props) (k : jsstring) (v : value) :
  distinct_keys ps = true -> distinct_keys (set_prop ps k v) = true.
Proof.
  induction ps as [|[k0 v0] ps IH]; [reflexivity|].
  cbn [distinct_keys set_prop]. intros [H0 Hd]%andb_true_iff.
  destruct (str_eqb k0 k) eqn:E; cbn [distinct_keys].
  - rewrite H0, Hd. reflexivity.
  - rewrite (IH Hd), andb_true_r, has_prop_set_prop.
    apply negb_true_iff in H0. rewrite H0. cbn [orb].
    rewrite str_eqb_sym, E. reflexivity.
Qed.

(** The copy that [Object.assign] makes of an object and of one more
    entry. *)
Lemma assign_fresh_entry (h : heap) (l s : loc) (ps : props) (k : jsstring)
  (v : value) :
  h !! l = Some (OObj ps) ->
  h !! s = Some (OObj [(k, v)]) ->
  distinct_keys ps = true ->
  has_prop ps (js "__proto__") = false ->
  str_eqb k (js "__proto__") = false ->
  Object_assign_fresh (VRef l) (VRef s) h
  = (Return (VRef (length h)), h ++ [OObj (set_prop ps k v)]).
Proof.
  intros H Hs Hd Hp Hk. unfold Object_assign_fresh. rewrite !bind_read.
  unfold own_props. rewrite H, Hs.
  rewrite (assign_set_plain [] ps Hp), (assign_props_distinct [] ps Hd).
  unfold assign_set. cbn [fold_left fst snd]. rewrite Hk. reflexivity.
Qed.

Section Put.

Context (rt : runtime) (sv : services) (this : notifier).
Context (n : nat) (s0 : value).

Hypothesis Hq : quiet sv.

(** What _putNotification does once the record is ready: it builds the
    schedule and sends the record. *)
Lemma within_build_and_send (vd schedule : value) :
  fresh n vd ->
  fresh n schedule \/ schedule = s0 ->
  within n (fields_of s0 schedule_outputs)
    (let* built := cronBuilder rt schedule (delay this) in
     setp vd (js "schedule") built ;;
     _send sv vd (config this)) anything.
Proof.
  intros Hvd Hs.
  eapply within_bind.
  { apply within_cronBuilder. destruct Hs as [Hs| ->]; [left; exact Hs|].
    right. intros l k -> Hin. unfold fields_of. cbn [strict_eq].
    rewrite Nat.eqb_refl. apply among_In, Hin. }
  intros built _.
  eapply within_bind; [apply within_setp_fresh, Hvd|]. intros _ _.
  apply within__send, Hq.
Qed.

(** The same from the point where [app] and [templateBucket] are written
    on the record. *)
Lemma put_tail (h : heap) (lv : loc) (ov : object) (a b : value) :
  (n <= lv)%nat -> (n <= length h)%nat ->
  h !! lv = Some ov ->
  obj_get ov (js "schedule") = s0 ->
  changes_only (allowed n (fields_of s0 schedule_outputs)) h
    (snd ((setp (VRef lv) (js "app") a ;;
           setp (VRef lv) (js "templateBucket") b ;;
           let* schedule := getp (VRef lv) (js "schedule") in
           (if negb (truthy schedule) then
              let* fresh := alloc (OObj []) in
              setp (VRef lv) (js "schedule") fresh
            else ret tt) ;;
           let* schedule := getp (VRef lv) (js "schedule") in
           let* built := cronBuilder rt schedule (delay this) in
           setp (VRef lv) (js "schedule") built ;;
           _send sv (VRef lv) (config this)) h)).
Proof.
  intros Hlv Hn H Hs.
  assert (Hfresh : fresh n (VRef lv)) by (exists lv; auto).
  assert (Hw : forall (h0 : heap) (o0 : object) k x,
            h0 !! lv = Some o0 ->
            changes_only (allowed n (fields_of s0 schedule_outputs)) h0
              (<[lv := obj_set o0 k x]> h0)).
  { intros h0 o0 k x H0. apply changes_only_insert; [exact H0|].
    intros k' Hk'. unfold allowed in Hk'.
    apply orb_false_iff in Hk' as [Hk' _]. apply Nat.leb_gt in Hk'. lia. }
  rewrite (bind_setp _ _ _ _ _ _ H).
  pose proof (lookup_written _ _ _ (obj_set ov (js "app") a) H) as H1.
  set (h1 := <[lv := obj_set ov (js "app") a]> h) in *.
  rewrite (bind_setp _ _ _ _ _ _ H1).
  set (o2 := obj_set (obj_set ov (js "app") a) (js "templateBucket") b).
  pose proof (lookup_written _ _ _ o2 H1) as H2.
  set (h2 := <[lv := o2]> h1) in *.
  assert (C2 : changes_only (allowed n (fields_of s0 schedule_outputs)) h h2).
  { eapply changes_only_trans; [apply (Hw h ov (js "app") a H)|].
    apply (Hw h1 _ (js "templateBucket") b H1). }
  assert (L2 : (n <= length h2)%nat)
    by (unfold h2, h1; rewrite !length_insert; exact Hn).
  assert (S2 : obj_get o2 (js "schedule") = s0).
  { unfold o2.
    rewrite (obj_get_set_ne _ _ _ _ key_templateBucket) by reflexivity.
    rewrite (obj_get_set_ne _ _ _ _ key_app) by reflexivity. exact Hs. }
  rewrite (bind_getp _ _ _ _ _ H2), S2.
  destruct (truthy s0) eqn:Et; cbn [negb].
  - rewrite bind_ret, (bind_getp _ _ _ _ _ H2), S2.
    eapply changes_only_trans; [exact C2|].
    apply (within_build_and_send (VRef lv) s0 Hfresh); [right; reflexivity|].
    exact L2.
  - rewrite bind_assoc, bind_alloc.
    assert (H3 : (h2 ++ [OObj []]) !! lv = Some o2)
      by apply lookup_app_l_Some, H2.
    rewrite (bind_setp _ _ _ _ _ _ H3).
    pose proof (lookup_written _ _ _
      (obj_set o2 (js "schedule") (VRef (length h2))) H3) as H4.
    rewrite (bind_getp _ _ _ _ _ H4).
    rewrite obj_get_set_eq by apply key_schedule.
    eapply changes_only_trans; [exact C2|].
    apply (changes_only_trans _ _ (h2 ++ [OObj []])).
    { apply untouched_changes_only, untouched_app. lia. }
    eapply changes_only_trans;
      [apply (Hw _ _ (js "schedule") (VRef (length h2)) H3)|].
    apply (within_build_and_send (VRef lv) (VRef (length h2)) Hfresh).
    + left. exists (length h2). auto.
    + rewrite length_insert, length_app. lia.
Qed.

End Put.

(** _putNotification works on a copy of the record: of the objects it
    finds in the store it changes the schedule of the record, in the
    fields that cronBuilder writes, and nothing else. *)
Lemma _putNotification_footprint (rt : runtime) (sv : services)
  (this : notifier) (h : heap) (ld : loc) (ps : props) :
  quiet sv ->
  h !! ld = Some (OObj ps) ->
  distinct_keys ps = true ->
  has_prop ps (js "__proto__") = false ->
  changes_only
    (allowed (length h)
       (fields_of (get_prop ps (js "schedule")) schedule_outputs))
    h (snd (_putNotification rt sv this (VRef ld) h)).
Proof.
  intros Hq H Hd Hp. set (W := fields_of _ _). unfold _putNotification.
  pose proof (lookup_lt_Some _ _ _ H) as Hld.
  destruct (validateConfig_pure (config this) None h) as [[[]|e] Hc].
  2:{ rewrite (bind_throws _ _ _ _ _ Hc). apply changes_only_refl. }
  rewrite (bind_returns _ _ _ _ _ Hc), (bind_getp _ _ _ _ _ H).
  cbn [obj_get].
  destruct (allocates_sanitizeEmailData (n := length h)
              (get_prop ps (js "email")) h (le_n _)) as [U1 _].
  destruct (sanitizeEmailData (get_prop ps (js "email")) h)
    as [[s|e] h1] eqn:Es; cbn [fst snd] in U1.
  2:{ rewrite (bind_throws _ _ _ _ _ Es). cbn [snd].
      apply untouched_changes_only, U1. }
  rewrite (bind_returns _ _ _ _ _ Es), bind_alloc.
  set (h2 := h1 ++ [OObj [(js "email", s)]]).
  assert (U2 : untouched (length h) h h2).
  { eapply untouched_trans; [exact U1|]. apply untouched_app.
    destruct U1; lia. }
  assert (H2 : h2 !! ld = Some (OObj ps)).
  { destruct U2 as [_ U2]. rewrite U2 by exact Hld. exact H. }
  assert (Hs2 : h2 !! length h1 = Some (OObj [(js "email", s)]))
    by (apply list_lookup_middle; reflexivity).
  rewrite (bind_returns _ _ _ _ _
             (assign_fresh_entry h2 ld (length h1) ps (js "email") s
                H2 Hs2 Hd Hp eq_refl)).
  set (pv := set_prop ps (js "email") s).
  set (h3 := h2 ++ [OObj pv]).
  assert (U3 : untouched (length h) h h3).
  { eapply untouched_trans; [exact U2|]. apply untouched_app.
    destruct U2; lia. }
  assert (H3 : h3 !! length h2 = Some (OObj pv))
    by (apply list_lookup_middle; reflexivity).
  assert (Lv : (length h <= length h2)%nat) by (destruct U2; lia).
  assert (L3 : (length h <= length h3)%nat) by (destruct U3; lia).
  rewrite !(bind_getp _ _ _ _ _ H3).
  destruct (_ && _).
  { apply untouched_changes_only, U3. }
  rewrite (bind_getp _ _ _ _ _ H3).
  destruct (getp_pure (obj_get (OObj pv) (js "email")) (js "template") h3)
    as [[template|e] Ht].
  2:{ rewrite (bind_throws _ _ _ _ _ Ht). apply untouched_changes_only, U3. }
  rewrite (bind_returns _ _ _ _ _ Ht).
  assert (S3 : obj_get (OObj pv) (js "schedule") = get_prop ps (js "schedule")).
  { cbn [obj_get]. unfold pv. apply get_prop_set_ne. reflexivity. }
  destruct (truthy template).
  - rewrite bind_assoc.
    destruct (getp_pure (obj_get (OObj pv) (js "email")) (js "body") h3)
      as [[body|e] Hb].
    2:{ rewrite (bind_throws _ _ _ _ _ Hb).
        apply untouched_changes_only, U3. }
    rewrite (bind_returns _ _ _ _ _ Hb), bind_assoc.
    destruct Hq as [Hbuild Hsend].
    pose proof (Hbuild (get_prop (config this) (js "templateBucket"))
                  template body h3) as C4.
    destruct (buildTemplate sv _ template body h3) as [[built|e] h4] eqn:Eb;
      cbn [snd] in C4.
    2:{ rewrite (bind_throws _ _ _ _ _ Eb). cbn [snd].
        eapply changes_only_trans;
          [apply untouched_changes_only, U3|].
        eapply changes_only_weaken; [|exact C4]. reflexivity. }
    rewrite (bind_returns _ _ _ _ _ Eb), bind_ret.
    destruct C4 as [L4 C4]. destruct (C4 _ _ H3) as (ov & Hov & Eov).
    eapply changes_only_trans; [apply untouched_changes_only, U3|].
    eapply changes_only_trans.
    { eapply changes_only_weaken; [|exact (conj L4 C4)]. reflexivity. }
    apply (put_tail rt sv this (length h) (get_prop ps (js "schedule"))
             (conj Hbuild Hsend) h4 (length h2) ov); try lia.
    + exact Hov.
    + rewrite Eov by reflexivity. exact S3.
  - rewrite bind_ret.
    eapply changes_only_trans; [apply untouched_changes_only, U3|].
    apply (put_tail rt sv this (length h) (get_prop ps (js "schedule"))
             Hq h3 (length h2) (OObj pv)); try lia.
    + exact H3.
    + exact S3.
Qed.

(** What create and update do to the store. *)
Lemma stamp_and_put (rt : runtime) (sv : services) (this : notifier)
  (h : heap) (l : loc) (ps : props) (op : jsstring) :
  quiet sv -> h !! l = Some (OObj ps) ->
  distinct_keys ps = true ->
  has_prop ps (js "__proto__") = false ->
  stamped op h l (get_prop ps (js "schedule"))
    (snd ((setp (VRef l) (js "operation") (VStr op) ;;
           _putNotification rt sv this (VRef l)) h)).
Proof.
  intros Hq H Hd Hp. unfold stamped. rewrite (bind_setp _ _ _ _ _ _ H).
  cbn [obj_set].
  set (ps1 := set_prop ps (js "operation") (VStr op)).
  set (h1 := <[l := OObj ps1]> h).
  pose proof (lookup_lt_Some _ _ _ H) as Hl.
  assert (H1 : h1 !! l = Some (OObj ps1)) by (eapply lookup_written, H).
  assert (Hs : get_prop ps1 (js "schedule") = get_prop ps (js "schedule"))
    by (apply get_prop_set_ne; reflexivity).
  assert (Hp1 : has_prop ps1 (js "__proto__") = false)
    by (unfold ps1; rewrite has_prop_set_prop, Hp; reflexivity).
  pose proof (_putNotification_footprint rt sv this h1 l ps1 Hq H1
                (distinct_keys_set_prop _ _ _ Hd) Hp1) as Hc.
  rewrite Hs in Hc.
  set (h' := snd (_putNotification rt sv this (VRef l) h1)) in *.
  split.
  - destruct Hc as [_ Hc]. destruct (Hc _ _ H1) as (o' & Ho' & E).
    exists o'. split; [exact Ho'|]. rewrite E.
    + cbn [obj_get]. apply get_prop_set_eq.
    + unfold allowed, fields_of, h1. rewrite length_insert.
      apply orb_false_iff. split; [apply Nat.leb_gt, Hl|].
      apply andb_false_iff. right. reflexivity.
  - apply (changes_only_trans _ _ h1).
    + unfold h1. change (OObj ps1)
        with (obj_set (OObj ps) (js "operation") (VStr op)).
      apply changes_only_insert; [exact H|]. intros k' Hk'.
      apply orb_false_iff in Hk' as [Hk' _]. unfold fields_of, among in Hk'.
      cbn [strict_eq existsb] in Hk'.
      rewrite Nat.eqb_refl, orb_false_r in Hk'. cbn [andb] in Hk'.
      apply obj_get_set_ne; [apply key_operation|].
      rewrite str_eqb_sym. exact Hk'.
    + eapply changes_only_weaken; [|exact Hc].
      intros i k Hi Hk. unfold h1 in Hi. rewrite length_insert in Hi.
      apply orb_false_iff in Hk as [_ Hk]. unfold allowed, h1.
      rewrite length_insert, Hk, orb_false_r. apply Nat.leb_gt, Hi.
Qed.

Lemma cronBuilder_throw (rt : runtime) (h h' : heap) (l : loc) (o : object)
  (delay : value) (e : exn) :
  h !! l = Some o ->
  cronBuilder rt (VRef l) delay h = (Throw e, h') -> h' = h.
Proof.
  intros H. unfold cronBuilder.
  repeat step; unfold ret, throw; intros [= ? ?]; subst; reflexivity.
Qed.

Lemma echo_quiet : quiet Sample.echo.
Proof. split; intros; apply changes_only_refl. Qed.

(** C9 fails as stated: create leaves its mark on both objects of the
    caller, and cronBuilder hands back the object it was given. *)
Lemma create_changes_the_objects_of_the_caller :
  let email := OObj [(js "from", VStr (js "me@example.com"));
                     (js "to", VStr (js "you@example.com"));
                     (js "subject", VStr (js "Hello"));
                     (js "body", VStr (js "Hi"))] in
  let schedule := OObj [(js "day", VStr (js "16"));
                        (js "hour", VStr (js "22"))] in
  let data := OObj [(js "email", VRef 1%nat); (js "schedule", VRef 2%nat)] in
  let this := Notifier (VStr (js "https://api.example/notify"))
                (VStr (js "app")) (VStr (js "bucket")) in
  let after :=
    snd (create Sample.engine Sample.echo this (VRef 0%nat)
           [data; email; schedule]) in
  after !! 0%nat
    = Some (OObj [(js "email", VRef 1%nat); (js "schedule", VRef 2%nat);
                  (js "operation", VStr (js "CREATE"))])
  /\ after !! 2%nat
     = Some (OObj [(js "day", VStr (js "16")); (js "hour", VStr (js "22"));
                   (js "expression", VStr (js "cron(0 22 16 * ? *)"))])
  /\ fst (cronBuilder Sample.engine (VRef 0%nat) (VNum (Int 120)) [schedule])
     = Return (VRef 0%nat).
Proof. repeat split. Qed.

(** C9, as the code has it.  The validators leave every object they find
    in the store as it is: validateConfig changes nothing, and
    validateAndSanitizeData, validateAndSanitizeEmailData,
    validateAndSanitizeSMSData and sanitizeEmailData only make new
    objects.  cronBuilder works in place: it returns the schedule object
    it was given, allocates nothing and touches no other object; of the
    schedule it writes [expression], [once] and [end] and nothing else;
    when it throws the conflict error or the end-format error, nothing was
    written.  create and update, given a record without an own [__proto__]
    key, stamp [operation] on it; with collaborators that leave the store
    alone, the only other fields of the objects that existed before the
    call to change are [expression], [once] and [end] of the object that
    the [schedule] of the record refers to.  remove changes nothing of an
    object that existed before the call but [operation] of the object it
    is given. *)
Theorem effects_on_the_objects_of_the_caller (rt : runtime) (sv : services)
  (this : notifier) (h : heap) (l : loc) (o : object) (ld : loc)
  (ps : props) :
  quiet sv ->
  h !! l = Some o ->
  h !! ld = Some (OObj ps) ->
  distinct_keys ps = true ->
  has_prop ps (js "__proto__") = false ->
  (forall v config ignore,
      snd (validateConfig config ignore h) = h
      /\ extends h (snd (validateAndSanitizeData v h))
      /\ extends h (snd (validateAndSanitizeEmailData v h))
      /\ extends h (snd (validateAndSanitizeSMSData v h))
      /\ extends h (snd (sanitizeEmailData v h)))
  /\ (forall delay v h',
        cronBuilder rt (VRef l) delay h = (Return v, h') ->
        v = VRef l /\ length h' = length h
        /\ (forall l', l' <> l -> h' !! l' = h !! l')
        /\ exists o', h' !! l = Some o'
             /\ (forall k, among schedule_outputs k = false ->
                           obj_get o' k = obj_get o k)
             /\ exists e, obj_get o' (js "expression") = VStr e)
  /\ (forall delay e h',
        cronBuilder rt (VRef l) delay h = (Throw e, h') ->
        e = schedule_conflict \/ e = end_invalid -> h' = h)
  /\ stamped (js "CREATE") h ld (get_prop ps (js "schedule"))
       (snd (create rt sv this (VRef ld) h))
  /\ stamped (js "UPDATE") h ld (get_prop ps (js "schedule"))
       (snd (update rt sv this (VRef ld) h))
  /\ (forall data,
        changes_only (fields_of data [js "operation"]) h
          (snd (remove sv this data h))).
Proof.
  intros Hq H Hdata Hd Hp. split; [|split; [|split; [|split; [|split]]]].
  - intros v config ignore. split; [|split; [|split; [|split]]].
    + destruct (validateConfig_pure config ignore h) as [r ->]. reflexivity.
    + eapply allocates_extends, allocates_validateAndSanitizeData.
    + eapply allocates_extends, allocates_validateAndSanitizeEmailData.
    + eapply allocates_extends, allocates_validateAndSanitizeSMSData.
    + eapply allocates_extends, allocates_sanitizeEmailData.
  - intros delay v h' Hrun.
    destruct (cronBuilder_in_place rt h h' l o delay v H Hrun)
      as (Hv & Hlen & Hother & o' & Ho' & Hkeep & Hexpr).
    repeat (split; [assumption|]). exists o'. split; [exact Ho'|].
    split; [|exact Hexpr]. intros k Hk.
    cbn [among schedule_outputs existsb] in Hk.
    apply orb_false_iff in Hk as [K1 Hk]. apply orb_false_iff in Hk as [K2 Hk].
    apply orb_false_iff in Hk as [K3 _].
    apply Hkeep; rewrite str_eqb_sym; assumption.
  - intros delay e h' Hrun _. apply (cronBuilder_throw rt h h' l o delay e H Hrun).
  - apply stamp_and_put; assumption.
  - apply stamp_and_put; assumption.
  - intros data.
    destruct (within_remove sv (length h) this data Hq h (le_n _)) as [Hc _].
    eapply changes_only_weaken; [|exact Hc].
    intros i k Hi Hk. unfold allowed. rewrite Hk, orb_false_r.
    apply Nat.leb_gt, Hi.
Qed.

Lemma effects_on_the_objects_of_the_caller_witness :
  let h := [OObj [(js "email", VRef 1%nat); (js "schedule", VRef 2%nat)];
            OObj [(js "from", VStr (js "me@example.com"));
                  (js "to", VStr (js "you@example.com"));
                  (js "subject", VStr (js "Hello"));
                  (js "body", VStr (js "Hi"))];
            OObj [(js "hour", VStr (js "22"))]] in
  let this := Notifier (VStr (js "https://api.example/notify"))
                (VStr (js "app")) (VStr (js "bucket")) in
  stamped (js "CREATE") h 0%nat (VRef 2%nat)
    (snd (create Sample.engine Sample.echo this (VRef 0%nat) h)).
Proof.
  intros h this.
  destruct (effects_on_the_objects_of_the_caller Sample.engine Sample.echo
              this h 2%nat (OObj [(js "hour", VStr (js "22"))]) 0%nat
              [(js "email", VRef 1%nat); (js "schedule", VRef 2%nat)]
              echo_quiet eq_refl eq_refl eq_refl eq_refl)
    as (_ & _ & _ & Hcreate & _).
  exact Hcreate.
Defined.

Lemma empty_string_is_absent_witness :
  let h := [OObj [(js "to", VStr (js "you@example.com"));
                  (js "from", VStr []);
                  (js "subject", VStr (js "Hello"));
                  (js "body", VStr (js "Hi"));
                  (js "message", VStr [])]] in
  validateAndSanitizeEmailData (VRef 0%nat) h = (Throw from_required, h)
  /\ validateAndSanitizeSMSData (VRef 0%nat) h = (Throw message_required, h).
Proof.
  intros h.
  destruct (empty_string_is_absent h 0%nat
              (OObj [(js "to", VStr (js "you@example.com"));
                     (js "from", VStr []);
                     (js "subject", VStr (js "Hello"));
                     (js "body", VStr (js "Hi"));
                     (js "message", VStr [])]) eq_refl)
    as (_ & Hfrom & _ & _ & Hsms).
  split; [apply Hfrom; reflexivity | apply Hsms; reflexivity].
Defined.

Lemma resanitize_escape_free_email_witness :
  let h := [OObj [(js "from", VStr (js "me@example.com"));
                  (js "to", VRef 1%nat);
                  (js "subject", VStr (js "Hello"));
                  (js "body", VRef 2%nat);
                  (js "template", VStr (js "welcome"))];
            OArr [VStr (js "you@example.com")] [];
            OObj [(js "name", VStr (js "John")); (js "visits", VNum (Int 3))]] in
  exists h' l' ps',
    validateAndSanitizeEmailData (VRef 0%nat) h = (Return (VRef l'), h')
    /\ (length h <= l')%nat
    /\ extends h h'
    /\ h' !! l' = Some (OObj ps')
    /\ same_props h'
         [(js "from", VStr (js "me@example.com")); (js "to", VRef 1%nat);
          (js "subject", VStr (js "Hello")); (js "body", VRef 2%nat);
          (js "template", VStr (js "welcome"))] ps'.
Proof.
  intros h. apply resanitize_escape_free_email.
  - reflexivity.
  - reflexivity.
  - reflexivity.
  - reflexivity.
  - repeat constructor; (left; reflexivity) || (right; reflexivity).
  - right. exists 2%nat,
      [(js "name", VStr (js "John")); (js "visits", VNum (Int 3))].
    repeat split; repeat constructor.
Defined.

(** ** The calendar on known dates *)

Example epoch_day : civil_from_days 0 = (1970, 1, 1).
Proof. reflexivity. Qed.

Example day_before_epoch : civil_from_days (-1) = (1969, 12, 31).
Proof. reflexivity. Qed.

Example leap_day_2000 : civil_from_days 11016 = (2000, 2, 29).
Proof. reflexivity. Qed.

Example no_leap_day_2100 : civil_from_days 47541 = (2100, 3, 1).
Proof. reflexivity. Qed.

Example sample_instant :
  let date := Int (now Sample.engine + 120 * 1000) in
  (getUTCFullYear date, getUTCMonth date, getUTCDate date,
   getUTCHours date, getUTCMinutes date)
  = (Int 2019, Int 10, Int 15, Int 0, Int 2).
Proof. reflexivity. Qed.

(** With no schedule in the data, create builds one on a new object: the
    record that is sent asks for a single run, two minutes from now. *)
Example create_without_schedule :
  let h := [OObj [(js "email", VRef 1%nat)];
            OObj [(js "from", VStr (js "me@example.com"));
                  (js "to", VStr (js "you@example.com"));
                  (js "subject", VStr (js "Hello"));
                  (js "body", VStr (js "Hi"))]] in
  let this := Notifier (VStr (js "https://api.example/notify"))
                (VStr (js "app")) (VStr (js "bucket")) in
  let after := snd (create Sample.engine Sample.echo this (VRef 0%nat) h) in
  after !! 0%nat = Some (OObj [(js "email", VRef 1%nat);
                               (js "operation", VStr (js "CREATE"))])
  /\ option_map (fun record => obj_get record (js "schedule")) (after !! 6%nat)
     = Some (VRef 7%nat)
  /\ after !! 7%nat
     = Some (OObj [(js "once", VBool true);
                   (js "expression", VStr (js "cron(2 0 15 11 ? 2019)"))]).
Proof. repeat split. Qed.

(** ** The target of the request *)

Lemma is_prefix_app (p s : jsstring) : is_prefix p (p ++ s) = true.
Proof. induction p as [|c p IH]; [reflexivity|]. cbn. rewrite N.eqb_refl. exact IH. Qed.

Lemma is_prefix_split (p s : jsstring) :
  is_prefix p s = true -> s = p ++ drop (length p) s.
Proof.
  revert s. induction p as [|c p IH]; intros s; [reflexivity|].
  destruct s as [|d s]; [discriminate|]. cbn.
  intros [E H]%andb_true_iff. apply N.eqb_eq in E. subst d. f_equal. auto.
Qed.

Lemma split_from_skip (sep : jsstring) (t cur s : jsstring) :
  split_from sep (length t) cur (t ++ s) = split_from sep 0 cur s.
Proof.
  induction t as [|c t IH]; [reflexivity|]. cbn. exact IH.
Qed.

Lemma split_from_match (c : char) (sep' cur s : jsstring) :
  split_from (c :: sep') 0 cur ((c :: sep') ++ s)
  = rev cur :: split_from (c :: sep') 0 [] s.
Proof.
  cbn [app split_from]. 
  change (is_prefix (c :: sep') (c :: sep' ++ s)) with (is_prefix (c :: sep') ((c :: sep') ++ s)).
  rewrite is_prefix_app.
  replace (length (c :: sep') - 1)%nat with (length sep') by (cbn; lia).
  rewrite split_from_skip. reflexivity.
Qed.

Lemma split_from_no_match (sep : jsstring) (c : char) (cur s : jsstring) :
  is_prefix sep (c :: s) = false ->
  split_from sep 0 cur (c :: s) = split_from sep 0 (c :: cur) s.
Proof. intros H. cbn [split_from]. rewrite H. reflexivity. Qed.

Lemma split_from_nonempty (sep : jsstring) (s : jsstring) :
  forall k cur, split_from sep k cur s <> [].
Proof.
  induction s as [|c s IH]; intros k cur; cbn; [discriminate|].
  destruct k; [|apply IH]. destruct (is_prefix sep (c :: s)); [discriminate|apply IH].
Qed.

Lemma join_cons (sep p : jsstring) (l : list jsstring) :
  l <> [] -> join sep (p :: l) = p ++ sep ++ join sep l.
Proof. destruct l; [congruence|reflexivity]. Qed.

(** Induction on the length of a string. *)
Lemma length_ind (P : jsstring -> Prop) :
  (forall s, (forall t, (length t < length s)%nat -> P t) -> P s) ->
  forall s, P s.
Proof.
  intros H s. remember (length s) as n eqn:E.
  revert s E. induction n as [n IH] using lt_wf_ind. intros s ->.
  apply H. intros t Ht. eapply IH; [exact Ht|reflexivity].
Qed.

Lemma join_split_from (c : char) (sep' : jsstring) (s : jsstring) :
  forall cur, join (c :: sep') (split_from (c :: sep') 0 cur s) = rev cur ++ s.
Proof.
  induction s as [s IH] using length_ind. intros cur.
  destruct s as [|d s]; [cbn; rewrite app_nil_r; reflexivity|].
  destruct (is_prefix (c :: sep') (d :: s)) eqn:E.
  - rewrite (is_prefix_split _ _ E). set (r := drop _ _).
    rewrite split_from_match. rewrite join_cons; [|apply split_from_nonempty].
    assert (Hr : (length r < length (d :: s))%nat)
      by (unfold r; rewrite length_drop; cbn [length]; lia).
    rewrite (IH r Hr []). reflexivity.
  - rewrite split_from_no_match by exact E. rewrite IH by (cbn; lia).
    cbn [rev]. rewrite <- app_assoc. reflexivity.
Qed.

Lemma join_split (sep s : jsstring) : sep <> [] -> join sep (split sep s) = s.
Proof.
  destruct sep as [|c sep']; [congruence|]. intros _. apply join_split_from.
Qed.

Lemma last_cons_nonempty {A} (x : A) (l : list A) : l <> [] -> last (x :: l) = last l.
Proof. destruct l; [congruence|reflexivity]. Qed.

Lemma split_from_clean (c : char) (sep' : jsstring) (s : jsstring) :
  occurs (c :: sep') s = false ->
  forall cur, split_from (c :: sep') 0 cur s = [rev cur ++ s].
Proof.
  induction s as [|d s IH]; intros H cur.
  - cbn. rewrite app_nil_r. reflexivity.
  - cbn [occurs] in H. apply orb_false_iff in H as [H1 H2].
    rewrite split_from_no_match by exact H1. rewrite IH by exact H2.
    cbn [rev]. rewrite <- app_assoc. reflexivity.
Qed.


(** What follows the last double slash. *)
Lemma last_split_double_slash (u : jsstring) :
  occurs [47; 47]%N u = false ->
  forall (pre cur : jsstring), last pre <> Some 47%N ->
    last (split_from [47; 47]%N 0 cur (pre ++ [47; 47]%N ++ u)) = Some u.
Proof.
  intros Hu pre. induction pre as [pre IH] using length_ind. intros cur Hp.
  destruct pre as [|d pre].
  - rewrite app_nil_l, split_from_match.
    rewrite last_cons_nonempty by apply split_from_nonempty.
    rewrite (split_from_clean _ _ _ Hu). reflexivity.
  - destruct (is_prefix [47; 47]%N ((d :: pre) ++ [47; 47]%N ++ u)) eqn:E.
    + destruct pre as [|d' pre].
      { cbn [is_prefix app] in E. apply andb_true_iff in E as [E _].
        apply N.eqb_eq in E. subst d. destruct Hp. reflexivity. }
      cbn [is_prefix app] in E. apply andb_true_iff in E as [E1 E2].
      rewrite andb_true_r in E2.
      apply N.eqb_eq in E1, E2. subst d d'.
      change ((47%N :: 47%N :: pre) ++ ?x) with ([47; 47]%N ++ pre ++ x).
      rewrite split_from_match.
      rewrite last_cons_nonempty by apply split_from_nonempty.
      apply IH; [cbn; lia|].
      intros Hl. apply Hp. destruct pre as [|e pre]; [discriminate|exact Hl].
    + change ((d :: pre) ++ ?x) with (d :: (pre ++ x)) in *.
      rewrite split_from_no_match by exact E.
      apply IH; [cbn; lia|].
      intros Hl. apply Hp. destruct pre as [|e pre]; [discriminate|exact Hl].
Qed.

Lemma split_slash_host (host : jsstring) :
  no_slash host = true ->
  forall cur rest,
    split_from [47%N] 0 cur (host ++ 47%N :: rest)
    = (rev cur ++ host) :: split_from [47%N] 0 [] rest.
Proof.
  induction host as [|d host IH]; intros Hh cur rest.
  - rewrite app_nil_l. change (47%N :: rest) with ([47%N] ++ rest).
    rewrite split_from_match.
    rewrite app_nil_r. reflexivity.
  - cbn [no_slash forallb] in Hh. apply andb_true_iff in Hh as [Hd Hh].
    change ((d :: host) ++ ?x) with (d :: (host ++ x)).
    rewrite split_from_no_match.
    + rewrite IH by exact Hh. cbn [rev]. rewrite <- app_assoc. reflexivity.
    + cbn [is_prefix]. rewrite andb_true_r. rewrite N.eqb_sym.
      apply negb_true_iff, Hd.
Qed.

Lemma occurs_slash (s : jsstring) :
  occurs [47%N] s = negb (no_slash s).
Proof.
  induction s as [|d s IH]; [reflexivity|].
  cbn [occurs no_slash forallb]. rewrite IH, negb_andb, negb_involutive.
  cbn [is_prefix]. rewrite andb_true_r, N.eqb_sym. reflexivity.
Qed.

Lemma split_slash_none (s : jsstring) :
  no_slash s = true -> split_from [47%N] 0 [] s = [s].
Proof.
  intros H. rewrite split_from_clean; [reflexivity|].
  rewrite occurs_slash, H. reflexivity.
Qed.


(** X1.  The address of a service written as a scheme, two slashes, a
    host without a slash and, if anything follows, a slash and the rest,
    with no two slashes in a row after the scheme: _send signs the request
    for that host, and for the path made of what follows the host, or a
    single slash when nothing follows. *)
Theorem target_of_a_url (pre host rest : jsstring) :
  last pre <> Some 47%N ->
  no_slash host = true ->
  rest = [] \/ head rest = Some 47%N ->
  occurs (js "//") (host ++ rest) = false ->
  let api := pre ++ js "//" ++ host ++ rest in
  hostname api = Some host
  /\ path api = Some (if is_nil rest then js "/" else rest).
Proof.
  intros Hp Hh Hr Hu api. unfold hostname, path, _urlWithoutProtocol, split.
  unfold api. change (js "//") with [47; 47]%N in *.
  change (js "/") with [47%N].
  rewrite last_split_double_slash; [|exact Hu|exact Hp].
  destruct Hr as [->|Hr].
  - rewrite app_nil_r, split_slash_none by exact Hh. split; reflexivity.
  - destruct rest as [|d rest]; [discriminate|]. injection Hr as ->.
    rewrite split_slash_host by exact Hh.
    cbn [rev app lookup list_lookup drop is_nil].
    split; [reflexivity|]. rewrite drop_0, join_split_from. reflexivity.
Qed.

Lemma target_of_a_url_witness :
  hostname (js "https://api.example/v1/notify") = Some (js "api.example")
  /\ path (js "https://api.example/v1/notify") = Some (js "/v1/notify").
Proof.
  apply (target_of_a_url (js "https:") (js "api.example") (js "/v1/notify"));
    [discriminate | reflexivity | right; reflexivity | reflexivity].
Defined.


(** ** The configuration *)

Lemma forEach_first {A} (p : A -> bool) (e : A -> exn) (xs : list A)
  (h : heap) :
  forEach xs (fun x => if p x then throw (e x) else ret tt) h
  = (match List.filter p xs with
     | [] => Return tt
     | x :: _ => Throw (e x)
     end, h).
Proof.
  induction xs as [|x xs IH]; [reflexivity|]. cbn [forEach List.filter].
  destruct (p x); [reflexivity|]. rewrite bind_ret. exact IH.
Qed.

Lemma validateConfig_run (config : props) (ignore : option (list jsstring))
  (h : heap) :
  validateConfig config ignore h
  = forEach (map fst config)
      (fun key => if unset config (default [] ignore) key
                  then throw (must_be_set key) else ret tt) h.
Proof. destruct ignore; reflexivity. Qed.

(** X3.  validateConfig goes through the keys of the configuration in
    their order and throws for the first one whose value is falsy and that
    is not to be ignored, naming it; it returns when there is none.  The
    store is left as it is. *)
Theorem validateConfig_reports_the_first_unset_key (config : props)
  (ignore : option (list jsstring)) (h : heap) :
  validateConfig config ignore h
  = (match List.filter (unset config (default [] ignore)) (map fst config) with
     | [] => Return tt
     | key :: _ => Throw (must_be_set key)
     end, h).
Proof. rewrite validateConfig_run. apply forEach_first. Qed.

Lemma get_prop_set (ps : props) (k k' : jsstring) (v : value) :
  get_prop (set_prop ps k v) k'
  = if str_eqb k k' then v else get_prop ps k'.
Proof.
  destruct (str_eqb k k') eqn:E.
  - apply str_eqb_eq in E. subst k'. apply get_prop_set_eq.
  - apply get_prop_set_ne. exact E.
Qed.

Lemma keys_set_prop (ps : props) (k : jsstring) (v : value) :
  has_prop ps k = true -> map fst (set_prop ps k v) = map fst ps.
Proof.
  induction ps as [|[k' v'] ps IH]; [discriminate|].
  cbn [has_prop set_prop]. destruct (str_eqb k' k) eqn:E.
  - reflexivity.
  - cbn [orb map fst]. intros H. rewrite IH by exact H. reflexivity.
Qed.

Lemma has_prop_keys (ps : props) (k : jsstring) :
  has_prop ps k = existsb (fun k' => str_eqb k' k) (map fst ps).
Proof.
  induction ps as [|[k' v'] ps IH]; [reflexivity|].
  cbn [has_prop map fst existsb]. rewrite IH. reflexivity.
Qed.

Lemma truthy_js_or (a b : value) :
  truthy b = true -> truthy (js_or a b) = true.
Proof. unfold js_or. destruct (truthy a) eqn:E; auto. Qed.

Lemma filter_nil_weaken {A} (p q : A -> bool) (xs : list A) :
  (forall x, q x = true -> p x = true) ->
  List.filter p xs = [] -> List.filter q xs = [].
Proof.
  intros Hpq. induction xs as [|x xs IH]; [reflexivity|]. cbn [List.filter].
  destruct (p x) eqn:Ep; [discriminate|]. intros H.
  destruct (q x) eqn:Eq; [|auto]. rewrite (Hpq _ Eq) in Ep. discriminate.
Qed.

(** X4.  configure never takes a setting away.  On a Notifier with its
    three configuration keys, a call that returns leaves the store alone,
    keeps the three keys, leaves set every property that was set, and so
    keeps valid a configuration that validateConfig accepted. *)
Theorem configure_never_unsets (rt : runtime) (this this' : notifier)
  (c : value) (h h' : heap) :
  map fst (config this) = config_keys ->
  configure rt this c h = (Return this', h') ->
  h' = h
  /\ map fst (config this') = config_keys
  /\ (forall k, truthy (get_prop (config this) k) = true ->
                truthy (get_prop (config this') k) = true)
  /\ (forall ignore,
        validateConfig (config this) ignore h = (Return tt, h) ->
        validateConfig (config this') ignore h = (Return tt, h)).
Proof.
  intros Hkeys. unfold configure.
  destruct (getp_pure c (js "api") h) as [[api|e] Ha];
    [|rewrite (bind_throws _ _ _ _ _ Ha); discriminate].
  rewrite (bind_returns _ _ _ _ _ Ha).
  destruct (getp_pure c (js "app") h) as [[app|e] Hb];
    [|rewrite (bind_throws _ _ _ _ _ Hb); discriminate].
  rewrite (bind_returns _ _ _ _ _ Hb).
  destruct (getp_pure c (js "templateBucket") h) as [[bucket|e] Hc];
    [|rewrite (bind_throws _ _ _ _ _ Hc); discriminate].
  rewrite (bind_returns _ _ _ _ _ Hc).
  destruct (getp_pure c (js "delay") h) as [[delay'|e] Hd];
    [|rewrite (bind_throws _ _ _ _ _ Hd); discriminate].
  rewrite (bind_returns _ _ _ _ _ Hd), bind_read. unfold ret.
  intros [= <- <-]. cbn [config]. split; [reflexivity|].
  set (c0 := config this) in *.
  set (c1 := set_prop c0 (js "api") (js_or api (get_prop c0 (js "api")))).
  set (c2 := set_prop c1 (js "app") (js_or app (get_prop c1 (js "app")))).
  set (c3 := set_prop c2 (js "templateBucket")
               (js_or bucket (get_prop c2 (js "templateBucket")))).
  assert (K1 : map fst c1 = config_keys).
  { unfold c1. rewrite keys_set_prop; [exact Hkeys|].
    rewrite has_prop_keys, Hkeys. reflexivity. }
  assert (K2 : map fst c2 = config_keys).
  { unfold c2. rewrite keys_set_prop; [exact K1|].
    rewrite has_prop_keys, K1. reflexivity. }
  assert (K3 : map fst c3 = config_keys).
  { unfold c3. rewrite keys_set_prop; [exact K2|].
    rewrite has_prop_keys, K2. reflexivity. }
  assert (Hmono : forall k, truthy (get_prop c0 k) = true ->
                            truthy (get_prop c3 k) = true).
  { intros k Hk.
    assert (H1 : truthy (get_prop c1 k) = true).
    { unfold c1. rewrite get_prop_set. destruct (str_eqb _ k) eqn:E; [|exact Hk].
      apply str_eqb_eq in E. subst k. apply truthy_js_or, Hk. }
    assert (H2 : truthy (get_prop c2 k) = true).
    { unfold c2. rewrite get_prop_set. destruct (str_eqb _ k) eqn:E; [|exact H1].
      apply str_eqb_eq in E. subst k. apply truthy_js_or, H1. }
    unfold c3. rewrite get_prop_set. destruct (str_eqb _ k) eqn:E; [|exact H2].
    apply str_eqb_eq in E. subst k. apply truthy_js_or, H2. }
  split; [exact K3|]. split; [exact Hmono|].
  intros ignore. rewrite !validateConfig_run, !forEach_first.
  rewrite K3, Hkeys.
  destruct (List.filter (unset c0 _) _) eqn:E0; [|discriminate]. intros _.
  rewrite (filter_nil_weaken (unset c0 (default [] ignore))
             (unset c3 (default [] ignore))); [reflexivity| |exact E0].
  intros k. unfold unset. intros [Hk ->]%andb_true_iff. rewrite andb_true_r.
  destruct (truthy (get_prop c0 k)) eqn:Ek; [|reflexivity].
  rewrite (Hmono _ Ek) in Hk. discriminate.
Qed.

Lemma configure_never_unsets_witness :
  let this := Notifier (VStr (js "https://api.example/notify")) VUndefined
                VUndefined in
  let h := [OObj [(js "api", VStr []); (js "app", VStr (js "shop"))]] in
  let this' :=
    {| delay := VNum (Int 120);
       config := [(js "api", VStr (js "https://api.example/notify"));
                  (js "app", VStr (js "shop"));
                  (js "templateBucket", VUndefined)] |} in
  h = h
  /\ map fst (config this') = config_keys
  /\ (forall k, truthy (get_prop (config this) k) = true ->
                truthy (get_prop (config this') k) = true)
  /\ (forall ignore,
        validateConfig (config this) ignore h = (Return tt, h) ->
        validateConfig (config this') ignore h = (Return tt, h)).
Proof.
  intros this h this'.
  apply (configure_never_unsets Sample.engine this this' (VRef 0%nat) h h);
    reflexivity.
Defined.

(** ** Options by key, payloads by value *)

Lemma validateNotificationOptions_run (h : heap) (l : loc) (ps : props)
  (options : list jsstring) :
  h !! l = Some (OObj ps) ->
  validateNotificationOptions (VRef l) options h
  = (Return (existsb (has_prop ps) options), h).
Proof.
  intros H. unfold validateNotificationOptions, Object_keys.
  rewrite bind_read. unfold own_props. rewrite H. unfold ret.
  do 2 f_equal. induction options as [|k options IH]; [reflexivity|].
  cbn [existsb]. rewrite IH. f_equal. clear.
  induction ps as [|[k' v'] ps IH]; [reflexivity|].
  cbn [has_prop map fst existsb]. rewrite IH, (str_eqb_sym k k').
  reflexivity.
Qed.

(** X13.  validateNotificationOptions looks at the keys of the record,
    validateAndSanitizeData at the values under them.  A record that has
    the key [email] with a value that counts as false, and no SMS, has one
    of the options [email] and [sms]; validateAndSanitizeData checks
    nothing of it and returns a fresh copy of the record, with no payload
    looked at. *)
Theorem option_present_payload_unchecked (h : heap) (l : loc) (ps : props) :
  h !! l = Some (OObj ps) ->
  has_prop ps (js "email") = true ->
  truthy (get_prop ps (js "email")) = false ->
  truthy (get_prop ps (js "sms")) = false ->
  validateNotificationOptions (VRef l) [js "email"; js "sms"] h
  = (Return true, h)
  /\ validateAndSanitizeData (VRef l) h
     = (Return (VRef (S (length h))),
        h ++ [OObj []; OObj (assign_set [] ps)]).
Proof.
  intros H Hk He Hs. split.
  - rewrite (validateNotificationOptions_run _ _ _ _ H).
    cbn [existsb]. rewrite Hk. reflexivity.
  - assert (H' : (h ++ [OObj []]) !! l = Some (OObj ps)).
    { rewrite lookup_app_l by (eapply lookup_lt_Some, H). exact H. }
    unfold validateAndSanitizeData. rewrite bind_alloc. cbv beta.
    rewrite (bind_getp _ _ _ _ _ H'). cbn [obj_get]. rewrite He.
    cbv iota. rewrite bind_ret.
    rewrite (bind_getp _ _ _ _ _ H'). cbn [obj_get]. rewrite Hs.
    cbv iota. rewrite bind_ret.
    unfold Object_assign_fresh. rewrite !bind_read. unfold own_props.
    rewrite H'.
    rewrite lookup_app_r by lia. rewrite Nat.sub_diag. cbn [lookup list_lookup].
    unfold alloc. rewrite length_app, <- app_assoc. cbn [length app].
    rewrite Nat.add_1_r. reflexivity.
Qed.

Lemma option_present_payload_unchecked_witness :
  let ps := [(js "id", VStr (js "n-1")); (js "email", VNull)] in
  validateNotificationOptions (VRef 0%nat) [js "email"; js "sms"] [OObj ps]
  = (Return true, [OObj ps])
  /\ validateAndSanitizeData (VRef 0%nat) [OObj ps]
     = (Return (VRef 2%nat),
        [OObj ps; OObj []; OObj [(js "id", VStr (js "n-1")); (js "email", VNull)]]).
Proof.
  intros ps.
  apply (option_present_payload_unchecked [OObj ps] 0%nat ps); reflexivity.
Defined.

(** ** What _send refuses and what it lets through *)

Lemma json_members_circular (ser : value -> json) (ps : props) (v : value) :
  In v (map snd ps) -> ser v = JCircular -> json_members ser ps = None.
Proof.
  intros Hin Hv. induction ps as [|[k x] ps IH]; [destruct Hin|].
  cbn [map snd] in Hin. cbn [json_members]. destruct Hin as [->|Hin].
  - rewrite Hv. reflexivity.
  - rewrite (IH Hin). destruct (ser x); reflexivity.
Qed.

Lemma json_elements_circular (ser : value -> json) (es : list value)
  (v : value) :
  In v es -> ser v = JCircular -> json_elements ser es = None.
Proof.
  intros Hin Hv. induction es as [|x es IH]; [destruct Hin|].
  cbn [json_elements]. destruct Hin as [->|Hin].
  - rewrite Hv. reflexivity.
  - rewrite (IH Hin). destruct (ser x); reflexivity.
Qed.

Lemma serialize_endless (h : heap) (S : loc -> Prop) :
  endless h S ->
  forall fuel l, S l -> serialize fuel h (VRef l) = JCircular.
Proof.
  intros HS. induction fuel as [|fuel IH]; intros l Hl; [reflexivity|].
  destruct (HS l Hl) as (o & l' & Ho & Hh & Hl'). cbn [serialize]. rewrite Ho.
  destruct o as [ps|es ps]; cbn [holds] in Hh.
  - rewrite (json_members_circular _ _ _ Hh (IH l' Hl')). reflexivity.
  - rewrite (json_elements_circular _ _ _ Hh (IH l' Hl')). reflexivity.
Qed.

(** X5.  A record from which a walk through the objects it holds can go on
    for ever (it holds itself, or an object that holds it, and so on) is
    not sent: _send throws the error of JSON.stringify about circular
    structures, and the transport is not called. *)
Theorem _send_refuses_circular_data (sv : services) (config : props)
  (h : heap) (S : loc -> Prop) (l : loc) :
  endless h S -> S l ->
  _send sv (VRef l) config h = (Throw circular, h).
Proof.
  intros HS Hl. unfold _send, bind, JSON_stringify.
  rewrite (serialize_endless h S HS _ _ Hl). reflexivity.
Qed.

Lemma _send_refuses_circular_data_witness :
  _send Sample.echo (VRef 0%nat) []
    [OObj [(js "id", VStr (js "a")); (js "self", VRef 0%nat)]]
  = (Throw circular,
     [OObj [(js "id", VStr (js "a")); (js "self", VRef 0%nat)]]).
Proof.
  apply (_send_refuses_circular_data Sample.echo [] _ (fun l => l = 0%nat)).
  - intros l ->.
    exists (OObj [(js "id", VStr (js "a")); (js "self", VRef 0%nat)]), 0%nat.
    split; [reflexivity|]. split; [right; left; reflexivity|reflexivity].
  - reflexivity.
Defined.

(** A code unit takes between one and three bytes. *)
Lemma utf8_length_bounds (s : jsstring) :
  str_length s <= utf8_length s <= 3 * str_length s.
Proof.
  induction s as [s IH] using length_ind.
  destruct s as [|c s]; [unfold str_length; cbn; lia|].
  pose proof (IH s ltac:(cbn; lia)) as Hs.
  rewrite str_length_cons. cbn [utf8_length].
  destruct (c <? 128)%N; [lia|]. destruct (c <? 2048)%N; [lia|].
  destruct (is_high_surrogate c); [|lia].
  destruct s as [|d s]; [unfold str_length in *; cbn in *; lia|].
  destruct (is_low_surrogate d); [|lia].
  pose proof (IH s ltac:(cbn; lia)) as Hs'.
  rewrite str_length_cons in *. lia.
Qed.

(** X6.  The size guard of _send in bytes: a record whose text takes at
    most 256,000 bytes is never refused for its size, and one whose text
    takes more than 768,000 bytes always is. *)
Theorem _send_guard_in_bytes (sv : services) (data : value) (config : props)
  (h : heap) (s : jsstring) :
  serialize (length h) h data = JText s ->
  (utf8_length s <= 256000 ->
   _send sv data config h = transport sv (get_prop config (js "api")) s h)
  /\ (768000 < utf8_length s ->
      _send sv data config h = (Throw (size_error (str_length s)), h)).
Proof.
  intros H. rewrite (_send_guard sv data config h s H).
  pose proof (utf8_length_bounds s) as Hb.
  destruct (Z.gtb_spec (str_length s) 256000) as [Hgt|Hle].
  - split; [lia|reflexivity].
  - split; [reflexivity|lia].
Qed.

Lemma _send_guard_in_bytes_witness :
  _send Sample.echo (VStr (js "ok")) [] []
  = transport Sample.echo VUndefined [34; 111; 107; 34]%N [].
Proof.
  apply (_send_guard_in_bytes Sample.echo (VStr (js "ok")) [] []
           [34; 111; 107; 34]%N eq_refl).
  vm_compute. discriminate.
Defined.

(** ** The id that remove asks for *)

Lemma remove_starts (sv : services) (this : notifier) (h : heap)
  (data : value) :
  validateConfig (config this) (Some [js "templateBucket"; js "app"]) h
  = (Return tt, h) ->
  remove sv this data h
  = (let* newData :=
       if isString data
       then setp (VRef (length h)) (js "id") data ;; ret (VRef (length h))
       else ret data in
     setp newData (js "operation") (VStr (js "REMOVE")) ;;
     _removeNotification sv this newData) (h ++ [OObj []]).
Proof.
  intros Hc. unfold remove. rewrite (bind_returns _ _ _ _ _ Hc), bind_alloc.
  reflexivity.
Qed.

(** X7.  remove, with a configuration it accepts, asks for an id: called
    with the empty string, or with an object whose [id] is falsy, it throws
    the error about the id and sends nothing; the object it was given has
    [operation] written on it all the same.  Called with [undefined] or
    [null] it throws a TypeError instead. *)
Theorem remove_without_id (sv : services) (this : notifier) (h : heap) :
  validateConfig (config this) (Some [js "templateBucket"; js "app"]) h
  = (Return tt, h) ->
  remove sv this (VStr []) h
  = (Throw id_required,
     h ++ [OObj [(js "id", VStr []); (js "operation", VStr (js "REMOVE"))]])
  /\ (forall l o,
        h !! l = Some o -> truthy (obj_get o (js "id")) = false ->
        remove sv this (VRef l) h
        = (Throw id_required,
           <[l := obj_set o (js "operation") (VStr (js "REMOVE"))]> h
           ++ [OObj []]))
  /\ remove sv this VUndefined h = (Throw cannot_set, h ++ [OObj []])
  /\ remove sv this VNull h = (Throw cannot_set, h ++ [OObj []]).
Proof.
  intros Hc. split; [|split; [|split]].
  - rewrite (remove_starts _ _ _ _ Hc). cbn [isString].
    assert (H0 : (h ++ [OObj []]) !! length h = Some (OObj []))
      by (apply list_lookup_middle; reflexivity).
    rewrite bind_assoc, (bind_setp _ _ _ _ _ _ H0), bind_ret.
    pose proof (lookup_written _ _ _
      (obj_set (OObj []) (js "id") (VStr [])) H0) as H1.
    rewrite (bind_setp _ _ _ _ _ _ H1).
    pose proof (lookup_written _ _ _
      (obj_set (obj_set (OObj []) (js "id") (VStr [])) (js "operation")
         (VStr (js "REMOVE"))) H1) as H2.
    unfold _removeNotification. rewrite !(bind_getp _ _ _ _ _ H2).
    cbn. unfold throw, id_required. f_equal.
    rewrite list_insert_insert_eq.
    rewrite insert_app_r_alt by lia. rewrite Nat.sub_diag. reflexivity.
  - intros l o H Hid. rewrite (remove_starts _ _ _ _ Hc). cbn [isString].
    rewrite bind_ret.
    assert (H0 : (h ++ [OObj []]) !! l = Some o)
      by apply lookup_app_l_Some, H.
    rewrite (bind_setp _ _ _ _ _ _ H0).
    pose proof (lookup_written _ _ _
      (obj_set o (js "operation") (VStr (js "REMOVE"))) H0) as H1.
    unfold _removeNotification. rewrite !(bind_getp _ _ _ _ _ H1).
    rewrite (obj_get_set_eq _ _ _ key_operation).
    rewrite (obj_get_set_ne _ _ _ _ key_operation) by reflexivity.
    rewrite Hid. cbn. unfold throw, id_required. f_equal.
    apply insert_app_l. eapply lookup_lt_Some, H.
  - rewrite (remove_starts _ _ _ _ Hc). reflexivity.
  - rewrite (remove_starts _ _ _ _ Hc). reflexivity.
Qed.

Lemma remove_without_id_witness :
  remove Sample.echo
    (Notifier (VStr (js "https://api.example/notify")) VUndefined VUndefined)
    (VStr []) []
  = (Throw id_required,
     [OObj [(js "id", VStr []); (js "operation", VStr (js "REMOVE"))]]).
Proof.
  apply (remove_without_id Sample.echo
           (Notifier (VStr (js "https://api.example/notify")) VUndefined
              VUndefined) []).
  reflexivity.
Defined.

(** X8.  remove called with a number does not ask for an id: nothing can
    be written on a number, the check finds no [operation] and is passed
    over, and what is sent is the number alone, not a record. *)
Theorem remove_number_is_sent_bare (sv : services) (this : notifier)
  (h : heap) (z : Z) :
  validateConfig (config this) (Some [js "templateBucket"; js "app"]) h
  = (Return tt, h) ->
  str_length (Number_toString (Int z)) <= 256000 ->
  remove sv this (VNum (Int z)) h
  = transport sv (get_prop (config this) (js "api"))
      (Number_toString (Int z)) (h ++ [OObj []]).
Proof.
  intros Hc Hz. rewrite (remove_starts _ _ _ _ Hc). cbn [isString].
  rewrite bind_ret. cbn [setp]. rewrite bind_ret.
  unfold _removeNotification. cbn [getp]. rewrite !bind_ret.
  cbn [strict_eq andb].
  rewrite (_send_guard sv _ _ _ (Number_toString (Int z)))
    by (destruct (length _); reflexivity).
  destruct (Z.gtb_spec (str_length (Number_toString (Int z))) 256000);
    [lia|reflexivity].
Qed.

Lemma remove_number_is_sent_bare_witness :
  remove Sample.echo
    (Notifier (VStr (js "https://api.example/notify")) VUndefined VUndefined)
    (VNum (Int 42)) []
  = (Return (VStr (js "42")), [OObj []]).
Proof.
  apply (remove_number_is_sent_bare Sample.echo
           (Notifier (VStr (js "https://api.example/notify")) VUndefined
              VUndefined) [] 42).
  - reflexivity.
  - vm_compute. discriminate.
Defined.

(** ** The checks of create and update, in their order *)

Lemma validateConfig_any_store (config : props)
  (ignore : option (list jsstring)) (r : completion unit) (h h' : heap) :
  validateConfig config ignore h = (r, h) ->
  validateConfig config ignore h' = (r, h').
Proof.
  rewrite !validateConfig_run, !forEach_first. intros [= <-]. reflexivity.
Qed.

(** X9.  create and update look at the configuration first, then at the
    email, and update then asks for an id.  With a configuration that
    validateConfig refuses they throw its error; with a valid one and no
    email they throw the error about the email; with both in order and no
    [id] in the record, update throws the error about the id, whatever the
    collaborators: nothing is built or sent.  In each case [operation] has
    been written on the record of the caller. *)
Theorem put_checks_in_order (rt : runtime) (sv : services) (this : notifier)
  (h : heap) (l : loc) (ps : props) :
  h !! l = Some (OObj ps) ->
  let stamp op := <[l := OObj (set_prop ps (js "operation") (VStr op))]> h in
  (forall e,
      validateConfig (config this) None h = (Throw e, h) ->
      create rt sv this (VRef l) h = (Throw e, stamp (js "CREATE"))
      /\ update rt sv this (VRef l) h = (Throw e, stamp (js "UPDATE")))
  /\ (validateConfig (config this) None h = (Return tt, h) ->
      truthy (get_prop ps (js "email")) = false ->
      create rt sv this (VRef l) h
        = (Throw email_required, stamp (js "CREATE") ++ [OObj []])
      /\ update rt sv this (VRef l) h
         = (Throw email_required, stamp (js "UPDATE") ++ [OObj []]))
  /\ (validateConfig (config this) None h = (Return tt, h) ->
      distinct_keys ps = true ->
      has_prop ps (js "__proto__") = false ->
      truthy (get_prop ps (js "id")) = false ->
      forall s h',
        sanitizeEmailData (get_prop ps (js "email")) (stamp (js "UPDATE"))
        = (Return s, h') ->
        fst (update rt sv this (VRef l) h) = Throw update_id_required).
Proof.
  intros H stamp.
  assert (Hstart : forall op,
    (setp (VRef l) (js "operation") (VStr op) ;;
     _putNotification rt sv this (VRef l)) h
    = _putNotification rt sv this (VRef l) (stamp op)).
  { intros op. rewrite (bind_setp _ _ _ _ _ _ H). reflexivity. }
  assert (Hl : forall op,
    stamp op !! l = Some (OObj (set_prop ps (js "operation") (VStr op)))).
  { intros op. eapply lookup_written, H. }
  split; [|split].
  - intros e Hc. unfold create, update. rewrite !Hstart.
    unfold _putNotification.
    split; apply bind_throws, (validateConfig_any_store _ _ _ _ _ Hc).
  - intros Hc He. unfold create, update. rewrite !Hstart.
    unfold _putNotification.
    split;
      rewrite (bind_returns _ _ _ _ _
                 (validateConfig_any_store _ _ _ _ _ Hc)),
        (bind_getp _ _ _ _ _ (Hl _));
      cbn [obj_get];
      rewrite get_prop_set_ne by reflexivity;
      apply bind_throws; unfold sanitizeEmailData;
      rewrite bind_alloc, He; reflexivity.
  - intros Hc Hd Hp Hid s h' Hs. unfold update. rewrite Hstart.
    set (ps1 := set_prop ps (js "operation") (VStr (js "UPDATE"))).
    set (h1 := stamp (js "UPDATE")) in *.
    assert (H1 : h1 !! l = Some (OObj ps1)) by apply Hl.
    unfold _putNotification.
    rewrite (bind_returns _ _ _ _ _ (validateConfig_any_store _ _ _ _ _ Hc)).
    rewrite (bind_getp _ _ _ _ _ H1). cbn [obj_get].
    assert (He : get_prop ps1 (js "email") = get_prop ps (js "email"))
      by (apply get_prop_set_ne; reflexivity).
    rewrite He, (bind_returns _ _ _ _ _ Hs), bind_alloc.
    destruct (allocates_sanitizeEmailData (n := length h1)
                (get_prop ps (js "email")) h1 (le_n _)) as [[L1 U1] _].
    rewrite Hs in L1, U1. cbn [snd] in L1, U1.
    pose proof (lookup_lt_Some _ _ _ H1) as Hlt.
    assert (H2 : (h' ++ [OObj [(js "email", s)]]) !! l = Some (OObj ps1)).
    { apply lookup_app_l_Some. rewrite U1 by exact Hlt. exact H1. }
    assert (Hs2 : (h' ++ [OObj [(js "email", s)]]) !! length h'
                  = Some (OObj [(js "email", s)]))
      by (apply list_lookup_middle; reflexivity).
    assert (Hp1 : has_prop ps1 (js "__proto__") = false)
      by (unfold ps1; rewrite has_prop_set_prop, Hp; reflexivity).
    rewrite (bind_returns _ _ _ _ _
               (assign_fresh_entry _ l (length h') ps1 (js "email") s
                  H2 Hs2 (distinct_keys_set_prop _ _ _ Hd) Hp1 eq_refl)).
    erewrite !bind_getp by (apply list_lookup_middle; reflexivity).
    cbn [obj_get]. rewrite !get_prop_set_ne by reflexivity.
    unfold ps1 at 1. rewrite get_prop_set_eq.
    unfold ps1. rewrite get_prop_set_ne by reflexivity. rewrite Hid.
    reflexivity.
Qed.

Lemma put_checks_in_order_witness :
  let this := Notifier (VStr (js "https://api.example/notify"))
                (VStr (js "shop")) (VStr (js "bucket")) in
  let h := [OObj [(js "email", VRef 1%nat)];
            OObj [(js "from", VStr (js "me@example.com"));
                  (js "to", VStr (js "you@example.com"));
                  (js "subject", VStr (js "Hello"));
                  (js "body", VStr (js "Hi"))]] in
  fst (update Sample.engine Sample.echo this (VRef 0%nat) h)
  = Throw update_id_required.
Proof.
  intros this h.
  destruct (put_checks_in_order Sample.engine Sample.echo this h 0%nat
              [(js "email", VRef 1%nat)] eq_refl) as (_ & _ & Hid).
  eapply (Hid eq_refl eq_refl eq_refl eq_refl). reflexivity.
Defined.

(** ** The phone of an SMS *)

Lemma sanitizePhone_run (phone param : jsstring) (h : heap) :
  sanitizePhone (VStr phone) param h
  = (if e164 (js "+" ++ List.filter is_digit phone)
     then Return (VStr (js "+" ++ List.filter is_digit phone))
     else Throw (invalid_phone param), h).
Proof.
  unfold sanitizePhone, remove_non_digits. rewrite phoneRegex_e164.
  destruct (e164 _); reflexivity.
Qed.

Lemma sanitizePhone_good (phone param : jsstring) (h : heap) :
  e164 (js "+" ++ List.filter is_digit phone) = true ->
  sanitizePhone (VStr phone) param h
  = (Return (VStr (js "+" ++ List.filter is_digit phone)), h).
Proof. intros H. rewrite sanitizePhone_run, H. reflexivity. Qed.

Lemma sanitizePhone_bad (phone param : jsstring) (h : heap) :
  e164 (js "+" ++ List.filter is_digit phone) = false ->
  sanitizePhone (VStr phone) param h = (Throw (invalid_phone param), h).
Proof. intros H. rewrite sanitizePhone_run, H. reflexivity. Qed.

(** X10.  An SMS with a message, on a record without an own [__proto__]
    key.  With neither [phone] nor [to] it is refused for want of a
    recipient.  [to] is looked at first: a [to] that is no phone number is
    refused under its own name even when [phone] is a good number.  With a
    good [phone], and a [to] that is absent or good, the result is a new
    record with the message trimmed and with [phone] holding the number
    made of the digits of [phone]: [phone] wins over [to].  The record of
    the caller is left as it was. *)
Theorem sms_phone_rules (h : heap) (l : loc) (ps : props) (text : jsstring) :
  h !! l = Some (OObj ps) ->
  get_prop ps (js "message") = VStr text ->
  text <> [] ->
  let number p := js "+" ++ List.filter is_digit p in
  let sanitized := OObj [(js "message", VStr (trim text))] in
  (truthy (get_prop ps (js "phone")) = false ->
   truthy (get_prop ps (js "to")) = false ->
   validateAndSanitizeSMSData (VRef l) h = (Throw recipient_required, h))
  /\ (forall t,
        get_prop ps (js "to") = VStr t -> t <> [] ->
        e164 (number t) = false ->
        validateAndSanitizeSMSData (VRef l) h
        = (Throw (invalid_phone (js "to")), h ++ [sanitized]))
  /\ (forall p,
        distinct_keys ps = true ->
        has_prop ps (js "__proto__") = false ->
        get_prop ps (js "phone") = VStr p -> p <> [] ->
        e164 (number p) = true ->
        truthy (get_prop ps (js "to")) = false
        \/ (exists t, get_prop ps (js "to") = VStr t
                      /\ e164 (number t) = true) ->
        validateAndSanitizeSMSData (VRef l) h
        = (Return (VRef (S (length h))),
           h ++ [OObj [(js "message", VStr (trim text));
                       (js "phone", VStr (number p))];
                 OObj (set_prop (set_prop ps (js "message") (VStr (trim text)))
                         (js "phone") (VStr (number p)))])).
Proof.
  intros H Hm Ht number sanitized. subst sanitized.
  set (sanitized := OObj [(js "message", VStr (trim text))]).
  assert (Htruthy : forall s, s <> [] -> truthy (VStr s) = true)
    by (intros [|c s] Hs; [congruence|reflexivity]).
  assert (Hstart : forall K : value -> value -> M value,
    validateAndSanitizeSMSData (VRef l) h
    = K (get_prop ps (js "phone")) (get_prop ps (js "to")) h ->
    True) by auto.
  clear Hstart.
  unfold validateAndSanitizeSMSData.
  rewrite (bind_getp _ _ _ _ _ H). cbn [obj_get]. rewrite Hm, (Htruthy _ Ht).
  cbn [negb]. rewrite !(bind_getp _ _ _ _ _ H). cbn [obj_get].
  assert (H1 : (h ++ [sanitized]) !! l = Some (OObj ps))
    by apply lookup_app_l_Some, H.
  assert (Hs1 : (h ++ [sanitized]) !! length h = Some sanitized)
    by (apply list_lookup_middle; reflexivity).
  split; [|split].
  - intros -> ->. reflexivity.
  - intros t Hto Htne Hbad. rewrite Hto, (Htruthy _ Htne), andb_false_r.
    cbv iota. rewrite bind_alloc. cbv beta. fold sanitized.
    rewrite bind_assoc.
    apply bind_throws, sanitizePhone_bad, Hbad.
  - intros p Hd Hp Hphone Hpne Hgood Hto.
    rewrite Hphone, (Htruthy _ Hpne). cbn [negb andb]. cbv iota.
    rewrite bind_alloc. cbv beta. fold sanitized.
    assert (Hfinal : forall (h2 : heap) (sv : props),
      h2 !! l = Some (OObj ps) ->
      h2 !! length h = Some (OObj sv) ->
      length h2 = S (length h) ->
      set_prop sv (js "phone") (VStr (number p))
      = [(js "message", VStr (trim text)); (js "phone", VStr (number p))] ->
      ((let* p0 := sanitizePhone (VStr p) (js "phone") in
        setp (VRef (length h)) (js "phone") p0) ;;
       Object_assign_fresh (VRef l) (VRef (length h))) h2
      = (Return (VRef (S (length h))),
         <[length h := OObj [(js "message", VStr (trim text));
                               (js "phone", VStr (number p))]]> h2
         ++ [OObj (set_prop (set_prop ps (js "message") (VStr (trim text)))
                     (js "phone") (VStr (number p)))])).
    { intros h2 sv H2 Hsv L2 Esv.
      rewrite bind_assoc.
      rewrite (bind_returns _ _ _ _ _ (sanitizePhone_good p _ h2 Hgood)).
      fold (number p).
      rewrite (bind_setp _ _ _ _ _ _ Hsv). cbn [obj_set].
      rewrite Esv. unfold Object_assign_fresh. rewrite !bind_read.
      unfold own_props.
      assert (Hne : l <> length h).
      { intros ->. rewrite Hsv in H2. apply lookup_lt_Some in H. lia. }
      rewrite list_lookup_insert_ne by auto. rewrite H2.
      rewrite list_lookup_insert_eq by (rewrite L2; lia).
      rewrite (assign_set_plain [] ps Hp), (assign_props_distinct [] ps Hd).
      unfold assign_set. cbn [fold_left fst snd].
      change (str_eqb (js "message") (js "__proto__")) with false.
      change (str_eqb (js "phone") (js "__proto__")) with false. cbv iota.
      unfold alloc. rewrite length_insert, L2. reflexivity. }
    assert (Hend : forall (sv : props),
      <[length h := OObj sv]> (h ++ [sanitized]) ++ [OObj (set_prop
         (set_prop ps (js "message") (VStr (trim text))) (js "phone")
         (VStr (number p)))]
      = h ++ [OObj sv; OObj (set_prop
         (set_prop ps (js "message") (VStr (trim text))) (js "phone")
         (VStr (number p)))]).
    { intros sv. rewrite insert_app_r_alt by lia. rewrite Nat.sub_diag.
      cbn [insert list_insert]. rewrite <- app_assoc. reflexivity. }
    destruct Hto as [Hto|(t & Hto & Htgood)].
    + rewrite Hto, bind_ret.
      rewrite (Hfinal (h ++ [sanitized]) [(js "message", VStr (trim text))]
                 H1 Hs1); [apply f_equal, Hend| |reflexivity].
      rewrite length_app. cbn [length]. lia.
    + rewrite Hto. destruct (truthy (VStr t)) eqn:Ett.
      * rewrite bind_assoc.
        rewrite (bind_returns _ _ _ _ _ (sanitizePhone_good t _ _ Htgood)).
        fold (number t).
        rewrite (bind_setp _ _ _ _ _ _ Hs1).
        cbn [sanitized obj_set set_prop].
        change (str_eqb (js "message") (js "phone")) with false. cbv iota.
        rewrite (Hfinal _ [(js "message", VStr (trim text));
                           (js "phone", VStr (number t))]).
        -- rewrite list_insert_insert_eq. apply f_equal, Hend.
        -- rewrite list_lookup_insert_ne; [exact H1|].
           intros E. apply lookup_lt_Some in H. lia.
        -- apply list_lookup_insert_eq. rewrite length_app. cbn [length]. lia.
        -- rewrite length_insert, length_app. cbn [length]. lia.
        -- reflexivity.
      * rewrite bind_ret.
        rewrite (Hfinal (h ++ [sanitized]) [(js "message", VStr (trim text))]
                   H1 Hs1); [apply f_equal, Hend| |reflexivity].
        rewrite length_app. cbn [length]. lia.
Qed.

Lemma sms_phone_rules_witness :
  validateAndSanitizeSMSData (VRef 0%nat)
    [OObj [(js "message", VStr (js " Hi "));
           (js "to", VStr (js "0800"));
           (js "phone", VStr (js "+55 (48) 99875-4321"))]]
  = (Throw (invalid_phone (js "to")),
     [OObj [(js "message", VStr (js " Hi "));
            (js "to", VStr (js "0800"));
            (js "phone", VStr (js "+55 (48) 99875-4321"))];
      OObj [(js "message", VStr (js "Hi"))]]).
Proof.
  destruct (sms_phone_rules
              [OObj [(js "message", VStr (js " Hi "));
                     (js "to", VStr (js "0800"));
                     (js "phone", VStr (js "+55 (48) 99875-4321"))]]
              0%nat
              [(js "message", VStr (js " Hi "));
               (js "to", VStr (js "0800"));
               (js "phone", VStr (js "+55 (48) 99875-4321"))]
              (js " Hi ") eq_refl eq_refl) as (_ & Hto & _);
    [discriminate|].
  apply (Hto (js "0800")); [reflexivity | discriminate | reflexivity].
Defined.

(** ** The body of an email after the escaping *)

Lemma encode_char_no_markup (c : char) : no_markup (encode_char c) = true.
Proof.
  unfold encode_char.
  destruct (c =? 60)%N eqn:E1; [reflexivity|].
  destruct (c =? 62)%N eqn:E2; [reflexivity|].
  destruct (c =? 34)%N eqn:E3; [reflexivity|].
  destruct (c =? 39)%N eqn:E4; [reflexivity|].
  destruct (c =? 38)%N eqn:E5; [reflexivity|].
  unfold no_markup, is_markup. cbn [forallb]. rewrite E1, E2, E3, E4.
  reflexivity.
Qed.

Lemma encode_no_markup (s : jsstring) : no_markup (encode s) = true.
Proof.
  induction s as [|c s IH]; [reflexivity|]. unfold encode, no_markup in *.
  cbn [flat_map]. rewrite forallb_app, IH, andb_true_r.
  apply encode_char_no_markup.
Qed.

Lemma check_email_pure (email : value) (h : heap) :
  exists r, check_email email h = (r, h).
Proof.
  unfold check_email.
  repeat match goal with
  | |- context [bind (getp ?v ?k) _ ?h0] =>
      let r := fresh "r" in let Hr := fresh "Hr" in
      destruct (getp_pure v k h0) as [[r|r] Hr];
      [rewrite (bind_returns _ _ _ _ _ Hr)
      |rewrite (bind_throws _ _ _ _ _ Hr); eexists; reflexivity]
  end.
  repeat match goal with
  | |- context [if ?c then _ else _] =>
      destruct c; try (eexists; reflexivity)
  end.
  all: cbn [forEach].
  all: repeat match goal with
  | |- context [bind (getp ?v ?k) _ ?h0] =>
      let r := fresh "r" in let Hr := fresh "Hr" in
      destruct (getp_pure v k h0) as [[r|r] Hr];
      [rewrite (bind_returns _ _ _ _ _ Hr)
      |rewrite (bind_throws _ _ _ _ _ Hr); eexists; reflexivity]
  | |- context [bind (bind _ _) _ _] => rewrite bind_assoc
  | |- context [bind (ret _) _ _] => rewrite bind_ret
  | |- context [bind (throw _) _ _] => rewrite bind_throw; eexists; reflexivity
  | |- context [if ?c then _ else _] => destruct c
  end.
  all: eexists; reflexivity.
Qed.

Lemma assign_set_cons (acc sp : props) (k : jsstring) (v : value) :
  assign_set acc ((k, v) :: sp)
  = assign_set (if str_eqb k (js "__proto__") then acc
                else set_prop acc k v) sp.
Proof. reflexivity. Qed.

Lemma get_prop_assign_set_absent (sp : props) (k : jsstring) :
  has_prop sp k = false ->
  forall acc, get_prop (assign_set acc sp) k = get_prop acc k.
Proof.
  induction sp as [|[k0 v0] sp IH]; intros Hk acc; [reflexivity|].
  cbn [has_prop] in Hk. apply orb_false_iff in Hk as [H0 Hk].
  rewrite assign_set_cons, (IH Hk).
  destruct (str_eqb k0 (js "__proto__")); [reflexivity|].
  apply get_prop_set_ne, H0.
Qed.

(** What [Object.assign] leaves under a key of its last source. *)
Lemma get_prop_assign_set (sp : props) (k : jsstring) :
  distinct_keys sp = true -> has_prop sp k = true ->
  str_eqb k (js "__proto__") = false ->
  forall acc, get_prop (assign_set acc sp) k = get_prop sp k.
Proof.
  intros Hd Hk Hp. induction sp as [|[k0 v0] sp IH]; intros acc;
    [discriminate|].
  cbn [distinct_keys] in Hd. apply andb_true_iff in Hd as [H0 Hd].
  cbn [has_prop get_prop] in *. rewrite assign_set_cons.
  destruct (str_eqb k0 k) eqn:E.
  - apply str_eqb_eq in E. subst k0. rewrite Hp.
    apply negb_true_iff in H0.
    rewrite (get_prop_assign_set_absent sp k H0). apply get_prop_set_eq.
  - cbn [orb] in Hk. apply IH; auto.
Qed.

(** The loop over the recipients writes to its target the fields it goes
    through, and leaves the older objects as they are. *)
Lemma forEach_wrap_recipient (email : value) (t : loc) (keys : list jsstring) :
  forall (h : heap) (sp : props),
    h !! t = Some (OObj sp) ->
    distinct_keys sp = true ->
    Forall (fun v => str_eqb v (js "body") = false) keys ->
    exists sp',
      snd (forEach keys (wrap_recipient email (VRef t)) h) !! t
        = Some (OObj sp')
      /\ distinct_keys sp' = true
      /\ has_prop sp' (js "body") = has_prop sp (js "body")
      /\ get_prop sp' (js "body") = get_prop sp (js "body")
      /\ untouched t h (snd (forEach keys (wrap_recipient email (VRef t)) h)).
Proof.
  induction keys as [|v keys IH]; intros h sp Ht Hd Hk.
  - exists sp. cbn. repeat split; auto.
  - apply Forall_cons in Hk as [Hv Hk]. cbn [forEach].
    assert (Hstep : exists sp1 h1,
      snd (wrap_recipient email (VRef t) v h) = h1
      /\ h1 !! t = Some (OObj sp1)
      /\ distinct_keys sp1 = true
      /\ has_prop sp1 (js "body") = has_prop sp (js "body")
      /\ get_prop sp1 (js "body") = get_prop sp (js "body")
      /\ untouched t h h1).
    { unfold wrap_recipient.
      destruct (getp_pure email v h) as [[x|e] Hx].
      2:{ rewrite (bind_throws _ _ _ _ _ Hx). exists sp, h.
          repeat split; auto. }
      rewrite (bind_returns _ _ _ _ _ Hx), bind_read.
      destruct (truthy x && isString x).
      - rewrite bind_alloc.
        assert (Ht' : (h ++ [OArr [x] []]) !! t = Some (OObj sp))
          by apply lookup_app_l_Some, Ht.
        rewrite (setp_ref _ _ _ _ _ Ht'). cbn [snd obj_set].
        exists (set_prop sp v (VRef (length h))),
          (<[t := OObj (set_prop sp v (VRef (length h)))]>
             (h ++ [OArr [x] []])).
        split; [reflexivity|].
        split; [eapply lookup_written, Ht'|].
        split; [apply distinct_keys_set_prop, Hd|].
        split; [rewrite has_prop_set_prop, Hv, orb_false_r; reflexivity|].
        split; [apply get_prop_set_ne, Hv|].
        eapply untouched_trans;
          [apply untouched_app; apply lookup_lt_Some in Ht; lia|].
        apply untouched_insert. lia.
      - destruct (_ && _); exists sp, h; repeat split; auto. }
    destruct Hstep as (sp1 & h1 & E1 & Ht1 & Hd1 & Hh1 & Hg1 & U1).
    unfold bind.
    destruct (wrap_recipient email (VRef t) v h) as [[[]|e] h1'];
      cbn [snd] in E1; subst h1'.
    + destruct (IH h1 sp1 Ht1 Hd1 Hk) as (sp' & Ht' & Hd' & Hh' & Hg' & U').
      exists sp'. split; [exact Ht'|]. split; [exact Hd'|].
      split; [congruence|]. split; [congruence|].
      eapply untouched_trans; eassumption.
    + exists sp1. cbn [snd]. repeat split; auto; apply U1.
Qed.

(** X11.  An email with a text body that validateAndSanitizeEmailData
    accepts comes back, on a new record, with the body escaped: it holds
    none of the angle brackets and quotes of markup. *)
Theorem sanitized_body_is_escaped (h h' : heap) (l : loc) (ps : props)
  (b : jsstring) (v : value) :
  h !! l = Some (OObj ps) ->
  get_prop ps (js "body") = VStr b ->
  validateAndSanitizeEmailData (VRef l) h = (Return v, h') ->
  exists l' ps',
    v = VRef l' /\ (length h <= l')%nat
    /\ h' !! l' = Some (OObj ps')
    /\ get_prop ps' (js "body") = VStr (encode b)
    /\ no_markup (encode b) = true.
Proof.
  intros H Hb. unfold validateAndSanitizeEmailData.
  destruct (check_email_pure (VRef l) h) as [[[]|e] Hc];
    [|rewrite (bind_throws _ _ _ _ _ Hc); discriminate].
  rewrite (bind_returns _ _ _ _ _ Hc), bind_alloc. cbv beta.
  pose proof (lookup_lt_Some _ _ _ H) as Hl.
  assert (H1 : (h ++ [OObj []]) !! l = Some (OObj ps))
    by apply lookup_app_l_Some, H.
  assert (Hs1 : (h ++ [OObj []]) !! length h = Some (OObj []))
    by (apply list_lookup_middle; reflexivity).
  rewrite (bind_getp _ _ _ _ _ H1). cbn [obj_get]. rewrite Hb.
  cbn [isObject isString encodeString]. rewrite bind_ret.
  rewrite (bind_setp _ _ _ _ _ _ Hs1). cbn [obj_set set_prop].
  set (h2 := <[length h := OObj [(js "body", VStr (encode b))]]>
               (h ++ [OObj []])).
  assert (Hs2 : h2 !! length h = Some (OObj [(js "body", VStr (encode b))]))
    by (eapply lookup_written, Hs1).
  assert (H2 : h2 !! l = Some (OObj ps)).
  { unfold h2. rewrite list_lookup_insert_ne by lia. exact H1. }
  unfold wrap_recipients.
  destruct (forEach_wrap_recipient (VRef l) (length h)
              [js "to"; js "cc"; js "bcc"; js "replyTo"] h2 _ Hs2 eq_refl)
    as (sp' & Ht' & Hd' & Hh' & Hg' & [L3 U3]).
  { repeat constructor. }
  destruct (forEach _ _ h2) as [[[]|e] h3] eqn:Ef; cbn [snd] in *;
    [|rewrite (bind_throws _ _ _ _ _ Ef); discriminate].
  rewrite (bind_returns _ _ _ _ _ Ef).
  unfold Object_assign_fresh. rewrite !bind_read.
  unfold own_props. rewrite Ht', (U3 l Hl), H2.
  unfold alloc. intros [= <- <-].
  exists (length h3), (assign_set (assign_set [] ps) sp').
  split; [reflexivity|]. split.
  { unfold h2 in L3. rewrite length_insert, length_app in L3. lia. }
  split; [apply list_lookup_middle; reflexivity|].
  split; [|apply encode_no_markup].
  rewrite get_prop_assign_set; [exact Hg'|exact Hd'| |reflexivity].
  rewrite Hh'. reflexivity.
Qed.

Lemma sanitized_body_is_escaped_witness :
  let h := [OObj [(js "from", VStr (js "me@example.com"));
                  (js "to", VStr (js "you@example.com"));
                  (js "subject", VStr (js "Hello"));
                  (js "body", VStr (js "1 < 2"))]] in
  exists l' ps',
    VRef 3%nat = VRef l' /\ (length h <= l')%nat
    /\ snd (validateAndSanitizeEmailData (VRef 0%nat) h) !! l'
       = Some (OObj ps')
    /\ get_prop ps' (js "body") = VStr (encode (js "1 < 2"))
    /\ no_markup (encode (js "1 < 2")) = true.
Proof.
  intros h.
  apply (sanitized_body_is_escaped h _ 0%nat
           [(js "from", VStr (js "me@example.com"));
            (js "to", VStr (js "you@example.com"));
            (js "subject", VStr (js "Hello"));
            (js "body", VStr (js "1 < 2"))]);
    reflexivity.
Defined.

(** ** The question mark of the expression *)




